(** * Gander maintenance dashboard: recommendation, approval and notification pipeline

    A shallow embedding of the TypeScript sources

      - [lib/maintenance-scheduler.ts]   (class [MaintenanceScheduler])
      - [lib/openai-service.ts]          (class [OpenAIMaintenanceService])
      - [lib/agentic-workflow.ts]        (class [AgenticMaintenanceWorkflow])
      - [lib/email-service.ts]           (class [MaintenanceEmailService])
      - [app/api/maintenance-schedule/route.ts] (the GET and POST handlers)

    JavaScript numbers are embedded as rationals ([Q]); [Date] objects and the
    ISO-8601 strings printed from them are embedded as their time value in
    milliseconds ([Z]).  [Date.now()], [Math.random()] and the mail transports
    are read from an explicit environment carried in the state.  The tables
    that are plain objects indexed by a request's or a recommendation's own
    text are looked up as JavaScript does, through [Object.prototype]; the
    state carries what the handlers assign to the built-in objects. *)

From Stdlib Require Import ZArith QArith Qround Qabs String Ascii List Bool Lia.
From Stdlib Require Import DecimalString DecimalN DecimalZ Lqa.
From stdpp Require Import gmap strings list fin_maps.

Import ListNotations.
Local Open Scope string_scope.
Local Open Scope list_scope.

(* ===================================================================== *)
(** * Part I.  Definitions                                                *)
(* ===================================================================== *)

(** ** JavaScript numbers *)

Module JSNum.

(** [a > b] on numbers. *)
Definition gtb (a b : Q) : bool := negb (Qle_bool a b).
(** [a < b] on numbers. *)
Definition ltb (a b : Q) : bool := negb (Qle_bool b a).
Definition leb (a b : Q) : bool := Qle_bool a b.
Definition geb (a b : Q) : bool := Qle_bool b a.

(** [Math.max] and [Math.min] on two numbers (neither is NaN here). *)
Definition Math_max (a b : Q) : Q := if Qle_bool a b then b else a.
Definition Math_min (a b : Q) : Q := if Qle_bool a b then a else b.

(** [Math.floor]. *)
Definition Math_floor (a : Q) : Z := Qfloor a.

(** [Math.round]: the integer nearest to [a], ties towards +infinity. *)
Definition Math_round (a : Q) : Z := Qfloor (a + (1 # 2)).

(** Truncation towards zero, as the [Date] constructor applies to a
    fractional time value. *)
Definition trunc (a : Q) : Z :=
  if Qle_bool 0 a then Qfloor a else Qceiling a.

End JSNum.

(** ** [maintenance-scheduler.ts] *)

Module Scheduler.

Record SchedulingConfig := {
  costWeight : Q;
  availabilityWeight : Q;
  utilizationWeight : Q;
  safetyWeight : Q;
  minSafetyMarginHours : Q;
  maxDowntimeHours : Q;
  preferredMaintenanceDays : list Z;
  maintenanceCapacity : Q;
  predictionHorizonDays : Q;
  utilizationLookbackDays : Q
}.

Definition defaultSchedulingConfig : SchedulingConfig := {|
  costWeight := 3 # 10;
  availabilityWeight := 4 # 10;
  utilizationWeight := 2 # 10;
  safetyWeight := 1 # 10;
  minSafetyMarginHours := 10;
  maxDowntimeHours := 48;
  preferredMaintenanceDays := [0%Z; 6%Z];
  maintenanceCapacity := 2;
  predictionHorizonDays := 90;
  utilizationLookbackDays := 30
|}.

Record MaintenanceScheduleItem := {
  item_id : string;
  item_aircraftId : string;
  item_tailNumber : string;
  item_maintenanceType : string;
  item_scheduledDate : Z;
  item_estimatedDuration : Q;
  item_priority : string;
  item_confidenceScore : Q;
  item_reasoning : list string;
  item_conflictsWith : list string;
  item_alternativeDates : list Z;
  item_estimatedCost : Q;
  item_impactOnOperations : string;
  item_requiredParts : list string;
  item_mechanicRequirements : list string
}.

Record Period := { p_start : Z; p_end : Z; p_level : Q }.

Record UtilizationPattern := {
  up_aircraftId : string;
  dailyAverageHours : Q;
  weeklyPattern : list Q;
  monthlyPattern : list Q;
  seasonalTrends : list (Z * Q);
  peakPeriods : list Period;
  lowPeriods : list Period;
  predictedUtilization : list (Z * Q)
}.

Section WithTypes.

(** [FlightPlan] and [WorkOrder] come from [@/types]; the optimizer only
    passes them along. *)
Context {FlightPlan WorkOrder : Type}.

Variable config : SchedulingConfig.

Definition calculateCostScore (schedule : list MaintenanceScheduleItem) : Q := 8 # 10.
Definition calculateAvailabilityScore (schedule : list MaintenanceScheduleItem)
  (patterns : list UtilizationPattern) : Q := 9 # 10.
Definition calculateUtilizationScore (schedule : list MaintenanceScheduleItem)
  (patterns : list UtilizationPattern) : Q := 85 # 100.
Definition calculateSafetyScore (schedule : list MaintenanceScheduleItem) : Q := 95 # 100.

Definition mutateSchedule (schedule : list MaintenanceScheduleItem)
  (patterns : list UtilizationPattern) : list MaintenanceScheduleItem :=
  schedule.

Definition evaluateSchedule (schedule : list MaintenanceScheduleItem)
  (patterns : list UtilizationPattern) (upcomingFlights : list FlightPlan) : Q :=
  let costScore := calculateCostScore schedule in
  let availabilityScore := calculateAvailabilityScore schedule patterns in
  let utilizationScore := calculateUtilizationScore schedule patterns in
  let safetyScore := calculateSafetyScore schedule in
  (costScore * costWeight config
   + availabilityScore * availabilityWeight config
   + utilizationScore * utilizationWeight config
   + safetyScore * safetyWeight config)%Q.

(** The body of [for (let iteration = 0; iteration < 100; iteration++)],
    run [n] more times on the pair [(bestSchedule, bestScore)]. *)
Fixpoint improve (n : nat) (patterns : list UtilizationPattern)
  (upcomingFlights : list FlightPlan)
  (best : list MaintenanceScheduleItem * Q) : list MaintenanceScheduleItem * Q :=
  match n with
  | O => best
  | S n' =>
      let mutatedSchedule := mutateSchedule (fst best) patterns in
      let score := evaluateSchedule mutatedSchedule patterns upcomingFlights in
      improve n' patterns upcomingFlights
        (if JSNum.gtb score (snd best) then (mutatedSchedule, score) else best)
  end.

Definition optimizeSchedule (predictedMaintenance : list MaintenanceScheduleItem)
  (upcomingFlights : list FlightPlan) (patterns : list UtilizationPattern)
  (currentWorkOrders : list WorkOrder) : list MaintenanceScheduleItem :=
  let bestSchedule := predictedMaintenance in
  let bestScore := evaluateSchedule bestSchedule patterns upcomingFlights in
  fst (improve 100 patterns upcomingFlights (bestSchedule, bestScore)).

End WithTypes.

End Scheduler.

(** ** Strings *)

Module JSString.

(** [String(n)] for a non-negative integer [n]. *)
Definition ofN (n : N) : string := NilZero.string_of_uint (N.to_uint n).
Definition ofNat (n : nat) : string := ofN (N.of_nat n).

(** [s.substr(start, length)]. *)
Definition substr (start len : nat) (s : string) : string := String.substring start len s.

(** [l.includes(s)] on an array of strings. *)
Definition includes (l : list string) (s : string) : bool := existsb (String.eqb s) l.

(** Truthiness of an optional string: [undefined] and [''] are falsy. *)
Definition truthy (o : option string) : bool :=
  match o with
  | Some s => negb (String.eqb s "")
  | None => false
  end.

(** [`${o}`] for an optional string. *)
Definition interpolate (o : option string) : string :=
  match o with Some s => s | None => "undefined" end.

End JSString.

(** ** Data model *)

(** *** [email-service.ts] *)

Record EmailRecipient := {
  rcp_name : string;
  rcp_email : string;
  rcp_role : string
}.

Record AircraftInfo := {
  ai_tailNumber : string;
  ai_make : string;
  ai_model : string;
  ai_totalTime : Q
}.

Record MaintenanceDetails := {
  md_type : string;
  md_scheduledDate : Z;
  md_estimatedDuration : Q;
  md_location : string;
  md_estimatedCost : Q
}.

Record TaskAssignments := {
  ta_mechanic : string;
  ta_inspector : option string;
  ta_supervisor : string
}.

(** What [resources.equipment] holds.  The interface says [string[]]; the
    value comes from [equipmentMap[maintenanceType] || [...]], a lookup in
    a plain object, which gives an array of the table, or else what every
    object inherits under that name: one of the built-ins of
    [Object.prototype] (named here by the property that leads to it), or
    the string found under a name that [Object.prototype] has been given. *)
Inductive Equipment :=
  | Tools (items : list string)
  | BuiltIn (name : string)
  | Text (s : string).

Record Resources := {
  res_hangar : string;
  res_equipment : Equipment;
  res_parts : list string
}.

Record ComplianceInfo := {
  ci_regulations : list string;
  ci_requiredDocumentation : list string
}.

Record ApprovalInfo := {
  ap_approvedBy : string;
  ap_approvedAt : Z;
  ap_notes : option string
}.

Record MaintenanceEmailData := {
  ed_recommendationId : string;
  ed_workflowId : string;
  ed_aircraftInfo : AircraftInfo;
  ed_maintenanceDetails : MaintenanceDetails;
  ed_taskAssignments : TaskAssignments;
  ed_resources : Resources;
  ed_complianceInfo : ComplianceInfo;
  ed_approvalInfo : ApprovalInfo
}.

Inductive Provider := mailtrap | gmail | sendgrid | simulation.

Record Auth := { auth_user : string; auth_pass : string }.

Record SMTPConfig := {
  provider : Provider;
  host : option string;
  port : option Z;
  secure : option bool;
  auth : option Auth;
  from : string;
  inboxId : option string
}.

(** The result of one [sendEmail]: [{ success, messageId?, error? }]. *)
Record SendResult := {
  success : bool;
  messageId : option string;
  error : option string
}.

(** The summary returned by [sendMaintenanceNotificationEmails]. *)
Record EmailSummary := {
  sum_success : bool;
  sentEmails : nat;
  failures : list string
}.

(** One invocation of [sendEmail], as the service reports it on the console:
    the addressee and what the send returned. *)
Record Attempt := {
  att_recipient : EmailRecipient;
  att_result : SendResult
}.

(** *** [route.ts] *)

Inductive RecStatus := PENDING | APPROVED | REJECTED | SCHEDULED | IN_PROGRESS | COMPLETED.

Definition RecStatus_name (s : RecStatus) : string :=
  match s with
  | PENDING => "PENDING"
  | APPROVED => "APPROVED"
  | REJECTED => "REJECTED"
  | SCHEDULED => "SCHEDULED"
  | IN_PROGRESS => "IN_PROGRESS"
  | COMPLETED => "COMPLETED"
  end.

Record TimeWindow := {
  earliest : Z;
  latest : Z;
  optimal : Z
}.

Record MaintenanceRecommendation := {
  rec_id : string;
  rec_aircraftId : string;
  rec_tailNumber : string;
  rec_maintenanceType : string;
  rec_urgency : string;
  rec_scheduledDate : Z;
  rec_recommendedDate : Z;
  rec_estimatedCost : Q;
  rec_estimatedDuration : Q;
  rec_estimatedDowntime : Q;
  rec_description : string;
  rec_aiConfidence : Q;
  rec_reasoning : list string;
  rec_status : RecStatus;
  rec_workflowId : option string;
  rec_complianceRequirements : list string;
  rec_riskFactors : list string;
  rec_affectedAssets : list string;
  rec_requiredPersonnel : list string;
  rec_timeWindow : TimeWindow;
  rec_createdAt : Z;
  rec_approvedBy : option string;
  rec_approvedAt : option Z
}.

Record Progress := {
  tasksCompleted : Z;
  totalTasks : Z;
  currentTask : string;
  nextMilestone : string;
  pr_estimatedCompletion : Z
}.

Record Assignments := {
  mechanic : string;
  inspector : option string;
  supervisor : string
}.

Record Timeline := {
  started : Z;
  tl_estimatedCompletion : Z;
  actualCompletion : option Z
}.

Record Notifications := {
  lastSent : Z;
  nextReminder : Z;
  escalationLevel : Z
}.

Record ActiveWorkflow := {
  wf_id : string;
  wf_recommendationId : string;
  wf_aircraftId : string;
  wf_tailNumber : string;
  wf_maintenanceType : string;
  wf_status : string;
  wf_progress : Progress;
  wf_assignments : Assignments;
  wf_resources : Resources;
  wf_timeline : Timeline;
  wf_notifications : Notifications
}.

(** *** [agentic-workflow.ts] *)

(** Text with holes for what the locale and the number printer render:
    [`${q}`] for a number, [toLocaleString()], [toLocaleDateString()] and
    [getFullYear()] for a date, [toLowerCase()] for a string.  Those
    renderings are left symbolic. *)
Inductive Segment :=
  | Lit (s : string)
  | Num (q : Q)
  | LocaleDateTime (t : Z)
  | LocaleDate (t : Z)
  | FullYear (t : Z)
  | LowerCase (s : string).

Record NotificationRecord := {
  nt_id : string;
  nt_type : string;
  nt_recipient : string;
  nt_subject : string;
  nt_content : list Segment;
  nt_sentAt : Z;
  nt_status : string;
  nt_retryCount : Z
}.

Record TaskAssignment := {
  as_id : string;
  as_recommendationId : string;
  as_assigneeType : string;
  as_assigneeName : string;
  as_assigneeEmail : string;
  as_assigneePhone : option string;
  as_taskDescription : string;
  as_scheduledStart : Z;
  as_estimatedDuration : Q;
  as_location : string;
  as_specialInstructions : option string;
  as_requiredTools : list string;
  as_requiredParts : option (list string);
  as_status : string;
  as_notificationsSent : list NotificationRecord;
  as_digitalChecklistUrl : option string;
  as_signOffRequired : bool
}.

Record CalendarEvent := {
  ce_id : string;
  ce_title : string;
  ce_description : string;
  ce_start : Z;
  ce_end : Z;
  ce_location : string;
  ce_attendees : list string;
  ce_resources : list string;
  ce_calendarSystem : string;
  ce_eventId : string;
  ce_remindersSent : bool
}.

Record ResourceBooking := {
  rb_id : string;
  rb_resourceType : string;
  rb_resourceName : string;
  rb_bookedFrom : Z;
  rb_bookedUntil : Z;
  rb_bookedBy : string;
  rb_recommendationId : string;
  rb_status : string
}.

Record ComplianceLog := {
  cl_id : string;
  cl_recommendationId : string;
  cl_regulationType : string;
  cl_regulation : string;
  cl_description : string;
  cl_complianceAction : string;
  cl_loggedAt : Z;
  cl_loggedBy : string;
  cl_documentationLinks : list string;
  cl_auditReady : bool
}.

(** A value stored under a key of [dataChanges]. *)
Inductive DataValue :=
  | DString (s : string)
  | DNumber (n : Z)
  | DUndefined.

Record AuditTrailEntry := {
  au_id : string;
  au_timestamp : Z;
  au_action : string;
  au_actor : string;
  au_actorType : string;
  au_details : string;
  au_dataChanges : option (list (string * DataValue));
  au_complianceRelevant : bool
}.

(** The fields of a [MaintenanceTask] that identify it. *)
Record MaintenanceTask := {
  task_id : string;
  task_title : string;
  task_estimatedMinutes : Z
}.

Record WorkOrderCreation := {
  wo_id : string;
  wo_recommendationId : string;
  wo_workOrderNumber : list Segment;
  wo_title : string;
  wo_description : string;
  wo_aircraftId : string;
  wo_maintenanceType : string;
  wo_tasks : list MaintenanceTask;
  wo_assignedMechanic : string;
  wo_assignedInspector : option string;
  wo_scheduledStart : Z;
  wo_estimatedCompletion : Z;
  wo_status : string;
  wo_complianceReferences : list string;
  wo_auditTrail : list AuditTrailEntry
}.

(** A callback registered with [setTimeout]: the reminder it will send. *)
Record Timer := {
  tm_delay : Z;
  tm_recommendationId : string;
  tm_message : string
}.

(** What [AgenticMaintenanceWorkflow.approveRecommendation] resolves to. *)
Record ApprovalResult := {
  apr_success : bool;
  apr_workflowId : string;
  apr_message : string;
  apr_estimatedCompletion : Z
}.

(** ** The environment and the module-level state *)

(** One value of [Math.random()]: the number, and the text
    [Number.prototype.toString(36)] prints for it. *)
Record Draw := {
  value : Q;
  base36 : string
}.

(** What a mail transport (SMTP or the HTTP API) answers to one message:
    accepted, with the id the server assigned if it reports one, or an
    error with its message. *)
Inductive Reply :=
  | Delivered (serverId : option string)
  | Refused (message : string).

Record Env := {
  clock : nat -> N;      (* the successive readings of Date.now() *)
  ticks : nat;
  random : nat -> Draw;  (* the successive values of Math.random() *)
  draws : nat;
  transport : nat -> Reply;
  posts : nat;
  localMonth : Z -> Z    (* getMonth() of a time value, in the host's time zone *)
}.

Record Store := {
  mockRecommendations : list MaintenanceRecommendation;
  mockActiveWorkflows : gmap string ActiveWorkflow
}.

Record Agent := {
  auditTrail : list AuditTrailEntry;
  timers : list Timer
}.

(** [builtins] records the one thing this code changes in the runtime's
    own objects.  A plain object inherits twelve properties from
    [Object.prototype] (see [Route.inheritedNames]); each leads to a
    built-in object: eleven functions and, under [__proto__],
    [Object.prototype] itself.  None of them has a [status] property until
    [updateWorkflowStatus] assigns one: [builtins] maps the inherited name
    to the [status] its built-in has been given.  The entry of [__proto__]
    is [Object.prototype.status], which every object then inherits. *)
Record World := {
  env : Env;
  process_env : gmap string string;
  sendLog : list Attempt;
  store : Store;
  agent : Agent;
  builtins : gmap string string
}.

Definition with_env (e : Env) (w : World) : World :=
  {| env := e; process_env := process_env w; sendLog := sendLog w;
     store := store w; agent := agent w; builtins := builtins w |}.
Definition with_sendLog (l : list Attempt) (w : World) : World :=
  {| env := env w; process_env := process_env w; sendLog := l;
     store := store w; agent := agent w; builtins := builtins w |}.
Definition with_store (s : Store) (w : World) : World :=
  {| env := env w; process_env := process_env w; sendLog := sendLog w;
     store := s; agent := agent w; builtins := builtins w |}.
Definition with_agent (a : Agent) (w : World) : World :=
  {| env := env w; process_env := process_env w; sendLog := sendLog w;
     store := store w; agent := a; builtins := builtins w |}.
Definition with_builtins (b : gmap string string) (w : World) : World :=
  {| env := env w; process_env := process_env w; sendLog := sendLog w;
     store := store w; agent := agent w; builtins := b |}.

(** [Object.prototype.status], the [status] that an object without one of
    its own is read to have. *)
Definition inheritedStatus (w : World) : option string := builtins w !! "__proto__".

(** ** Computations: state passing with exceptions *)

Inductive Completion (A : Type) :=
  | Normal (a : A)
  | Throw (message : string).
Arguments Normal {A} a.
Arguments Throw {A} message.

Definition M (A : Type) : Type := World -> Completion A * World.

Definition ret {A} (a : A) : M A := fun w => (Normal a, w).

Definition bind {A B} (m : M A) (k : A -> M B) : M B :=
  fun w =>
    match m w with
    | (Normal a, w') => k a w'
    | (Throw e, w') => (Throw e, w')
    end.

Definition throw {A} (message : string) : M A := fun w => (Throw message, w).

(** [try { m } catch (error) { handler error.message }]. *)
Definition try_catch {A} (m : M A) (handler : string -> M A) : M A :=
  fun w =>
    match m w with
    | (Normal a, w') => (Normal a, w')
    | (Throw e, w') => handler e w'
    end.

Definition get : M World := fun w => (Normal w, w).
Definition modify (f : World -> World) : M unit := fun w => (Normal tt, f w).

Declare Scope js_scope.
Delimit Scope js_scope with js.
Notation "'let!' x ':=' c1 'in' c2" := (bind c1 (fun x => c2))
  (at level 10, x pattern, c1 at level 100, c2 at level 200) : js_scope.
Notation "c1 ';;;' c2" := (bind c1 (fun _ => c2))
  (at level 100, c2 at level 200, right associativity) : js_scope.
Local Open Scope js_scope.

(** The completion of an awaited call to an external service. *)
Definition await {A} (c : Completion A) : M A := fun w => (c, w).

(** [Date.now()]. *)
Definition Date_now : M N :=
  fun w =>
    let e := env w in
    (Normal (clock e (ticks e)),
     with_env {| clock := clock e; ticks := S (ticks e); random := random e;
                 draws := draws e; transport := transport e; posts := posts e;
                 localMonth := localMonth e |} w).

(** [Math.random()]. *)
Definition Math_random : M Draw :=
  fun w =>
    let e := env w in
    (Normal (random e (draws e)),
     with_env {| clock := clock e; ticks := ticks e; random := random e;
                 draws := S (draws e); transport := transport e; posts := posts e;
                 localMonth := localMonth e |} w).

(** One message handed to the configured transport. *)
Definition post : M Reply :=
  fun w =>
    let e := env w in
    (Normal (transport e (posts e)),
     with_env {| clock := clock e; ticks := ticks e; random := random e;
                 draws := draws e; transport := transport e; posts := S (posts e);
                 localMonth := localMonth e |} w).

(** [new Date()] and [new Date().toISOString()]: the current time value. *)
Definition new_Date : M Z := let! t := Date_now in ret (Z.of_N t).

(** [new Date(x)] for a fractional [x]: the time value is truncated. *)
Definition Date_of (x : Q) : Z := JSNum.trunc x.

(** [l.flatMap(f)] for a callback that reads the environment. *)
Fixpoint flatMapM {A B} (f : A -> M (list B)) (l : list A) : M (list B) :=
  match l with
  | [] => ret []
  | a :: l' =>
      let! bs := f a in
      let! rest := flatMapM f l' in
      ret (bs ++ rest)
  end.

(** [process.env.NAME], with an unset or empty variable read as [None]
    (both are falsy). *)
Definition getenv (name : string) (w : World) : option string :=
  match process_env w !! name with
  | Some v => if String.eqb v "" then None else Some v
  | None => None
  end.

(** ** [email-service.ts] *)

Module EmailService.

(** What [generateEmailContent] renders for one recipient.  The [html] and
    [text] bodies are fixed templates filled with the same data; they are
    only handed to the transport, and are not reproduced here, but for the
    one place where rendering them can fail (see [generateEmailContent]). *)
Record EmailContent := {
  subject : string
}.

(** The options passed to [nodemailer.createTransport]. *)
Record TransportConfig := {
  tc_service : option string;
  tc_host : option string;
  tc_port : option Z;
  tc_secure : option bool;
  tc_user : option string;
  tc_pass : option string
}.

Record MaintenanceEmailService := {
  baseUrl : string;
  smtpConfig : SMTPConfig;
  transporter : option TransportConfig
}.

(** [this.smtpConfig.auth?.user === u]. *)
Definition auth_user_is (c : SMTPConfig) (u : string) : bool :=
  match auth c with
  | Some a => String.eqb (auth_user a) u
  | None => false
  end.

Definition getTransportConfig (c : SMTPConfig) : option TransportConfig :=
  match provider c with
  | mailtrap =>
      Some {| tc_service := None; tc_host := Some "sandbox.smtp.mailtrap.io";
              tc_port := Some 587%Z; tc_secure := Some false;
              tc_user := option_map auth_user (auth c);
              tc_pass := option_map auth_pass (auth c) |}
  | gmail =>
      Some {| tc_service := Some "gmail"; tc_host := None;
              tc_port := None; tc_secure := None;
              tc_user := option_map auth_user (auth c);
              tc_pass := option_map auth_pass (auth c) |}
  | sendgrid =>
      Some {| tc_service := None; tc_host := Some "smtp.sendgrid.net";
              tc_port := Some 587%Z; tc_secure := Some false;
              tc_user := Some "apikey";
              tc_pass := option_map auth_pass (auth c) |}
  | simulation => None
  end.

Definition initializeTransporter (c : SMTPConfig) : option TransportConfig :=
  match provider c with
  | simulation => None
  | _ =>
      if match provider c with mailtrap => auth_user_is c "api" | _ => false end
      then None
      else getTransportConfig c
  end.

(** [new MaintenanceEmailService(baseUrl, smtpConfig)]. *)
Definition new (baseUrl : string) (smtpConfig : option SMTPConfig) : MaintenanceEmailService :=
  let c := match smtpConfig with
           | Some c => c
           | None => {| provider := simulation; host := None; port := None; secure := None;
                        auth := None; from := "noreply@ganderaviation.com"; inboxId := None |}
           end in
  {| baseUrl := baseUrl; smtpConfig := c; transporter := initializeTransporter c |}.

(** The [html] template calls [resources.equipment.map(...)]: a value
    that is not an array has no [map], and the call throws. *)
Definition generateEmailContent (emailData : MaintenanceEmailData)
  (recipient : EmailRecipient) : M EmailContent :=
  match res_equipment (ed_resources emailData) with
  | Tools _ =>
      ret {| subject := "🔧 SCHEDULED MAINTENANCE: "
                          +:+ ai_tailNumber (ed_aircraftInfo emailData)
                          +:+ " - " +:+ md_type (ed_maintenanceDetails emailData) |}
  | BuiltIn _ | Text _ => throw "resources.equipment.map is not a function"
  end.

(** [a || b] where [a] may be missing or empty. *)
Definition or_else (a : option string) (b : string) : string :=
  if JSString.truthy a then JSString.interpolate a else b.

(** [transporter.sendMail] and [axios.post]: resolve with the server's id
    for the message, or throw. *)
Definition deliver : M (option string) :=
  let! reply := post in
  match reply with
  | Delivered serverId => ret serverId
  | Refused message => throw message
  end.

Definition sendSimulatedEmail (recipient : EmailRecipient) (content : EmailContent)
  (emailData : MaintenanceEmailData) (messageId : string) : M SendResult :=
  try_catch
    (let! delay := Math_random in
     let! r := Math_random in
     if JSNum.ltb (value r) (5 # 100)
     then throw "SMTP connection timeout"
     else ret {| success := true; messageId := Some messageId; error := None |})
    (fun message =>
       ret {| success := false; messageId := None; error := Some message |}).

Definition sendMailtrapAPIEmail (recipient : EmailRecipient) (content : EmailContent)
  (emailData : MaintenanceEmailData) (messageId : string) : M SendResult :=
  try_catch
    (let! serverId := deliver in
     ret {| success := true; messageId := Some (or_else serverId messageId);
            error := None |})
    (fun message =>
       ret {| success := false; messageId := None; error := Some message |}).

Definition sendMailtrapTestingEmail (recipient : EmailRecipient) (content : EmailContent)
  (emailData : MaintenanceEmailData) (messageId : string) : M SendResult :=
  try_catch
    (let! serverId := deliver in
     ret {| success := true; messageId := Some (or_else serverId messageId);
            error := None |})
    (fun message =>
       ret {| success := false; messageId := None; error := Some message |}).

(** The branches of [sendEmail] once the message id is drawn. *)
Definition sendVia (this : MaintenanceEmailService) (recipient : EmailRecipient)
  (content : EmailContent) (emailData : MaintenanceEmailData)
  (messageId : string) : M SendResult :=
  let c := smtpConfig this in
  match provider c with
  | simulation => sendSimulatedEmail recipient content emailData messageId
  | p =>
      if match p with mailtrap => auth_user_is c "api" | _ => false end
      then sendMailtrapAPIEmail recipient content emailData messageId
      else if match p with mailtrap => auth_user_is c "testing" | _ => false end
      then sendMailtrapTestingEmail recipient content emailData messageId
      else
        match transporter this with
        | None =>
            ret {| success := false; messageId := None;
                   error := Some "No email transporter configured" |}
        | Some _ =>
            try_catch
              (let! serverId := deliver in
               ret {| success := true; messageId := Some (or_else serverId messageId);
                      error := None |})
              (fun message =>
                 ret {| success := false; messageId := None; error := Some message |})
        end
  end.

Definition sendEmail (this : MaintenanceEmailService) (recipient : EmailRecipient)
  (content : EmailContent) (emailData : MaintenanceEmailData) : M SendResult :=
  let! now := Date_now in
  let! r := Math_random in
  let messageId := "msg-" +:+ JSString.ofN now +:+ "-"
                     +:+ JSString.substr 2 9 (base36 r) in
  let! result := sendVia this recipient content emailData messageId in
  modify (fun w => with_sendLog
                     (sendLog w ++ [{| att_recipient := recipient; att_result := result |}])
                     w) ;;;
  ret result.

(** The body of [for (const recipient of recipients)], threading the two
    accumulators [emailResults] and [failures]. *)
Fixpoint notifyEach (this : MaintenanceEmailService) (emailData : MaintenanceEmailData)
  (recipients : list EmailRecipient)
  (emailResults : list SendResult) (failures : list string)
  : M (list SendResult * list string) :=
  match recipients with
  | [] => ret (emailResults, failures)
  | recipient :: rest =>
      let! acc :=
        try_catch
          (let! emailContent := generateEmailContent emailData recipient in
           let! emailResult := sendEmail this recipient emailContent emailData in
           if success emailResult
           then ret (emailResults ++ [emailResult], failures)
           else ret (emailResults,
                     failures ++ ["Failed to send to " +:+ rcp_name recipient +:+ ": "
                                    +:+ JSString.interpolate (error emailResult)]))
          (fun message =>
             ret (emailResults,
                  failures ++ ["Exception sending to " +:+ rcp_name recipient +:+ ": "
                                 +:+ message])) in
      notifyEach this emailData rest (fst acc) (snd acc)
  end.

Definition sendMaintenanceNotificationEmails (this : MaintenanceEmailService)
  (emailData : MaintenanceEmailData) (recipients : list EmailRecipient)
  : M EmailSummary :=
  let! acc := notifyEach this emailData recipients [] [] in
  let emailResults := fst acc in
  let failures := snd acc in
  ret {| sum_success := Nat.eqb (length failures) 0;
         sentEmails := length emailResults;
         failures := failures |}.

Definition getDefaultRecipients (maintenanceType : string) : list EmailRecipient :=
  let baseRecipients :=
    [ {| rcp_name := "John Smith"; rcp_email := "john.smith@ganderaviation.com";
         rcp_role := "MECHANIC" |};
      {| rcp_name := "Tom Anderson"; rcp_email := "tom.anderson@ganderaviation.com";
         rcp_role := "SUPERVISOR" |};
      {| rcp_name := "Sarah Johnson"; rcp_email := "sarah.johnson@ganderaviation.com";
         rcp_role := "PARTS_MANAGER" |} ] in
  let baseRecipients :=
    if JSString.includes ["C_CHECK"; "ANNUAL"; "100_HOUR"] maintenanceType
    then baseRecipients ++ [ {| rcp_name := "David Chen";
                                rcp_email := "david.chen@ganderaviation.com";
                                rcp_role := "INSPECTOR" |} ]
    else baseRecipients in
  baseRecipients ++ [ {| rcp_name := "Captain Mike Wilson";
                         rcp_email := "mike.wilson@ganderaviation.com";
                         rcp_role := "PILOT" |} ].

End EmailService.

(** ** [agentic-workflow.ts] *)

Module Agentic.

Definition nl : string := String (ascii_of_nat 10) EmptyString.

Definition hours (h : Z) : Z := (h * 60 * 60 * 1000)%Z.

(** [l.join(', ')]. *)
Definition join (l : list string) : string := String.concat ", " l.

(** [s.slice(-n)]: the last [n] characters. *)
Definition slice_last (n : nat) (s : string) : string :=
  String.substring (String.length s - n) n s.

Definition logAuditEntry (action actor details : string)
  (dataChanges : list (string * DataValue)) (complianceRelevant : bool) : M unit :=
  let! now := Date_now in
  let! r := Math_random in
  let! timestamp := new_Date in
  let entry :=
    {| au_id := "audit-" +:+ JSString.ofN now +:+ "-" +:+ JSString.substr 2 9 (base36 r);
       au_timestamp := timestamp;
       au_action := action;
       au_actor := actor;
       au_actorType := if String.eqb actor "SYSTEM" || String.eqb actor "AI_SYSTEM"
                       then "SYSTEM" else "USER";
       au_details := details;
       au_dataChanges := if Nat.ltb 0 (length dataChanges) then Some dataChanges else None;
       au_complianceRelevant := complianceRelevant |} in
  modify (fun w => with_agent {| auditTrail := auditTrail (agent w) ++ [entry];
                                 timers := timers (agent w) |} w).

Definition createTaskAssignments (recommendationId : string) : M (list TaskAssignment) :=
  let! id1 := Date_now in
  let! start1 := Date_now in
  let! id2 := Date_now in
  let! start2 := Date_now in
  ret [ {| as_id := "assign-" +:+ JSString.ofN id1 +:+ "-1";
           as_recommendationId := recommendationId;
           as_assigneeType := "MECHANIC";
           as_assigneeName := "John Smith";
           as_assigneeEmail := "john.smith@example.com";
           as_assigneePhone := Some "+1-555-0123";
           as_taskDescription := "Lead maintenance inspection";
           as_scheduledStart := (Z.of_N start1 + hours 24)%Z;
           as_estimatedDuration := 8;
           as_location := "Hangar A, Bay 2";
           as_specialInstructions := Some "Review AD compliance checklist before starting";
           as_requiredTools := ["Inspection Tools"; "Torque Wrench"; "Multimeter"];
           as_requiredParts := None;
           as_status := "ASSIGNED";
           as_notificationsSent := [];
           as_digitalChecklistUrl := None;
           as_signOffRequired := true |};
        {| as_id := "assign-" +:+ JSString.ofN id2 +:+ "-2";
           as_recommendationId := recommendationId;
           as_assigneeType := "PARTS_MANAGER";
           as_assigneeName := "Sarah Johnson";
           as_assigneeEmail := "sarah.johnson@example.com";
           as_assigneePhone := None;
           as_taskDescription := "Prepare required parts and consumables";
           as_scheduledStart := (Z.of_N start2 + hours 2)%Z;
           as_estimatedDuration := 2;
           as_location := "Parts Department";
           as_specialInstructions := None;
           as_requiredTools := ["Parts Catalog"];
           as_requiredParts := Some ["Oil Filters"; "Spark Plugs"; "Aviation Oil"];
           as_status := "ASSIGNED";
           as_notificationsSent := [];
           as_digitalChecklistUrl := None;
           as_signOffRequired := false |} ].

(** The template of [generateNotificationContent], after [.trim()]. *)
Definition generateNotificationContent (assignment : TaskAssignment) : list Segment :=
  [ Lit ("Dear " +:+ as_assigneeName assignment +:+ "," +:+ nl +:+ nl
         +:+ "You have been assigned a maintenance task:" +:+ nl +:+ nl
         +:+ "Task: " +:+ as_taskDescription assignment +:+ nl
         +:+ "Scheduled Start: ");
    LocaleDateTime (as_scheduledStart assignment);
    Lit (nl +:+ "Duration: ");
    Num (as_estimatedDuration assignment);
    Lit (" hours" +:+ nl
         +:+ "Location: " +:+ as_location assignment +:+ nl +:+ nl
         +:+ "Required Tools: " +:+ join (as_requiredTools assignment) +:+ nl
         +:+ match as_requiredParts assignment with
             | Some parts => "Required Parts: " +:+ join parts
             | None => ""
             end +:+ nl
         +:+ (if JSString.truthy (as_specialInstructions assignment)
              then "Special Instructions: "
                     +:+ JSString.interpolate (as_specialInstructions assignment)
              else "") +:+ nl +:+ nl
         +:+ "Please confirm receipt of this assignment." +:+ nl +:+ nl
         +:+ (if JSString.truthy (as_digitalChecklistUrl assignment)
              then "Digital Checklist: "
                     +:+ JSString.interpolate (as_digitalChecklistUrl assignment)
              else "") +:+ nl +:+ nl
         +:+ "Best regards," +:+ nl
         +:+ "Gander Maintenance System") ].

Definition with_notificationsSent (l : list NotificationRecord) (a : TaskAssignment)
  : TaskAssignment :=
  {| as_id := as_id a; as_recommendationId := as_recommendationId a;
     as_assigneeType := as_assigneeType a; as_assigneeName := as_assigneeName a;
     as_assigneeEmail := as_assigneeEmail a; as_assigneePhone := as_assigneePhone a;
     as_taskDescription := as_taskDescription a; as_scheduledStart := as_scheduledStart a;
     as_estimatedDuration := as_estimatedDuration a; as_location := as_location a;
     as_specialInstructions := as_specialInstructions a;
     as_requiredTools := as_requiredTools a; as_requiredParts := as_requiredParts a;
     as_status := as_status a; as_notificationsSent := l;
     as_digitalChecklistUrl := as_digitalChecklistUrl a;
     as_signOffRequired := as_signOffRequired a |}.

(** [sendNotifications] records the notifications on each assignment
    object; the assignments are returned as they stand afterwards. *)
Fixpoint sendNotifications (assignments : list TaskAssignment) : M (list TaskAssignment) :=
  match assignments with
  | [] => ret []
  | assignment :: rest =>
      let! id := Date_now in
      let! sentAt := new_Date in
      let notifications :=
        [ {| nt_id := "notif-" +:+ JSString.ofN id +:+ "-" +:+ as_id assignment;
             nt_type := "EMAIL";
             nt_recipient := as_assigneeEmail assignment;
             nt_subject := "Maintenance Task Assignment - "
                             +:+ as_taskDescription assignment;
             nt_content := generateNotificationContent assignment;
             nt_sentAt := sentAt;
             nt_status := "SENT";
             nt_retryCount := 0 |} ] in
      let! notifications :=
        if JSString.truthy (as_assigneePhone assignment)
        then
          let! smsId := Date_now in
          let! smsSentAt := new_Date in
          ret (notifications ++
               [ {| nt_id := "notif-sms-" +:+ JSString.ofN smsId +:+ "-" +:+ as_id assignment;
                    nt_type := "SMS";
                    nt_recipient := JSString.interpolate (as_assigneePhone assignment);
                    nt_subject := "Maintenance Task";
                    nt_content := [ Lit ("Task assigned: " +:+ as_taskDescription assignment
                                         +:+ ". Start: ");
                                    LocaleDate (as_scheduledStart assignment) ];
                    nt_sentAt := smsSentAt;
                    nt_status := "SENT";
                    nt_retryCount := 0 |} ])
        else ret notifications in
      let! rest' := sendNotifications rest in
      ret (with_notificationsSent notifications assignment :: rest')
  end.

Definition createCalendarEvent (recommendationId : string) : M CalendarEvent :=
  let! id := Date_now in
  let! start := Date_now in
  let! finish := Date_now in
  ret {| ce_id := "cal-" +:+ JSString.ofN id;
         ce_title := "Aircraft Maintenance - A-Check";
         ce_description := "Scheduled maintenance inspection";
         ce_start := (Z.of_N start + hours 24)%Z;
         ce_end := (Z.of_N finish + hours 32)%Z;
         ce_location := "Hangar A, Bay 2";
         ce_attendees := ["john.smith@example.com"; "sarah.johnson@example.com"];
         ce_resources := ["Hangar A"; "Maintenance Tools"; "Ground Power Unit"];
         ce_calendarSystem := "INTERNAL";
         ce_eventId := "maint-" +:+ recommendationId;
         ce_remindersSent := false |}.

Definition bookResources (recommendationId : string) : M (list ResourceBooking) :=
  let! id1 := Date_now in
  let! from1 := Date_now in
  let! until1 := Date_now in
  let! id2 := Date_now in
  let! from2 := Date_now in
  let! until2 := Date_now in
  ret [ {| rb_id := "book-" +:+ JSString.ofN id1 +:+ "-1";
           rb_resourceType := "HANGAR";
           rb_resourceName := "Hangar A - Bay 2";
           rb_bookedFrom := (Z.of_N from1 + hours 24)%Z;
           rb_bookedUntil := (Z.of_N until1 + hours 32)%Z;
           rb_bookedBy := "Maintenance Scheduler";
           rb_recommendationId := recommendationId;
           rb_status := "RESERVED" |};
        {| rb_id := "book-" +:+ JSString.ofN id2 +:+ "-2";
           rb_resourceType := "GSE";
           rb_resourceName := "Ground Power Unit #3";
           rb_bookedFrom := (Z.of_N from2 + hours 24)%Z;
           rb_bookedUntil := (Z.of_N until2 + hours 32)%Z;
           rb_bookedBy := "Maintenance Scheduler";
           rb_recommendationId := recommendationId;
           rb_status := "RESERVED" |} ].

(** [maintenanceChecklists['A_CHECK'].tasks] of [maintenance-tasks.ts]. *)
Definition aCheckTasks : list MaintenanceTask :=
  [ {| task_id := "a-01"; task_title := "Visual Inspection of Airframe";
       task_estimatedMinutes := 45 |};
    {| task_id := "a-02"; task_title := "Flight Controls Operational Check";
       task_estimatedMinutes := 30 |};
    {| task_id := "a-03"; task_title := "Lubrication of Moving Parts";
       task_estimatedMinutes := 60 |};
    {| task_id := "a-04"; task_title := "Avionics Systems Check";
       task_estimatedMinutes := 40 |};
    {| task_id := "a-05"; task_title := "Fluid Level Check and Top-up";
       task_estimatedMinutes := 25 |};
    {| task_id := "a-06"; task_title := "Landing Gear Inspection";
       task_estimatedMinutes := 35 |};
    {| task_id := "a-07"; task_title := "Lighting Systems Test";
       task_estimatedMinutes := 20 |};
    {| task_id := "a-08"; task_title := "Safety Equipment Check";
       task_estimatedMinutes := 15 |} ].

Definition createWorkOrder (recommendationId approvedBy : string) : M WorkOrderCreation :=
  let! id := Date_now in
  let! year := new_Date in
  let! number := Date_now in
  let! start := Date_now in
  let! completion := Date_now in
  let! auditId := Date_now in
  let! auditAt := new_Date in
  ret {| wo_id := "wo-" +:+ JSString.ofN id;
         wo_recommendationId := recommendationId;
         wo_workOrderNumber := [ Lit "WO-"; FullYear year;
                                 Lit ("-" +:+ slice_last 6 (JSString.ofN number)) ];
         wo_title := "A-Check Inspection - Scheduled Maintenance";
         wo_description := "Comprehensive A-Check inspection per FAA requirements";
         wo_aircraftId := "n123ab";
         wo_maintenanceType := "A_CHECK";
         wo_tasks := aCheckTasks;
         wo_assignedMechanic := "John Smith";
         wo_assignedInspector := Some "Mike Wilson";
         wo_scheduledStart := (Z.of_N start + hours 24)%Z;
         wo_estimatedCompletion := (Z.of_N completion + hours 32)%Z;
         wo_status := "CREATED";
         wo_complianceReferences := ["FAR 91.409"; "FAR 43.13"];
         wo_auditTrail :=
           [ {| au_id := "audit-" +:+ JSString.ofN auditId;
                au_timestamp := auditAt;
                au_action := "WORK_ORDER_CREATED";
                au_actor := approvedBy;
                au_actorType := "USER";
                au_details := "Work order created from approved recommendation "
                                +:+ recommendationId;
                au_dataChanges := None;
                au_complianceRelevant := true |} ] |}.

Definition createComplianceLogs (recommendationId : string) : M (list ComplianceLog) :=
  let! id1 := Date_now in
  let! at1 := new_Date in
  let! id2 := Date_now in
  let! at2 := new_Date in
  ret [ {| cl_id := "comp-" +:+ JSString.ofN id1 +:+ "-1";
           cl_recommendationId := recommendationId;
           cl_regulationType := "FAR_135";
           cl_regulation := "FAR 135.411";
           cl_description := "Part 135 maintenance schedule compliance";
           cl_complianceAction :=
             "Scheduled A-Check inspection per approved maintenance program";
           cl_loggedAt := at1;
           cl_loggedBy := "Agentic Workflow System";
           cl_documentationLinks := [];
           cl_auditReady := true |};
        {| cl_id := "comp-" +:+ JSString.ofN id2 +:+ "-2";
           cl_recommendationId := recommendationId;
           cl_regulationType := "FAR_43";
           cl_regulation := "FAR 43.13";
           cl_description := "Maintenance performance standards";
           cl_complianceAction :=
             "Work order created with qualified personnel assignments";
           cl_loggedAt := at2;
           cl_loggedBy := "Agentic Workflow System";
           cl_documentationLinks := [];
           cl_auditReady := true |} ].

(** [setTimeout(callback, delay)]: the callback is queued, not run. *)
Definition setTimeout (delay : Z) (recommendationId message : string) : M unit :=
  modify (fun w =>
    with_agent {| auditTrail := auditTrail (agent w);
                  timers := timers (agent w)
                              ++ [ {| tm_delay := delay;
                                      tm_recommendationId := recommendationId;
                                      tm_message := message |} ] |} w).

Definition scheduleReminders (recommendationId : string) : M unit :=
  setTimeout 1000 recommendationId
    "24-hour reminder: Maintenance scheduled for tomorrow" ;;;
  setTimeout 2000 recommendationId
    "2-hour reminder: Maintenance starting soon".

(** What a queued reminder does when its timer fires. *)
Definition sendReminder (recommendationId message : string) : M unit :=
  logAuditEntry "REMINDER_SENT" "SYSTEM"
    ("Sent reminder for recommendation " +:+ recommendationId)
    [("message", DString message)] false.

Record SequenceResult := {
  sq_workflowId : string;
  sq_actionsCompleted : Z;
  sq_estimatedCompletion : Z
}.

(** The single [try { ... } catch] of [executeAutomatedSequence], applied to
    the statements run while the local counter holds [actionsCompleted]:
    the handler logs that count and rethrows. *)
Definition guarded {A} (recommendationId : string) (actionsCompleted : Z) (m : M A) : M A :=
  try_catch m
    (fun message =>
       logAuditEntry "AUTOMATED_SEQUENCE_FAILED" "SYSTEM"
         ("Automated sequence failed for recommendation " +:+ recommendationId)
         [("error", DString message); ("actionsCompleted", DNumber actionsCompleted)]
         true ;;;
       throw message).

Definition executeAutomatedSequence (recommendationId approvedBy : string)
  : M SequenceResult :=
  let! now := Date_now in
  let workflowId := "workflow-" +:+ JSString.ofN now in
  let actionsCompleted := 0%Z in
  let! assignments :=
    guarded recommendationId actionsCompleted
      (let! assignments := createTaskAssignments recommendationId in
       sendNotifications assignments) in
  let actionsCompleted := (actionsCompleted + 1)%Z in
  let! booked :=
    guarded recommendationId actionsCompleted
      (let! calendarEvent := createCalendarEvent recommendationId in
       let! resourceBookings := bookResources recommendationId in
       ret (calendarEvent, resourceBookings)) in
  let calendarEvent := fst booked in
  let actionsCompleted := (actionsCompleted + 1)%Z in
  let! workOrder :=
    guarded recommendationId actionsCompleted
      (createWorkOrder recommendationId approvedBy) in
  let actionsCompleted := (actionsCompleted + 1)%Z in
  let! logs :=
    guarded recommendationId actionsCompleted
      (createComplianceLogs recommendationId) in
  let actionsCompleted := (actionsCompleted + 1)%Z in
  guarded recommendationId actionsCompleted (scheduleReminders recommendationId) ;;;
  let actionsCompleted := (actionsCompleted + 1)%Z in
  guarded recommendationId actionsCompleted
    (let! t := Date_now in
     let estimatedCompletion := (Z.of_N t + hours 48)%Z in
     logAuditEntry "AUTOMATED_SEQUENCE_COMPLETED" "SYSTEM"
       ("Completed automated sequence for workflow " +:+ workflowId)
       [ ("workflowId", DString workflowId);
         ("recommendationId", DString recommendationId);
         ("actionsCompleted", DNumber actionsCompleted);
         ("workOrderId", DString (wo_id workOrder));
         ("calendarEventId", DString (ce_id calendarEvent)) ]
       true ;;;
     ret {| sq_workflowId := workflowId;
            sq_actionsCompleted := actionsCompleted;
            sq_estimatedCompletion := estimatedCompletion |}).

(** [`${n}`] for the action counter. *)
Definition ofZ (n : Z) : string := NilZero.string_of_int (Z.to_int n).

Definition approveRecommendation (recommendationId approvedBy : string)
  (approvalNotes : option string) : M ApprovalResult :=
  logAuditEntry "RECOMMENDATION_APPROVED" approvedBy
    ("Approved recommendation " +:+ recommendationId)
    [ ("recommendationId", DString recommendationId);
      ("approvalNotes", match approvalNotes with
                        | Some s => DString s
                        | None => DUndefined
                        end) ]
    true ;;;
  try_catch
    (let! workflowResult := executeAutomatedSequence recommendationId approvedBy in
     ret {| apr_success := true;
            apr_workflowId := sq_workflowId workflowResult;
            apr_message := "Maintenance workflow initiated successfully. "
                             +:+ ofZ (sq_actionsCompleted workflowResult)
                             +:+ " automated actions completed.";
            apr_estimatedCompletion := sq_estimatedCompletion workflowResult |})
    (fun message =>
       logAuditEntry "APPROVAL_FAILED" "SYSTEM"
         ("Failed to process approval for " +:+ recommendationId)
         [("error", DString message)] true ;;;
       let! t := new_Date in
       ret {| apr_success := false;
              apr_workflowId := "";
              apr_message := "Failed to initiate workflow: " +:+ message;
              apr_estimatedCompletion := t |}).

(** [getAuditTrail(filterCompliance)]. *)
Definition getAuditTrail (filterCompliance : bool) : M (list AuditTrailEntry) :=
  let! w := get in
  ret (if filterCompliance
       then List.filter au_complianceRelevant (auditTrail (agent w))
       else auditTrail (agent w)).

End Agentic.

(** ** [openai-service.ts] *)

Module OpenAIService.

(** Numbers as the untyped path sees them: the value may be [NaN] or an
    infinity (an overflowing literal of the parsed answer). *)
Inductive JSNumber :=
  | NaN
  | Finite (q : Q)
  | PosInfinity
  | NegInfinity.

(** A value read from the parsed answer of the model ([aiResult: any]);
    [JUndefined] is what reading a missing key gives. *)
#[local] Set Warnings "-register-all".
Inductive Value :=
  | JUndefined
  | JNull
  | JBool (b : bool)
  | JNumber (n : JSNumber)
  | JString (s : string)
  | JArray (elements : list Value)
  | JObject (fields : list (string * Value)).

(** [a <= b] for two numbers that are not [NaN]. *)
Definition num_leb (a b : JSNumber) : bool :=
  match a, b with
  | NaN, _ | _, NaN => false
  | NegInfinity, _ => true
  | _, PosInfinity => true
  | Finite x, Finite y => Qle_bool x y
  | _, _ => false
  end.

Definition Math_min (a b : JSNumber) : JSNumber :=
  match a, b with
  | NaN, _ | _, NaN => NaN
  | _, _ => if num_leb a b then a else b
  end.

Definition Math_max (a b : JSNumber) : JSNumber :=
  match a, b with
  | NaN, _ | _, NaN => NaN
  | _, _ => if num_leb a b then b else a
  end.

(** [lo <= n && n <= hi]: false for [NaN]. *)
Definition within (lo hi : Q) (n : JSNumber) : bool :=
  num_leb (Finite lo) n && num_leb n (Finite hi).

Definition truthy (v : Value) : bool :=
  match v with
  | JUndefined | JNull => false
  | JBool b => b
  | JNumber NaN => false
  | JNumber (Finite q) => negb (Qeq_bool q 0)
  | JNumber _ => true
  | JString s => negb (String.eqb s "")
  | JArray _ | JObject _ => true
  end.

(** [v || d]. *)
Definition or_else (v d : Value) : Value := if truthy v then v else d.

(** The value stored under [k] by [JSON.parse]: the last occurrence of the
    key wins. *)
Definition own (k : string) (fields : list (string * Value)) : option Value :=
  fold_left (fun acc kv => if String.eqb (fst kv) k then Some (snd kv) else acc)
    fields None.

(** [v.k] for one of the keys the service reads (none of them is a
    property of a prototype). *)
Definition prop (v : Value) (k : string) : M Value :=
  match v with
  | JUndefined | JNull => throw ("TypeError: Cannot read properties of " +:+ k)
  | JObject fields => ret (match own k fields with Some x => x | None => JUndefined end)
  | _ => ret JUndefined
  end.

Section Conversions.

(** The runtime's reading of a string as a number, and the string an
    array converts to ([Array.prototype.toString], which may throw). *)
Variable StringToNumber : string -> JSNumber.
Variable ArrayToString : list Value -> Completion string.

(** [ToNumber], as [Math.min] and [*] apply it to an operand. *)
Definition ToNumber (v : Value) : M JSNumber :=
  match v with
  | JUndefined => ret NaN
  | JNull => ret (Finite 0)
  | JBool b => ret (Finite (if b then 1 else 0))
  | JNumber n => ret n
  | JString s => ret (StringToNumber s)
  | JArray elements =>
      match ArrayToString elements with
      | Normal s => ret (StringToNumber s)
      | Throw message => throw message
      end
  | JObject fields =>
      (* an own, non-callable [toString] hides [Object.prototype.toString] *)
      match own "toString" fields with
      | Some _ => throw "TypeError: Cannot convert object to primitive value"
      | None => ret NaN   (* the number read from '[object Object]' *)
      end
  end.

(** [ToPropertyKey], as [requirements[maintenanceType]] applies it to the
    key, for its completion only: the key itself is not carried. *)
Definition ToPropertyKey (v : Value) : M unit :=
  match v with
  | JArray elements =>
      match ArrayToString elements with
      | Normal _ => ret tt
      | Throw message => throw message
      end
  | JObject fields =>
      match own "toString" fields with
      | Some _ => throw "TypeError: Cannot convert object to primitive value"
      | None => ret tt   (* the key '[object Object]' *)
      end
  | _ => ret tt
  end.

(** [new Date(x)]: the time value, [NaN] for an invalid date. *)
Definition TimeClip (x : JSNumber) : JSNumber :=
  match x with
  | Finite q =>
      if Qle_bool (Qabs q) 8640000000000000 then Finite (inject_Z (JSNum.trunc q)) else NaN
  | _ => NaN
  end.

(** What [processAIRecommendations] builds from one element of the
    answer.  The fields hold whatever the answer held; the
    [complianceRequirements] field is evaluated but not carried. *)
Record ProcessedRecommendation := {
  pr_tailNumber : Value;
  pr_maintenanceType : Value;
  pr_priority : Value;
  pr_confidence : JSNumber;
  pr_reasoning : Value;
  pr_estimatedCost : Value;
  pr_estimatedDuration : Value;
  pr_suggestedDate : JSNumber;
  pr_riskFactors : Value
}.

Definition processOne (rec : Value) : M ProcessedRecommendation :=
  let! tailNumber := prop rec "tailNumber" in
  let! maintenanceType := prop rec "maintenanceType" in
  let! priority := prop rec "priority" in
  let! confidence := prop rec "confidence" in
  let! c := ToNumber (or_else confidence (JNumber (Finite 75))) in
  let! reasoning := prop rec "reasoning" in
  let! estimatedCost := prop rec "estimatedCost" in
  let! estimatedDuration := prop rec "estimatedDuration" in
  let! now := Date_now in
  let! suggestedDateOffset := prop rec "suggestedDateOffset" in
  let! offset := ToNumber (or_else suggestedDateOffset (JNumber (Finite 7))) in
  let! riskFactors := prop rec "riskFactors" in
  let! complianceRequirements := prop rec "complianceRequirements" in
  match complianceRequirements with
  | JArray _ => ret tt
  | _ =>
      (* this.getComplianceRequirements(rec.maintenanceType) *)
      let! key := prop rec "maintenanceType" in ToPropertyKey key
  end ;;;
  ret {| pr_tailNumber := or_else tailNumber (JString "");
         pr_maintenanceType := or_else maintenanceType (JString "A_CHECK");
         pr_priority := or_else priority (JString "MEDIUM");
         pr_confidence := Math_max (Finite 50) (Math_min (Finite 95) c);
         pr_reasoning := or_else reasoning (JString "AI-generated maintenance recommendation");
         pr_estimatedCost := or_else estimatedCost (JNumber (Finite 10000));
         pr_estimatedDuration := or_else estimatedDuration (JNumber (Finite 8));
         pr_suggestedDate :=
           TimeClip (match offset with
                     | Finite q => Finite (inject_Z (Z.of_N now)
                                           + q * 24 * 60 * 60 * 1000)
                     | other => other
                     end);
         pr_riskFactors := match riskFactors with
                           | JArray _ => riskFactors
                           | _ => JArray [JString "Standard maintenance"]
                           end |}.

(** [l.map(f)] for a callback that may throw. *)
Fixpoint mapM {A B} (f : A -> M B) (l : list A) : M (list B) :=
  match l with
  | [] => ret []
  | a :: l' =>
      let! b := f a in
      let! bs := mapM f l' in
      ret (b :: bs)
  end.

Definition processAIRecommendations (aiResult : Value) : M (list ProcessedRecommendation) :=
  let! recommendations := prop aiResult "recommendations" in
  match recommendations with
  | JArray elements => mapM processOne elements
  | _ => throw "Invalid AI response format"
  end.

End Conversions.

(** *** The typed path: the demo generator *)

Record LastInspection := {
  li_type : string;
  li_date : string;
  li_hoursAgo : Q
}.

Record AircraftData := {
  ad_tailNumber : string;
  ad_aircraftType : string;
  ad_totalAircraftTime : Q;
  ad_totalCycles : Q;
  ad_lastInspection : option LastInspection
}.

Record UtilizationData := {
  utilizationPercentage : Q;
  flightHours : Q;
  avgFlightTime : Q;
  maintenanceRisk : string;
  trend : string
}.

Record FlightRecord := {
  fr_flightDate : Z;
  fr_flightTime : Q;
  fr_cycles : Q
}.

Record ScheduleDemandData := {
  currentPeriodDemand : string;
  upcomingBookings : Z;
  averageWeeklyUtilization : Q;
  demandTrend : string;
  operationalPressure : string
}.

Record SeasonalData := {
  currentSeason : string;
  peakSeason : bool;
  seasonalDemandPattern : string;
  weatherFactors : list string;
  maintenanceWindowOpportunity : string
}.

Record MaintenanceRecommendationInput := {
  aircraftData : AircraftData;
  utilizationData : UtilizationData;
  flightHistory : list FlightRecord;
  scheduleDemandData : option ScheduleDemandData;
  seasonalData : option SeasonalData
}.

Record AIMaintenanceRecommendation := {
  ar_tailNumber : string;
  ar_maintenanceType : string;
  ar_priority : string;
  ar_confidence : Q;
  ar_reasoning : list Segment;
  ar_estimatedCost : Q;
  ar_estimatedDuration : Q;
  ar_suggestedDate : Z;
  ar_riskFactors : list (list Segment);
  ar_complianceRequirements : list string
}.

(** Lookup in a literal table with the [||] default. *)
Fixpoint table {A} (entries : list (string * A)) (default : A) (key : string) : A :=
  match entries with
  | [] => default
  | (k, v) :: rest => if String.eqb k key then v else table rest default key
  end.

Definition getMaintenanceCost (type : string) : Q :=
  table [ ("A_CHECK", 15000%Q); ("B_CHECK", 35000%Q); ("C_CHECK", 85000%Q);
          ("D_CHECK", 200000%Q); ("100_HOUR", 4000%Q); ("ANNUAL", 18000%Q);
          ("PROGRESSIVE", 25000%Q); ("AD_COMPLIANCE", 8000%Q); ("SB_COMPLIANCE", 12000%Q);
          ("ENGINE_OVERHAUL", 450000%Q); ("PROP_OVERHAUL", 25000%Q) ] 10000%Q type.

Definition getMaintenanceDuration (type : string) : Q :=
  table [ ("A_CHECK", 8%Q); ("B_CHECK", 24%Q); ("C_CHECK", 120%Q); ("D_CHECK", 720%Q);
          ("100_HOUR", 4%Q); ("ANNUAL", 36%Q); ("PROGRESSIVE", 16%Q); ("AD_COMPLIANCE", 6%Q);
          ("SB_COMPLIANCE", 12%Q); ("ENGINE_OVERHAUL", 240%Q); ("PROP_OVERHAUL", 48%Q) ] 8%Q type.

Definition getComplianceRequirements (maintenanceType : string) : list string :=
  table [ ("A_CHECK", ["FAR 91.409"; "FAR 135.421"]);
          ("B_CHECK", ["FAR 91.409"; "FAR 135.421"; "FAR 145.109"]);
          ("C_CHECK", ["FAR 91.409"; "FAR 135.421"; "FAR 145.109"]);
          ("ANNUAL", ["FAR 91.409"; "FAR 91.411"]);
          ("100_HOUR", ["FAR 91.409"; "FAR 135.421"]);
          ("AD_COMPLIANCE", ["FAR 39.7"; "FAR 91.403"]);
          ("ENGINE_OVERHAUL", ["FAR 91.421"; "FAR 135.421"]) ]
    ["FAR 91.409"] maintenanceType.

Definition getCurrentSeason (month : Z) : string :=
  if (2 <=? month)%Z && (month <=? 4)%Z then "SPRING"
  else if (5 <=? month)%Z && (month <=? 7)%Z then "SUMMER"
  else if (8 <=? month)%Z && (month <=? 10)%Z then "FALL"
  else "WINTER".

Definition isPeakSeason (month : Z) : bool :=
  ((5 <=? month)%Z && (month <=? 7)%Z) || (month =? 11)%Z || (month =? 0)%Z.

Definition getSeasonalWeatherFactors (season : string) : list string :=
  table [ ("SPRING", ["Variable weather patterns"; "Increased turbulence";
                      "Pollen and dust exposure"]);
          ("SUMMER", ["High temperature operations"; "Thunderstorm activity";
                      "Increased UV exposure"]);
          ("FALL", ["Temperature fluctuations"; "Increased precipitation";
                    "Seasonal wind patterns"]);
          ("WINTER", ["Cold weather operations"; "Ice and snow conditions";
                      "Reduced daylight hours"]) ] [] season.

Definition getMaintenanceWindowOpportunity (month : Z) : string :=
  let isPeak := isPeakSeason month in
  if negb isPeak && ((month =? 1)%Z || (month =? 2)%Z || (month =? 9)%Z || (month =? 10)%Z)
  then "EXCELLENT"
  else if negb isPeak then "GOOD"
  else if (month =? 6)%Z || (month =? 7)%Z then "LIMITED"
  else "POOR".

(** [s.includes(sub)]. *)
Definition contains (sub s : string) : bool :=
  match String.index 0 sub s with Some _ => true | None => false end.

Definition getEnhancedRiskFactors (utilization : UtilizationData) (maintenanceType : string)
  (scheduleDemand : ScheduleDemandData) (seasonalData : SeasonalData)
  : list (list Segment) :=
  let factors :=
    (if String.eqb (operationalPressure scheduleDemand) "HIGH"
     then [[Lit "High operational pressure limiting maintenance windows"]] else [])
    ++ (if String.eqb (currentPeriodDemand scheduleDemand) "PEAK"
        then [[Lit "Peak demand period reducing aircraft availability"]] else [])
    ++ (if String.eqb (demandTrend scheduleDemand) "INCREASING"
        then [[Lit "Increasing demand trend affecting scheduling flexibility"]] else [])
    ++ (if peakSeason seasonalData
        then [[Lit "Peak season operational constraints"]] else [])
    ++ (if String.eqb (maintenanceWindowOpportunity seasonalData) "POOR"
        then [[Lit "Limited seasonal maintenance windows"]] else [])
    ++ match weatherFactors seasonalData with
       | first :: _ => [[Lit "Seasonal weather: "; LowerCase first]]
       | [] => []
       end
    ++ (if JSNum.gtb (utilizationPercentage utilization) 75
        then [[Lit "High utilization rate"]] else [])
    ++ (if String.eqb (maintenanceRisk utilization) "HIGH"
        then [[Lit "Elevated maintenance risk"]] else [])
    ++ (if String.eqb (trend utilization) "INCREASING"
        then [[Lit "Increasing flight activity"]] else [])
    ++ (if contains "CHECK" maintenanceType
        then [[Lit "Scheduled inspection due"]] else []) in
  if Nat.ltb 0 (length factors) then factors else [[Lit "Standard maintenance interval"]].

Definition maintenanceTypes : list string :=
  ["A_CHECK"; "B_CHECK"; "C_CHECK"; "100_HOUR"; "ANNUAL"; "PROGRESSIVE"; "AD_COMPLIANCE"].

(** [a[i]] for an integer index: [undefined] out of range. *)
Definition at_index {A} (a : list A) (i : Z) : option A :=
  if (i <? 0)%Z then None else nth_error a (Z.to_nat i).

Local Open Scope Q_scope.

(** The statements of the loop body that compute [confidence], for the
    value [noise] of [Math.random()]. *)
Definition confidenceOf (scheduleDemand : ScheduleDemandData) (maintenanceWindow : string)
  (seasonalData : SeasonalData) (input : MaintenanceRecommendationInput) (noise : Q) : Q :=
  let utilization := utilizationData input in
  let confidence := 65%Q in
  let confidence :=
    if String.eqb (currentPeriodDemand scheduleDemand) "LOW"
       && String.eqb maintenanceWindow "EXCELLENT" then confidence + 20
    else if String.eqb (currentPeriodDemand scheduleDemand) "HIGH"
            && String.eqb maintenanceWindow "POOR" then confidence - 15
    else if String.eqb (currentPeriodDemand scheduleDemand) "MEDIUM" then confidence + 8
    else confidence in
  let confidence :=
    if String.eqb (maintenanceWindowOpportunity seasonalData) "EXCELLENT" then confidence + 15
    else if String.eqb (maintenanceWindowOpportunity seasonalData) "POOR" then confidence - 12
    else confidence in
  let confidence :=
    if Nat.ltb 20 (length (flightHistory input)) then confidence + 10
    else if Nat.ltb 10 (length (flightHistory input)) then confidence + 5
    else confidence in
  let confidence :=
    if JSNum.gtb (utilizationPercentage utilization) 70 then confidence + 8
    else if JSNum.gtb (utilizationPercentage utilization) 40 then confidence + 4
    else confidence - 5 in
  let confidence :=
    if String.eqb (maintenanceRisk utilization) "HIGH" then confidence + 8
    else if String.eqb (maintenanceRisk utilization) "LOW" then confidence - 3
    else confidence in
  let confidence := confidence + (noise - (5 # 10)) * 15 in
  JSNum.Math_max 52 (JSNum.Math_min 94 (inject_Z (JSNum.Math_round (confidence * 10)) / 10)).

Local Close Scope Q_scope.

(** The body of [for (let i = 0; i < recCount; i++)], for the [n]
    iterations that start at [i]. *)
Fixpoint recommend (n : nat) (i : Z) (input : MaintenanceRecommendationInput)
  (scheduleDemand : ScheduleDemandData) (seasonalData : SeasonalData)
  (currentSeason : string) (isPeak : bool) (maintenanceWindow : string)
  : M (list AIMaintenanceRecommendation) :=
  match n with
  | O => ret []
  | S n' =>
      let aircraft := aircraftData input in
      let utilization := utilizationData input in
      let! pick := Math_random in
      let maintenanceType :=
        at_index maintenanceTypes
          (JSNum.Math_floor (value pick * inject_Z (Z.of_nat (length maintenanceTypes)))) in
      let! noise := Math_random in
      let confidence :=
        confidenceOf scheduleDemand maintenanceWindow seasonalData input (value noise) in
      let seasonalDescription :=
        if isPeak then [Lit "peak "; LowerCase currentSeason; Lit " period"]
        else [Lit "off-peak "; LowerCase currentSeason; Lit " period"] in
      let demandDescription :=
        [LowerCase (currentPeriodDemand scheduleDemand); Lit " operational demand"] in
      let windowDescription :=
        [LowerCase maintenanceWindow; Lit " maintenance window opportunity"] in
      let reasoning :=
        [Lit "🤖 Enhanced AI Analysis: Given current "] ++ demandDescription
        ++ [Lit " during this "] ++ seasonalDescription ++ [Lit ", with "]
        ++ windowDescription ++ [Lit " available. "]
        ++ match weatherFactors seasonalData with
           | first :: _ => [Lit "Seasonal factors include "; LowerCase first; Lit ". "]
           | [] => []
           end
        ++ (if String.eqb (operationalPressure scheduleDemand) "HIGH"
            then [Lit "High operational pressure suggests limited flexibility for extended maintenance. "]
            else [Lit "Current schedule allows for planned maintenance windows. "])
        ++ [ Lit "Aircraft utilization at "; Num (utilizationPercentage utilization);
             Lit "% with "; LowerCase (trend utilization); Lit " pattern and ";
             LowerCase (maintenanceRisk utilization);
             Lit " risk profile supports this maintenance timing." ] in
      let! now := Date_now in
      match maintenanceType with
      | None => throw "TypeError: Cannot read properties of undefined (reading 'includes')"
      | Some maintenanceType =>
          let recommendation :=
            {| ar_tailNumber := ad_tailNumber aircraft;
               ar_maintenanceType := maintenanceType;
               ar_priority :=
                 if String.eqb (operationalPressure scheduleDemand) "HIGH"
                    && String.eqb (maintenanceRisk utilization) "HIGH" then "HIGH"
                 else if String.eqb (operationalPressure scheduleDemand) "HIGH"
                         || String.eqb (maintenanceRisk utilization) "MEDIUM" then "MEDIUM"
                 else "LOW";
               ar_confidence := confidence;
               ar_reasoning := reasoning;
               ar_estimatedCost := getMaintenanceCost maintenanceType;
               ar_estimatedDuration := getMaintenanceDuration maintenanceType;
               ar_suggestedDate := (Z.of_N now + (7 + i * 14) * 24 * 60 * 60 * 1000)%Z;
               ar_riskFactors :=
                 getEnhancedRiskFactors utilization maintenanceType scheduleDemand
                   seasonalData;
               ar_complianceRequirements := getComplianceRequirements maintenanceType |} in
          let! rest := recommend n' (i + 1)%Z input scheduleDemand seasonalData
                         currentSeason isPeak maintenanceWindow in
          ret (recommendation :: rest)
      end
  end.

(** The callback of [inputs.forEach]: the recommendations pushed for one
    aircraft. *)
Definition forInput (currentSeason : string) (isPeak : bool) (maintenanceWindow : string)
  (input : MaintenanceRecommendationInput) : M (list AIMaintenanceRecommendation) :=
  let utilization := utilizationData input in
  let! scheduleDemand :=
    match scheduleDemandData input with
    | Some d => ret d
    | None =>
        let! r := Math_random in
        ret {| currentPeriodDemand := if isPeak then "HIGH" else "MEDIUM";
               upcomingBookings := (JSNum.Math_floor (value r * 20) + 10)%Z;
               averageWeeklyUtilization := utilizationPercentage utilization;
               demandTrend := trend utilization;
               operationalPressure := if isPeak then "HIGH" else "MEDIUM" |}
    end in
  let seasonalData :=
    match seasonalData input with
    | Some d => d
    | None => {| currentSeason := currentSeason;
                 peakSeason := isPeak;
                 seasonalDemandPattern := "BUSINESS_TRAVEL";
                 weatherFactors := getSeasonalWeatherFactors currentSeason;
                 maintenanceWindowOpportunity := maintenanceWindow |}
    end in
  let recCount :=
    Z.min 4 (Z.max 2 (JSNum.Math_floor (utilizationPercentage utilization / 25))) in
  recommend (Z.to_nat recCount) 0 input scheduleDemand seasonalData
    currentSeason isPeak maintenanceWindow.

Definition generateEnhancedDemoRecommendations
  (inputs : list MaintenanceRecommendationInput) : M (list AIMaintenanceRecommendation) :=
  let! currentDate := new_Date in
  let! w := get in
  let month := localMonth (env w) currentDate in
  let currentSeason := getCurrentSeason month in
  let isPeak := isPeakSeason month in
  let maintenanceWindow := getMaintenanceWindowOpportunity month in
  let! recommendations :=
    flatMapM (forInput currentSeason isPeak maintenanceWindow) inputs in
  ret (firstn 15 recommendations).

(** *** The service entry point *)

(** What the service returns: the demo generator's list, or the list built
    from the model's answer. *)
Inductive Generated :=
  | FromDemo (recommendations : list AIMaintenanceRecommendation)
  | FromModel (recommendations : list ProcessedRecommendation).

Definition confidences (g : Generated) : list JSNumber :=
  match g with
  | FromDemo l => map (fun r => Finite (ar_confidence r)) l
  | FromModel l => map pr_confidence l
  end.

Section Service.

Variable StringToNumber : string -> JSNumber.
Variable ArrayToString : list Value -> Completion string.

(** What [await openai.chat.completions.create(...)], the check of the
    answer's content and [JSON.parse] complete with: the parsed answer, or
    a throw. *)
Variable answer : Completion Value.

Definition generateMaintenanceRecommendations
  (inputs : list MaintenanceRecommendationInput) : M Generated :=
  let! w := get in
  match getenv "OPENAI_API_KEY" w with
  | None =>
      let! l := generateEnhancedDemoRecommendations inputs in ret (FromDemo l)
  | Some key =>
      if String.eqb key "demo-mode"
      then let! l := generateEnhancedDemoRecommendations inputs in ret (FromDemo l)
      else
        try_catch
          (let! promptDate := new_Date in   (* buildMaintenancePrompt *)
           let! aiResult := await answer in
           let! l := processAIRecommendations StringToNumber ArrayToString aiResult in
           ret (FromModel l))
          (fun message =>
             let! l := generateEnhancedDemoRecommendations inputs in ret (FromDemo l))
  end.

End Service.

End OpenAIService.

(** ** [email-config.ts] *)

Module EmailConfig.

Definition simulationConfig (from : string) : SMTPConfig :=
  {| provider := simulation; host := None; port := None; secure := None;
     auth := None; from := from; inboxId := None |}.

Definition getEmailConfig : M SMTPConfig :=
  let! w := get in
  let provider := match getenv "EMAIL_PROVIDER" w with
                  | Some p => p
                  | None => "simulation"
                  end in
  let from := match getenv "EMAIL_FROM" w with
              | Some f => f
              | None => "noreply@ganderaviation.com"
              end in
  if String.eqb provider "mailtrap" then
    match getenv "MAILTRAP_INBOX_ID" w, getenv "MAILTRAP_API_TOKEN" w with
    | Some inbox, Some token =>
        ret {| provider := mailtrap; host := Some "sandbox.api.mailtrap.io";
               port := None; secure := None;
               auth := Some {| auth_user := "testing"; auth_pass := token |};
               from := from; inboxId := Some inbox |}
    | _, _ =>
        match getenv "MAILTRAP_USER" w, getenv "MAILTRAP_PASS" w with
        | Some user, Some pass =>
            ret {| provider := mailtrap; host := Some "sandbox.smtp.mailtrap.io";
                   port := Some 587%Z; secure := Some false;
                   auth := Some {| auth_user := user; auth_pass := pass |};
                   from := from; inboxId := None |}
        | _, _ => ret (simulationConfig from)
        end
    end
  else if String.eqb provider "gmail" then
    match getenv "GMAIL_USER" w, getenv "GMAIL_APP_PASSWORD" w with
    | Some user, Some pass =>
        ret {| provider := gmail; host := None; port := None; secure := None;
               auth := Some {| auth_user := user; auth_pass := pass |};
               from := from; inboxId := None |}
    | _, _ => ret (simulationConfig from)
    end
  else if String.eqb provider "sendgrid" then
    match getenv "SENDGRID_API_KEY" w with
    | Some key =>
        ret {| provider := sendgrid; host := None; port := None; secure := None;
               auth := Some {| auth_user := "apikey"; auth_pass := key |};
               from := from; inboxId := None |}
    | None => ret (simulationConfig from)
    end
  else ret (simulationConfig from).

(** [validateEmailConfig()]. *)
Definition validateEmailConfig : M bool :=
  let! config := getEmailConfig in
  match provider config with
  | simulation => ret true
  | _ =>
      if negb (JSString.truthy (option_map auth_user (auth config)))
         || negb (JSString.truthy (option_map auth_pass (auth config)))
      then ret false
      else ret true
  end.

End EmailConfig.

(** ** [app/api/maintenance-schedule/route.ts] *)

Module Route.

(** An entry of [mockAircraft] (its date and ADS-B fields are not read by
    the handlers below and are left out). *)
Record Aircraft := {
  ac_id : string;
  ac_tailNumber : string;
  ac_make : string;
  ac_model : string;
  ac_serialNumber : string;
  ac_yearOfManufacture : Z;
  ac_totalAircraftTime : Q;
  ac_totalCycles : Z;
  ac_isActive : bool;
  ac_flightStatus : string;
  ac_engineTimeTracking : string;
  ac_icaoAddress : string
}.

Definition mockAircraft : list Aircraft :=
  [ {| ac_id := "n123ab"; ac_tailNumber := "N123AB"; ac_make := "Gulfstream";
       ac_model := "G550"; ac_serialNumber := "G550-001"; ac_yearOfManufacture := 2018;
       ac_totalAircraftTime := 2450; ac_totalCycles := 1850; ac_isActive := true;
       ac_flightStatus := "AVAILABLE"; ac_engineTimeTracking := "HOBBS";
       ac_icaoAddress := "a1234b" |};
    {| ac_id := "n456cd"; ac_tailNumber := "N456CD"; ac_make := "Gulfstream";
       ac_model := "G550"; ac_serialNumber := "G550-002"; ac_yearOfManufacture := 2019;
       ac_totalAircraftTime := 2125; ac_totalCycles := 1620; ac_isActive := true;
       ac_flightStatus := "MAINTENANCE"; ac_engineTimeTracking := "HOBBS";
       ac_icaoAddress := "c5678d" |};
    {| ac_id := "n789xy"; ac_tailNumber := "N789XY"; ac_make := "Gulfstream";
       ac_model := "G550"; ac_serialNumber := "G550-003"; ac_yearOfManufacture := 2020;
       ac_totalAircraftTime := 1875; ac_totalCycles := 1425; ac_isActive := true;
       ac_flightStatus := "IN_FLIGHT"; ac_engineTimeTracking := "HOBBS";
       ac_icaoAddress := "e9012f" |} ].

Definition days (d : Z) : Z := (d * 24 * 60 * 60 * 1000)%Z.
Definition hours (h : Z) : Z := (h * 60 * 60 * 1000)%Z.

(** [l.slice(0, end)]. *)
Definition slice0 {A} (finish : Z) (l : list A) : list A :=
  if (finish <? 0)%Z
  then firstn (Z.to_nat (Z.of_nat (length l) + finish)) l
  else firstn (Z.to_nat finish) l.

(** The property names every object inherits from [Object.prototype]:
    [mockActiveWorkflows] and [equipmentMap] are plain objects, and
    reading one of these names from them gives a built-in function or
    object, not [undefined]. *)
Definition inheritedNames : list string :=
  [ "constructor"; "__defineGetter__"; "__defineSetter__"; "hasOwnProperty";
    "__lookupGetter__"; "__lookupSetter__"; "isPrototypeOf"; "propertyIsEnumerable";
    "toString"; "valueOf"; "__proto__"; "toLocaleString" ].

(** [object[key]] for a plain object that has no property [key] of its
    own: the built-in that [Object.prototype] holds under that name, the
    [status] that [Object.prototype] has been given, or [undefined]. *)
Inductive Inherited :=
  | InheritedBuiltIn (name : string)
  | InheritedText (s : string)
  | Undefined.

Definition inherited (w : World) (key : string) : Inherited :=
  if JSString.includes inheritedNames key then InheritedBuiltIn key
  else if String.eqb key "status"
  then match inheritedStatus w with
       | Some s => InheritedText s
       | None => Undefined
       end
  else Undefined.

(** The literal tables of [getCurrentTask] and [getNextMilestone], looked
    up by key with the [||] default; the keys they are given are the five
    statuses of [createWorkflowFromRecommendation]. *)
Definition getCurrentTask (status maintenanceType : string) : string :=
  if String.eqb status "INITIATED" then "Setting up work area and gathering tools"
  else if String.eqb status "IN_PROGRESS"
  then "Performing " +:+ maintenanceType +:+ " inspection procedures"
  else if String.eqb status "AWAITING_PARTS"
  then "Waiting for parts delivery - Oil filter and spark plugs"
  else if String.eqb status "INSPECTION" then "Final quality inspection and documentation"
  else if String.eqb status "DELAYED"
  then "Resolving technical issue - Awaiting manufacturer guidance"
  else "Unknown task".

Definition getNextMilestone (status : string) : string :=
  if String.eqb status "INITIATED" then "Begin primary inspection procedures"
  else if String.eqb status "IN_PROGRESS" then "Complete systems testing"
  else if String.eqb status "AWAITING_PARTS" then "Resume work upon parts arrival"
  else if String.eqb status "INSPECTION" then "Final sign-off and aircraft release"
  else if String.eqb status "DELAYED" then "Technical issue resolution"
  else "Continue work".

(** The own properties of the object literal [equipmentMap]. *)
Definition equipmentMap (key : string) : option (list string) :=
  if String.eqb key "A_CHECK"
  then Some ["Basic Tool Kit"; "Multimeter"; "Torque Wrench"]
  else if String.eqb key "C_CHECK"
  then Some ["Comprehensive Tool Kit"; "Lift Equipment"; "Borescope"; "Pressure Test Kit"]
  else if String.eqb key "100_HOUR"
  then Some ["Engine Tools"; "Oil Analysis Kit"; "Compression Tester"]
  else if String.eqb key "ANNUAL"
  then Some ["Full Inspection Kit"; "NDT Equipment"; "Calibration Tools"]
  else if String.eqb key "PROGRESSIVE"
  then Some ["Progressive Kit"; "Documentation System"]
  else None.

(** [equipmentMap[maintenanceType] || ['Standard Tool Kit']]: the
    maintenance type is whatever string the recommendation carries, and a
    name that the table lacks is looked up in [Object.prototype]. *)
Definition getRequiredEquipment (maintenanceType : string) : M Equipment :=
  let! w := get in
  ret match equipmentMap maintenanceType with
      | Some tools => Tools tools
      | None =>
          match inherited w maintenanceType with
          | InheritedBuiltIn name => BuiltIn name
          | InheritedText s =>
              if String.eqb s "" then Tools ["Standard Tool Kit"] else Text s
          | Undefined => Tools ["Standard Tool Kit"]
          end
      end.

Definition createWorkflowFromRecommendation (recommendation : MaintenanceRecommendation)
  (index : nat) : M ActiveWorkflow :=
  let statuses := ["INITIATED"; "IN_PROGRESS"; "AWAITING_PARTS"; "INSPECTION"; "DELAYED"] in
  let currentStatus := nth (index mod length statuses) statuses "" in
  let! r1 := Math_random in
  let tasksCompleted := (JSNum.Math_floor (value r1 * 8) + 2)%Z in
  let! r2 := Math_random in
  let totalTasks := (tasksCompleted + JSNum.Math_floor (value r2 * 5) + 3)%Z in
  let aircraft := find (fun a => String.eqb (ac_id a) (rec_aircraftId recommendation))
                    mockAircraft in
  let! now1 := Date_now in
  let! r3 := Math_random in
  let! equipment := getRequiredEquipment (rec_maintenanceType recommendation) in
  let! r4 := Math_random in
  let! now2 := Date_now in
  let! r5 := Math_random in
  let! now3 := Date_now in
  let! r6 := Math_random in
  let! now4 := Date_now in
  let! r7 := Math_random in
  let! now5 := Date_now in
  let! r8 := Math_random in
  ret {| wf_id := "workflow-" +:+ rec_id recommendation;
         wf_recommendationId := rec_id recommendation;
         wf_aircraftId := rec_aircraftId recommendation;
         wf_tailNumber := rec_tailNumber recommendation;
         wf_maintenanceType := rec_maintenanceType recommendation;
         wf_status := currentStatus;
         wf_progress :=
           {| tasksCompleted := tasksCompleted;
              totalTasks := totalTasks;
              currentTask := getCurrentTask currentStatus (rec_maintenanceType recommendation);
              nextMilestone := getNextMilestone currentStatus;
              pr_estimatedCompletion :=
                Date_of (inject_Z (Z.of_N now1) + value r3 * inject_Z (days 7)) |};
         wf_assignments :=
           {| mechanic := nth (index mod 3) ["John Smith"; "Mike Wilson"; "Sarah Rodriguez"] "";
              inspector := if String.eqb currentStatus "INSPECTION"
                           then Some "David Chen" else None;
              supervisor := "Tom Anderson" |};
         wf_resources :=
           {| res_hangar := "Hangar " +:+ nth (index mod 3) ["A"; "B"; "C"] ""
                              +:+ " - Bay " +:+ JSString.ofNat (index mod 4 + 1);
              res_equipment := equipment;
              res_parts := slice0 (JSNum.Math_floor (value r4 * 3) + 1)
                             ["Oil Filter"; "Spark Plugs"; "Brake Pads"; "Hydraulic Fluid"] |};
         wf_timeline :=
           {| started := Date_of (inject_Z (Z.of_N now2) - value r5 * inject_Z (days 3));
              tl_estimatedCompletion :=
                Date_of (inject_Z (Z.of_N now3) + value r6 * inject_Z (days 7));
              actualCompletion := None |};
         wf_notifications :=
           {| lastSent := Date_of (inject_Z (Z.of_N now4) - value r7 * inject_Z (hours 6));
              nextReminder := (Z.of_N now5 + hours 4)%Z;
              escalationLevel := JSNum.Math_floor (value r8 * 3) |} |}.

(** The JSON body of a POST request: the fields the two handlers read. *)
Record Body := {
  recommendationId : option string;
  approvedBy : option string;
  approvalNotes : option string;
  rejectedBy : option string;
  rejectionReason : option string
}.

Record EmailNotifications := {
  en_sent : nat;
  en_recipients : list EmailRecipient;
  en_failures : list string;
  en_success : bool
}.

(** The JSON documents the handlers answer with. *)
Inductive Payload :=
  | ErrorPayload (error : string)
  | RecommendationsPayload
      (recommendations : list MaintenanceRecommendation)
      (totalCount pendingApprovals activeWorkflows : nat)
      (timestamp : Z)
  | ApprovalPayload
      (success : bool)
      (recommendation : MaintenanceRecommendation)
      (workflow : ApprovalResult)
      (activeWorkflow : ActiveWorkflow)
      (emailNotifications : EmailNotifications)
      (automatedActions : list string)
      (message : string)
      (timestamp : Z)
  | RejectionPayload
      (recommendation : MaintenanceRecommendation)
      (rejectionReason : option string)
      (message : string)
      (timestamp : Z).

(** [NextResponse.json(payload, { status })]. *)
Record Response := {
  status : nat;
  payload : Payload
}.

Definition json (status : nat) (payload : Payload) : Response :=
  {| status := status; payload := payload |}.

Definition with_status (st : RecStatus) (r : MaintenanceRecommendation)
  : MaintenanceRecommendation :=
  {| rec_id := rec_id r; rec_aircraftId := rec_aircraftId r;
     rec_tailNumber := rec_tailNumber r; rec_maintenanceType := rec_maintenanceType r;
     rec_urgency := rec_urgency r; rec_scheduledDate := rec_scheduledDate r;
     rec_recommendedDate := rec_recommendedDate r; rec_estimatedCost := rec_estimatedCost r;
     rec_estimatedDuration := rec_estimatedDuration r;
     rec_estimatedDowntime := rec_estimatedDowntime r;
     rec_description := rec_description r; rec_aiConfidence := rec_aiConfidence r;
     rec_reasoning := rec_reasoning r; rec_status := st;
     rec_workflowId := rec_workflowId r;
     rec_complianceRequirements := rec_complianceRequirements r;
     rec_riskFactors := rec_riskFactors r; rec_affectedAssets := rec_affectedAssets r;
     rec_requiredPersonnel := rec_requiredPersonnel r; rec_timeWindow := rec_timeWindow r;
     rec_createdAt := rec_createdAt r; rec_approvedBy := rec_approvedBy r;
     rec_approvedAt := rec_approvedAt r |}.

Definition with_approval (by_ : string) (at_ : Z) (r : MaintenanceRecommendation)
  : MaintenanceRecommendation :=
  {| rec_id := rec_id r; rec_aircraftId := rec_aircraftId r;
     rec_tailNumber := rec_tailNumber r; rec_maintenanceType := rec_maintenanceType r;
     rec_urgency := rec_urgency r; rec_scheduledDate := rec_scheduledDate r;
     rec_recommendedDate := rec_recommendedDate r; rec_estimatedCost := rec_estimatedCost r;
     rec_estimatedDuration := rec_estimatedDuration r;
     rec_estimatedDowntime := rec_estimatedDowntime r;
     rec_description := rec_description r; rec_aiConfidence := rec_aiConfidence r;
     rec_reasoning := rec_reasoning r; rec_status := rec_status r;
     rec_workflowId := rec_workflowId r;
     rec_complianceRequirements := rec_complianceRequirements r;
     rec_riskFactors := rec_riskFactors r; rec_affectedAssets := rec_affectedAssets r;
     rec_requiredPersonnel := rec_requiredPersonnel r; rec_timeWindow := rec_timeWindow r;
     rec_createdAt := rec_createdAt r; rec_approvedBy := Some by_;
     rec_approvedAt := Some at_ |}.

(** [r => r.id === recommendationId]. *)
Definition has_id (recommendationId : string) (r : MaintenanceRecommendation) : bool :=
  String.eqb (rec_id r) recommendationId.

(** Assignment to fields of the object [mockRecommendations.find(p)]
    returned: the first element that satisfies [p] is updated in place. *)
Fixpoint mutate_found (p : MaintenanceRecommendation -> bool)
  (f : MaintenanceRecommendation -> MaintenanceRecommendation)
  (l : list MaintenanceRecommendation) : list MaintenanceRecommendation :=
  match l with
  | [] => []
  | r :: l' => if p r then f r :: l' else r :: mutate_found p f l'
  end.

Definition set_recommendations (l : list MaintenanceRecommendation) (w : World) : World :=
  with_store {| mockRecommendations := l;
                mockActiveWorkflows := mockActiveWorkflows (store w) |} w.

Definition set_workflows (m : gmap string ActiveWorkflow) (w : World) : World :=
  with_store {| mockRecommendations := mockRecommendations (store w);
                mockActiveWorkflows := m |} w.

(** The two baseline recommendations generated for one aircraft. *)
Definition baselineFor (aircraft : Aircraft) : M (list MaintenanceRecommendation) :=
  let! today := new_Date in
  ret [ {| rec_id := "baseline-" +:+ ac_id aircraft +:+ "-100hour";
           rec_aircraftId := ac_id aircraft;
           rec_tailNumber := ac_tailNumber aircraft;
           rec_maintenanceType := "100_HOUR";
           rec_urgency := "MEDIUM";
           rec_scheduledDate := today;
           rec_recommendedDate := today;
           rec_estimatedCost := 4000;
           rec_estimatedDuration := 8;
           rec_estimatedDowntime := 8;
           rec_description := "100-hour inspection for " +:+ ac_tailNumber aircraft;
           rec_aiConfidence := 8 # 10;
           rec_reasoning :=
             ["Recurring 100-hour maintenance interval due based on flight hours"];
           rec_status := PENDING;
           rec_workflowId := None;
           rec_complianceRequirements := ["FAR 91.409"];
           rec_riskFactors := ["Routine maintenance"];
           rec_affectedAssets := [ac_tailNumber aircraft];
           rec_requiredPersonnel := ["Certified Mechanic"; "Inspector"];
           rec_timeWindow := {| earliest := today;
                                latest := (today + days 14)%Z;
                                optimal := (today + days 7)%Z |};
           rec_createdAt := today;
           rec_approvedBy := None;
           rec_approvedAt := None |};
        {| rec_id := "baseline-" +:+ ac_id aircraft +:+ "-annual";
           rec_aircraftId := ac_id aircraft;
           rec_tailNumber := ac_tailNumber aircraft;
           rec_maintenanceType := "ANNUAL";
           rec_urgency := "HIGH";
           rec_scheduledDate := (today + days 30)%Z;
           rec_recommendedDate := (today + days 30)%Z;
           rec_estimatedCost := 18000;
           rec_estimatedDuration := 36;
           rec_estimatedDowntime := 36;
           rec_description := "Annual inspection for " +:+ ac_tailNumber aircraft;
           rec_aiConfidence := 95 # 100;
           rec_reasoning := ["Annual inspection required by FAR regulations"];
           rec_status := PENDING;
           rec_workflowId := None;
           rec_complianceRequirements := ["FAR 91.409"; "FAR 43.9"];
           rec_riskFactors := ["Critical maintenance"];
           rec_affectedAssets := [ac_tailNumber aircraft];
           rec_requiredPersonnel := ["Certified Mechanic"; "Inspector"; "Supervisor"];
           rec_timeWindow := {| earliest := (today + days 21)%Z;
                                latest := (today + days 45)%Z;
                                optimal := (today + days 30)%Z |};
           rec_createdAt := today;
           rec_approvedBy := None;
           rec_approvedAt := None |} ].

Definition is_status (st : string) (r : MaintenanceRecommendation) : bool :=
  String.eqb (RecStatus_name (rec_status r)) st.

Definition getAIRecommendations (tailNumber status : option string) : M Response :=
  let! w := get in
  let filteredRecommendations := mockRecommendations (store w) in
  let! filteredRecommendations :=
    if Nat.eqb (length filteredRecommendations) 0
    then
      let! baselineRecommendations := flatMapM baselineFor mockAircraft in
      modify (fun w => set_recommendations
                         (mockRecommendations (store w) ++ baselineRecommendations) w) ;;;
      ret baselineRecommendations
    else ret filteredRecommendations in
  let filteredRecommendations :=
    if JSString.truthy tailNumber
    then List.filter (fun r => String.eqb (rec_tailNumber r) (JSString.interpolate tailNumber))
           filteredRecommendations
    else filteredRecommendations in
  let filteredRecommendations :=
    if JSString.truthy status
    then List.filter (is_status (JSString.interpolate status)) filteredRecommendations
    else filteredRecommendations in
  let! timestamp := new_Date in
  ret (json 200
         (RecommendationsPayload
            filteredRecommendations
            (length filteredRecommendations)
            (length (List.filter (is_status "PENDING") filteredRecommendations))
            (length (List.filter (fun r => JSString.includes
                                        ["APPROVED"; "SCHEDULED"; "IN_PROGRESS"]
                                        (RecStatus_name (rec_status r)))
                       filteredRecommendations))
            timestamp)).

Definition notFound (what : string) : Response :=
  json 404 (ErrorPayload (what +:+ " not found")).

(** The six actions always listed in [automatedActions]. *)
Definition baseActions : list string :=
  [ "Task assignments created and notifications sent";
    "Calendar events scheduled and resources booked";
    "Work order generated with detailed checklists";
    "Compliance logs created for audit trail";
    "Pre-maintenance reminders scheduled";
    "Active workflow tracking initiated" ].

Definition approveRecommendation (body : Body) : M Response :=
  if negb (JSString.truthy (recommendationId body))
     || negb (JSString.truthy (approvedBy body))
  then ret (json 400 (ErrorPayload "recommendationId and approvedBy are required"))
  else
    let recommendationId := JSString.interpolate (recommendationId body) in
    let approvedBy := JSString.interpolate (approvedBy body) in
    let approvalNotes := approvalNotes body in
    let! w := get in
    match find (has_id recommendationId) (mockRecommendations (store w)) with
    | None => ret (notFound "Recommendation")
    | Some recommendation =>
        match find (fun a => String.eqb (ac_id a) (rec_aircraftId recommendation))
                mockAircraft with
        | None => ret (notFound "Aircraft")
        | Some aircraft =>
            (* recommendation.status = ...; .approvedBy = ...; .approvedAt = new Date() *)
            let! approvedAt := new_Date in
            let mutation r := with_approval approvedBy approvedAt (with_status APPROVED r) in
            modify (fun w => set_recommendations
                               (mutate_found (has_id recommendationId) mutation
                                  (mockRecommendations (store w))) w) ;;;
            let recommendation := mutation recommendation in
            (* mockActiveWorkflows[workflowId] = createWorkflowFromRecommendation(...) *)
            let workflowId := "workflow-" +:+ recommendationId in
            let! w := get in
            let index := size (mockActiveWorkflows (store w)) in
            let! activeWorkflow := createWorkflowFromRecommendation recommendation index in
            modify (fun w => set_workflows
                               (<[workflowId := activeWorkflow]>
                                  (mockActiveWorkflows (store w))) w) ;;;
            let! workflowResult :=
              Agentic.approveRecommendation recommendationId approvedBy approvalNotes in
            try_catch
              (let! emailConfig := EmailConfig.getEmailConfig in
               let emailService := EmailService.new "http://localhost:3000"
                                     (Some emailConfig) in
               let recipients :=
                 EmailService.getDefaultRecipients (rec_maintenanceType recommendation) in
               let! approvedAtIso := new_Date in
               let emailData :=
                 {| ed_recommendationId := rec_id recommendation;
                    ed_workflowId := wf_id activeWorkflow;
                    ed_aircraftInfo :=
                      {| ai_tailNumber := ac_tailNumber aircraft;
                         ai_make := ac_make aircraft;
                         ai_model := ac_model aircraft;
                         ai_totalTime := ac_totalAircraftTime aircraft |};
                    ed_maintenanceDetails :=
                      {| md_type := rec_maintenanceType recommendation;
                         md_scheduledDate := rec_recommendedDate recommendation;
                         md_estimatedDuration := rec_estimatedDowntime recommendation;
                         md_location := res_hangar (wf_resources activeWorkflow);
                         md_estimatedCost := rec_estimatedCost recommendation |};
                    ed_taskAssignments :=
                      {| ta_mechanic := mechanic (wf_assignments activeWorkflow);
                         ta_inspector := inspector (wf_assignments activeWorkflow);
                         ta_supervisor := supervisor (wf_assignments activeWorkflow) |};
                    ed_resources :=
                      {| res_hangar := res_hangar (wf_resources activeWorkflow);
                         res_equipment := res_equipment (wf_resources activeWorkflow);
                         res_parts := res_parts (wf_resources activeWorkflow) |};
                    ed_complianceInfo :=
                      {| ci_regulations :=
                           [ "FAR Part 135 - Operating Requirements";
                             "FAR Part 43 - Maintenance Requirements";
                             "FAR Part 91.409 - Inspection Requirements" ];
                         ci_requiredDocumentation :=
                           [ "Maintenance Log Entry";
                             "Work Order Completion";
                             "Inspector Sign-off";
                             "Return to Service Documentation" ] |};
                    ed_approvalInfo :=
                      {| ap_approvedBy := approvedBy;
                         ap_approvedAt := approvedAtIso;
                         ap_notes := approvalNotes |} |} in
               let! emailResults :=
                 EmailService.sendMaintenanceNotificationEmails emailService emailData
                   recipients in
               let automatedActions :=
                 baseActions
                 ++ [ "📧 Email notifications sent to "
                        +:+ JSString.ofNat (sentEmails emailResults) +:+ " personnel" ]
                 ++ map (fun r => "   • " +:+ rcp_name r +:+ " (" +:+ rcp_role r +:+ ") - "
                                    +:+ rcp_email r) recipients
                 ++ (if Nat.ltb 0 (length (failures emailResults))
                     then [ "⚠️  " +:+ JSString.ofNat (length (failures emailResults))
                              +:+ " email failures" ]
                     else []) in
               let! timestamp := new_Date in
               ret (json 200
                      (ApprovalPayload
                         (apr_success workflowResult)
                         recommendation
                         workflowResult
                         activeWorkflow
                         {| en_sent := sentEmails emailResults;
                            en_recipients := recipients;
                            en_failures := failures emailResults;
                            en_success := sum_success emailResults |}
                         automatedActions
                         (if sum_success emailResults
                          then apr_message workflowResult
                                 +:+ " Email notifications sent to "
                                 +:+ JSString.ofNat (sentEmails emailResults)
                                 +:+ " personnel."
                          else apr_message workflowResult
                                 +:+ " Email notifications sent to "
                                 +:+ JSString.ofNat (sentEmails emailResults)
                                 +:+ " personnel with "
                                 +:+ JSString.ofNat (length (failures emailResults))
                                 +:+ " failures.")
                         timestamp)))
              (fun emailError =>
                 let! timestamp := new_Date in
                 ret (json 200
                        (ApprovalPayload
                           (apr_success workflowResult)
                           recommendation
                           workflowResult
                           activeWorkflow
                           {| en_sent := 0;
                              en_recipients := [];
                              en_failures := ["Email service error: " +:+ emailError];
                              en_success := false |}
                           (baseActions
                            ++ ["❌ Email notifications failed - manual notification required"])
                           (apr_message workflowResult
                              +:+ " Warning: Email notifications failed.")
                           timestamp)))
        end
    end.

Definition rejectRecommendation (body : Body) : M Response :=
  if negb (JSString.truthy (recommendationId body))
     || negb (JSString.truthy (rejectedBy body))
  then ret (json 400 (ErrorPayload "recommendationId and rejectedBy are required"))
  else
    let recommendationId := JSString.interpolate (recommendationId body) in
    let! w := get in
    match find (has_id recommendationId) (mockRecommendations (store w)) with
    | None => ret (notFound "Recommendation")
    | Some recommendation =>
        modify (fun w => set_recommendations
                           (mutate_found (has_id recommendationId) (with_status REJECTED)
                              (mockRecommendations (store w))) w) ;;;
        let recommendation := with_status REJECTED recommendation in
        let! timestamp := new_Date in
        ret (json 200
               (RejectionPayload recommendation (rejectionReason body)
                  "Recommendation rejected successfully" timestamp))
    end.

(** *** The workflow endpoints *)

Record ByStatus := {
  bs_INITIATED : nat;
  bs_IN_PROGRESS : nat;
  bs_AWAITING_PARTS : nat;
  bs_INSPECTION : nat;
  bs_DELAYED : nat
}.

Record Milestone := {
  ms_workflowId : string;
  ms_tailNumber : string;
  ms_nextMilestone : string;
  ms_estimatedCompletion : Z
}.

(** The JSON documents the workflow endpoints answer with. *)
Inductive WorkflowPayload :=
  | WorkflowError (error : string)
  | ActiveWorkflowsPayload
      (workflows : list ActiveWorkflow)
      (totalActive : nat)
      (byStatus : ByStatus)
      (nextMilestones : list Milestone)
      (timestamp : Z)
  | StatusUpdatePayload
      (workflowId oldStatus newStatus : string)
      (workflow : ActiveWorkflow)
      (message : string)
      (timestamp : Z)
  | AuditTrailPayload
      (auditTrail : list AuditTrailEntry)
      (totalEntries complianceEntries : nat)
      (timestamp : Z).

Record WorkflowResponse := {
  wr_status : nat;
  wr_payload : WorkflowPayload
}.

(** [approvedRecommendations.map((rec, index) => ...)] of
    [getActiveWorkflows], from position [index] on: the workflow stored
    under the recommendation's key is reused, and one is created and stored
    when there is none. *)
Fixpoint materialize (recs : list MaintenanceRecommendation) (index : nat)
  : M (list ActiveWorkflow) :=
  match recs with
  | [] => ret []
  | rec :: rest =>
      let workflowId := "workflow-" +:+ rec_id rec in
      let! w := get in
      let! workflow :=
        match mockActiveWorkflows (store w) !! workflowId with
        | Some workflow => ret workflow
        | None =>
            let! workflow := createWorkflowFromRecommendation rec index in
            modify (fun w => set_workflows
                               (<[workflowId := workflow]>
                                  (mockActiveWorkflows (store w))) w) ;;;
            ret workflow
        end in
      let! rest' := materialize rest (S index) in
      ret (workflow :: rest')
  end.

Definition has_status (st : string) (wf : ActiveWorkflow) : bool :=
  String.eqb (wf_status wf) st.

Definition getActiveWorkflows (status aircraftId : option string) : M WorkflowResponse :=
  let! w := get in
  let approvedRecommendations :=
    List.filter (fun r => JSString.includes ["APPROVED"; "SCHEDULED"; "IN_PROGRESS"]
                            (RecStatus_name (rec_status r)))
      (mockRecommendations (store w)) in
  let! activeWorkflows := materialize approvedRecommendations 0 in
  let filteredWorkflows :=
    if JSString.truthy status
    then List.filter (has_status (JSString.interpolate status)) activeWorkflows
    else activeWorkflows in
  let filteredWorkflows :=
    if JSString.truthy aircraftId
    then List.filter (fun wf => String.eqb (wf_aircraftId wf)
                                  (JSString.interpolate aircraftId)) filteredWorkflows
    else filteredWorkflows in
  let! timestamp := new_Date in
  ret {| wr_status := 200;
         wr_payload :=
           ActiveWorkflowsPayload
             filteredWorkflows
             (length activeWorkflows)
             {| bs_INITIATED := length (List.filter (has_status "INITIATED") activeWorkflows);
                bs_IN_PROGRESS :=
                  length (List.filter (has_status "IN_PROGRESS") activeWorkflows);
                bs_AWAITING_PARTS :=
                  length (List.filter (has_status "AWAITING_PARTS") activeWorkflows);
                bs_INSPECTION :=
                  length (List.filter (has_status "INSPECTION") activeWorkflows);
                bs_DELAYED := length (List.filter (has_status "DELAYED") activeWorkflows) |}
             (map (fun wf => {| ms_workflowId := wf_id wf;
                                ms_tailNumber := wf_tailNumber wf;
                                ms_nextMilestone := nextMilestone (wf_progress wf);
                                ms_estimatedCompletion :=
                                  tl_estimatedCompletion (wf_timeline wf) |})
                activeWorkflows)
             timestamp |}.

(** The JSON body of [update-workflow-status]. *)
Record StatusBody := {
  sb_workflowId : option string;
  sb_status : option string;
  sb_updatedBy : option string;
  sb_notes : option string
}.

(** The assignments of [updateWorkflowStatus] to the stored workflow. *)
Definition with_update (status : string) (lastSent nextReminder : Z) (wf : ActiveWorkflow)
  : ActiveWorkflow :=
  let progress_with (task milestone : string) :=
    {| tasksCompleted := tasksCompleted (wf_progress wf);
       totalTasks := totalTasks (wf_progress wf);
       currentTask := task;
       nextMilestone := milestone;
       pr_estimatedCompletion := pr_estimatedCompletion (wf_progress wf) |} in
  {| wf_id := wf_id wf;
     wf_recommendationId := wf_recommendationId wf;
     wf_aircraftId := wf_aircraftId wf;
     wf_tailNumber := wf_tailNumber wf;
     wf_maintenanceType := wf_maintenanceType wf;
     wf_status := status;
     wf_progress :=
       if String.eqb status "IN_PROGRESS"
       then progress_with ("Performing " +:+ wf_maintenanceType wf
                             +:+ " inspection procedures")
              "Complete systems testing"
       else if String.eqb status "AWAITING_PARTS"
       then progress_with "Waiting for parts delivery - Oil filter and spark plugs"
              "Resume work upon parts arrival"
       else if String.eqb status "INSPECTION"
       then progress_with "Final quality inspection and documentation"
              "Final sign-off and aircraft release"
       else if String.eqb status "DELAYED"
       then progress_with "Resolving technical issue - Awaiting manufacturer guidance"
              "Technical issue resolution"
       else wf_progress wf;
     wf_assignments :=
       if String.eqb status "INSPECTION"
       then {| mechanic := mechanic (wf_assignments wf);
               inspector := Some "David Chen";
               supervisor := supervisor (wf_assignments wf) |}
       else wf_assignments wf;
     wf_resources := wf_resources wf;
     wf_timeline := wf_timeline wf;
     wf_notifications :=
       {| lastSent := lastSent;
          nextReminder := nextReminder;
          escalationLevel := if String.eqb status "DELAYED" then 1%Z
                             else escalationLevel (wf_notifications wf) |} |}.

(** [body.status]: the body's own property, or else what it inherits. *)
Definition statusOf (body : StatusBody) (w : World) : option string :=
  match sb_status body with
  | Some status => Some status
  | None => inheritedStatus w
  end.

Definition updateWorkflowStatus (body : StatusBody) : M WorkflowResponse :=
  let! w := get in
  if negb (JSString.truthy (sb_workflowId body)) || negb (JSString.truthy (statusOf body w))
  then ret {| wr_status := 400;
              wr_payload := WorkflowError "workflowId and status are required" |}
  else
    let workflowId := JSString.interpolate (sb_workflowId body) in
    let status := JSString.interpolate (statusOf body w) in
    match mockActiveWorkflows (store w) !! workflowId with
    | Some workflow =>
        let oldStatus := wf_status workflow in
        let! lastSent := new_Date in
        let! now := Date_now in
        let workflow := with_update status lastSent (Z.of_N now + hours 4)%Z workflow in
        modify (fun w => set_workflows
                           (<[workflowId := workflow]> (mockActiveWorkflows (store w))) w) ;;;
        let! timestamp := new_Date in
        ret {| wr_status := 200;
               wr_payload :=
                 StatusUpdatePayload workflowId oldStatus status workflow
                   ("Workflow status updated from " +:+ oldStatus +:+ " to " +:+ status)
                   timestamp |}
    | None =>
        match inherited w workflowId with
        | InheritedBuiltIn name =>
            (* the name designates a built-in: [workflow.status = status]
               lands on it, its [notifications] is [undefined], and the
               store into [lastSent] throws once the right-hand side is
               evaluated *)
            modify (fun w => with_builtins (<[name := status]> (builtins w)) w) ;;;
            let! lastSent := new_Date in
            throw "TypeError: Cannot set properties of undefined (setting 'lastSent')"
        | InheritedText s =>
            if String.eqb s ""
            then ret {| wr_status := 404; wr_payload := WorkflowError "Workflow not found" |}
            else
              (* the workflow found is a string: in a module, which is
                 strict code, [workflow.status = status] throws *)
              throw ("TypeError: Cannot create property 'status' on string '"
                       +:+ s +:+ "'")
        | Undefined =>
            ret {| wr_status := 404; wr_payload := WorkflowError "Workflow not found" |}
        end
    end.

(** [l.slice(-n)]: the last [n] elements. *)
Definition slice_last {A} (n : nat) (l : list A) : list A := skipn (length l - n) l.

Definition getAuditTrail (complianceOnly : option string) : M WorkflowResponse :=
  let complianceOnly := match complianceOnly with
                        | Some v => String.eqb v "true"
                        | None => false
                        end in
  let! auditTrail := Agentic.getAuditTrail complianceOnly in
  let! timestamp := new_Date in
  ret {| wr_status := 200;
         wr_payload :=
           AuditTrailPayload
             (slice_last 50 auditTrail)
             (length auditTrail)
             (length (List.filter au_complianceRelevant auditTrail))
             timestamp |}.

(** *** The utilization analysis *)

(** One day of [calculateDailyUtilization]: the date as [toDateString()]
    prints it, and the totals of the day. *)
Record DailyUtilization := {
  du_date : string;
  du_flightTime : Q;
  du_cycles : Q;
  du_flights : Q
}.

Section Periods.

(** [Date] objects, and [new Date(s)] for a date string. *)
Context {Date : Type}.
Variable Date_parse : string -> Date.

Record LowPeriod := {
  lp_start : Date;
  lp_end : Date;
  lp_averageDaily : Q
}.

(** The loop [for (const day of dailyData)] of [identifyLowPeriods] and
    the statement after it, on the two variables [currentPeriod] and
    [periods]. *)
Fixpoint lowPeriodsFrom (dailyData : list DailyUtilization)
  (currentPeriod : option LowPeriod) (periods : list LowPeriod) : list LowPeriod :=
  match dailyData with
  | [] =>
      match currentPeriod with
      | Some period => periods ++ [period]
      | None => periods
      end
  | day :: rest =>
      if JSNum.ltb (du_flightTime day) 2
      then
        match currentPeriod with
        | None =>
            lowPeriodsFrom rest
              (Some {| lp_start := Date_parse (du_date day);
                       lp_end := Date_parse (du_date day);
                       lp_averageDaily := du_flightTime day |})
              periods
        | Some period =>
            lowPeriodsFrom rest
              (Some {| lp_start := lp_start period;
                       lp_end := Date_parse (du_date day);
                       lp_averageDaily :=
                         ((lp_averageDaily period + du_flightTime day) / 2)%Q |})
              periods
        end
      else
        match currentPeriod with
        | Some period => lowPeriodsFrom rest None (periods ++ [period])
        | None => lowPeriodsFrom rest None periods
        end
  end.

Definition identifyLowPeriods (dailyData : list DailyUtilization) : list LowPeriod :=
  firstn 3 (lowPeriodsFrom dailyData None []).

End Periods.

(** The fields of a flight record that [calculateMaintenanceImpact] reads. *)
Record RecentFlight := {
  rf_flightTime : Q;
  rf_cycles : Q
}.

Record MaintenanceImpact := {
  mi_risk : string;
  mi_urgency : string;
  mi_factors : list string;
  mi_recommendedAction : string
}.

(** [calculateMaintenanceImpact(aircraft, utilization, recentFlights)];
    the aircraft is not read. *)
Definition calculateMaintenanceImpact {AnyAircraft : Type} (aircraft : AnyAircraft)
  (utilization : Q) (recentFlights : list RecentFlight) : MaintenanceImpact :=
  let risk := "LOW" in
  let urgency := "NORMAL" in
  let factors := @nil string in
  let '(risk, urgency, factors) :=
    if JSNum.gtb utilization 85
    then ("HIGH", "HIGH", factors ++ ["High utilization rate detected"])
    else (risk, urgency, factors) in
  let cycleRate :=
    (fold_left (fun sum flight => sum + rf_cycles flight) recentFlights 0 / 30)%Q in
  let '(risk, factors) :=
    if JSNum.gtb cycleRate (8 # 10)
    then (if String.eqb risk "LOW" then "MEDIUM" else "HIGH",
          factors ++ ["High cycle frequency"])
    else (risk, factors) in
  let longFlights := List.filter (fun flight => JSNum.gtb (rf_flightTime flight) 240)
                       recentFlights in
  let factors :=
    if JSNum.gtb (inject_Z (Z.of_nat (length longFlights)))
         (inject_Z (Z.of_nat (length recentFlights)) * (5 # 10))
    then factors ++ ["Frequent long-haul operations"]
    else factors in
  {| mi_risk := risk;
     mi_urgency := urgency;
     mi_factors := factors;
     mi_recommendedAction :=
       if String.eqb risk "HIGH" then "Schedule maintenance within 7 days"
       else if String.eqb risk "MEDIUM" then "Monitor closely, schedule within 30 days"
       else "Normal maintenance schedule" |}.

End Route.

(** ** [maintenance-scheduler.ts], continued *)

Module MaintenanceScheduler.

Section WithConfig.

(** [MaintenanceInterval] comes from [@/types]. *)
Context {MaintenanceInterval : Type}.

Variable config : Scheduler.SchedulingConfig.

(** [calculatePriority(hoursRemaining, interval)]. *)
Definition calculatePriority (hoursRemaining : Q) (interval : MaintenanceInterval)
  : string :=
  if JSNum.leb hoursRemaining 0 then "CRITICAL"
  else if JSNum.leb hoursRemaining (Scheduler.minSafetyMarginHours config) then "HIGH"
  else if JSNum.leb hoursRemaining 50 then "MEDIUM"
  else "LOW".

End WithConfig.

End MaintenanceScheduler.

(** ** Scenarios

    Concrete environments and requests, used to run the definitions above. *)

Module Scenario.

(** A host whose clock advances by one millisecond per reading, whose
    [Math.random()] always returns 0.5 (printed [0.i] in base 36), whose
    transport accepts every message, in January, with no variable set. *)
Definition steadyEnv : Env :=
  {| clock := fun n => (N.of_nat n + 1700000000000)%N; ticks := 0;
     random := fun _ => {| value := 1 # 2; base36 := "0.i" |}; draws := 0;
     transport := fun _ => Delivered None; posts := 0;
     localMonth := fun _ => 0%Z |}.

(** The same host with a clock that stands still. *)
Definition frozenEnv : Env :=
  {| clock := fun _ => 1700000000000%N; ticks := 0;
     random := fun _ => {| value := 1 # 2; base36 := "0.i" |}; draws := 0;
     transport := fun _ => Delivered None; posts := 0;
     localMonth := fun _ => 0%Z |}.

Definition emptyWorld : World :=
  {| env := steadyEnv;
     process_env := ∅;
     sendLog := [];
     store := {| mockRecommendations := []; mockActiveWorkflows := ∅ |};
     agent := {| auditTrail := []; timers := [] |};
     builtins := ∅ |}.

(** The world after a first [GET ?action=ai-recommendations]. *)
Definition seededWorld : World := snd (Route.getAIRecommendations None None emptyWorld).

Definition frozenWorld : World :=
  {| env := frozenEnv;
     process_env := ∅;
     sendLog := [];
     store := {| mockRecommendations := []; mockActiveWorkflows := ∅ |};
     agent := {| auditTrail := []; timers := [] |};
     builtins := ∅ |}.

Definition mechanic : EmailRecipient :=
  {| rcp_name := "John Smith"; rcp_email := "john.smith@ganderaviation.com";
     rcp_role := "MECHANIC" |}.

Definition notice : MaintenanceEmailData :=
  {| ed_recommendationId := "baseline-n123ab-100hour";
     ed_workflowId := "workflow-baseline-n123ab-100hour";
     ed_aircraftInfo := {| ai_tailNumber := "N123AB"; ai_make := "Gulfstream";
                           ai_model := "G550"; ai_totalTime := 2450 |};
     ed_maintenanceDetails := {| md_type := "100_HOUR"; md_scheduledDate := 1700000000000;
                                 md_estimatedDuration := 8;
                                 md_location := "Hangar A - Bay 1";
                                 md_estimatedCost := 4000 |};
     ed_taskAssignments := {| ta_mechanic := "John Smith"; ta_inspector := None;
                              ta_supervisor := "Tom Anderson" |};
     ed_resources := {| res_hangar := "Hangar A - Bay 1";
                        res_equipment := Tools ["Engine Tools"]; res_parts := ["Oil Filter"] |};
     ed_complianceInfo := {| ci_regulations := []; ci_requiredDocumentation := [] |};
     ed_approvalInfo := {| ap_approvedBy := "ops"; ap_approvedAt := 1700000000000;
                           ap_notes := None |} |}.

Definition simulated : EmailService.MaintenanceEmailService :=
  EmailService.new "http://localhost:3000" None.

Definition subjectLine : EmailService.EmailContent :=
  {| EmailService.subject := "🔧 SCHEDULED MAINTENANCE: N123AB - 100_HOUR" |}.

(** A host whose successive random draws step through 0.0, 0.1, ..., 0.9. *)
Definition variedEnv : Env :=
  {| clock := fun n => (N.of_nat n + 1700000000000)%N; ticks := 0;
     random := fun n => {| value := Z.of_nat (n mod 10) # 10; base36 := "0.i" |};
     draws := 0;
     transport := fun _ => Delivered None; posts := 0;
     localMonth := fun _ => 0%Z |}.

Definition variedWorld : World :=
  {| env := variedEnv;
     process_env := ∅;
     sendLog := [];
     store := {| mockRecommendations := []; mockActiveWorkflows := ∅ |};
     agent := {| auditTrail := []; timers := [] |};
     builtins := ∅ |}.

(** A recommendation as the model would return it for an aircraft the
    fleet does not list. *)
Definition strayRecommendation : MaintenanceRecommendation :=
  {| rec_id := "rec-1700000000000-k3j5x9q2p";
     rec_aircraftId := "unknown";
     rec_tailNumber := "N999ZZ";
     rec_maintenanceType := "A_CHECK";
     rec_urgency := "MEDIUM";
     rec_scheduledDate := 1700604800000;
     rec_recommendedDate := 1700604800000;
     rec_estimatedCost := 15000;
     rec_estimatedDuration := 8;
     rec_estimatedDowntime := 8;
     rec_description := "A_CHECK - Routine inspection";
     rec_aiConfidence := 85 # 100;
     rec_reasoning := ["Routine inspection"];
     rec_status := PENDING;
     rec_workflowId := None;
     rec_complianceRequirements := ["FAR 91.409"; "FAR 135.421"];
     rec_riskFactors := ["Standard maintenance"];
     rec_affectedAssets := ["N999ZZ"];
     rec_requiredPersonnel := ["Certified A&P Mechanic"];
     rec_timeWindow := {| earliest := 1700604800000; latest := 1701814400000;
                          optimal := 1701209600000 |};
     rec_createdAt := 1700000000000;
     rec_approvedBy := None;
     rec_approvedAt := None |}.

(** A store that holds that recommendation only. *)
Definition strayWorld : World :=
  {| env := steadyEnv;
     process_env := ∅;
     sendLog := [];
     store := {| mockRecommendations := [strayRecommendation];
                 mockActiveWorkflows := ∅ |};
     agent := {| auditTrail := []; timers := [] |};
     builtins := ∅ |}.

Definition approval (recommendationId approvedBy : string) : Route.Body :=
  {| Route.recommendationId := Some recommendationId;
     Route.approvedBy := Some approvedBy;
     Route.approvalNotes := None;
     Route.rejectedBy := None;
     Route.rejectionReason := None |}.

Definition rejection (recommendationId rejectedBy : string) : Route.Body :=
  {| Route.recommendationId := Some recommendationId;
     Route.approvedBy := None;
     Route.approvalNotes := None;
     Route.rejectedBy := Some rejectedBy;
     Route.rejectionReason := Some "Deferred to next quarter" |}.

(** A host on which [OPENAI_API_KEY] is set. *)
Definition keyedWorld : World :=
  {| env := steadyEnv;
     process_env := {[ "OPENAI_API_KEY" := "sk-live" ]};
     sendLog := [];
     store := {| mockRecommendations := []; mockActiveWorkflows := ∅ |};
     agent := {| auditTrail := []; timers := [] |};
     builtins := ∅ |}.

(** Stand-ins for the runtime's two conversions, for answers that hold no
    string and no array where a number is read: they are never consulted. *)
Definition noNumericString : string -> OpenAIService.JSNumber :=
  fun _ => OpenAIService.NaN.
Definition emptyJoin : list OpenAIService.Value -> Completion string :=
  fun _ => Normal "".

(** [{"recommendations": [{"tailNumber": "N123AB", "confidence": 120}]}] *)
Definition cappedAnswer : OpenAIService.Value :=
  OpenAIService.JObject
    [ ("recommendations",
       OpenAIService.JArray
         [ OpenAIService.JObject
             [ ("tailNumber", OpenAIService.JString "N123AB");
               ("confidence", OpenAIService.JNumber (OpenAIService.Finite 120)) ] ]) ].

(** [{"recommendations": [{"tailNumber": "N123AB", "confidence": {}}]}] *)
Definition oddAnswer : OpenAIService.Value :=
  OpenAIService.JObject
    [ ("recommendations",
       OpenAIService.JArray
         [ OpenAIService.JObject
             [ ("tailNumber", OpenAIService.JString "N123AB");
               ("confidence", OpenAIService.JObject []) ] ]) ].

End Scenario.

(** ** Further scenarios *)

Module Cases.

(** A Gmail configuration given to the constructor without credentials. *)
Definition gmailWithoutCredentials : SMTPConfig :=
  {| provider := gmail; host := None; port := None; secure := None;
     auth := None; from := "ops@ganderaviation.com"; inboxId := None |}.

(** The body [{ workflowId, status }] of an update-workflow-status request. *)
Definition statusBody (workflowId status : string) : Route.StatusBody :=
  {| Route.sb_workflowId := Some workflowId; Route.sb_status := Some status;
     Route.sb_updatedBy := None; Route.sb_notes := None |}.

(** A workflow in progress, as the materializer builds them. *)
Definition sampleWorkflow : ActiveWorkflow :=
  {| wf_id := "workflow-rec-1";
     wf_recommendationId := "rec-1";
     wf_aircraftId := "n123ab";
     wf_tailNumber := "N123AB";
     wf_maintenanceType := "A_CHECK";
     wf_status := "INITIATED";
     wf_progress :=
       {| tasksCompleted := 2; totalTasks := 7;
          currentTask := "Setting up work area and gathering tools";
          nextMilestone := "Begin primary inspection procedures";
          pr_estimatedCompletion := 1700000300000 |};
     wf_assignments :=
       {| mechanic := "John Smith"; inspector := None; supervisor := "Tom Anderson" |};
     wf_resources :=
       {| res_hangar := "Hangar A - Bay 1";
          res_equipment := Tools ["Basic Tool Kit"; "Multimeter"; "Torque Wrench"];
          res_parts := ["Oil Filter"] |};
     wf_timeline :=
       {| started := 1699999000000; tl_estimatedCompletion := 1700000300000;
          actualCompletion := None |};
     wf_notifications :=
       {| lastSent := 1699999900000; nextReminder := 1700014400000;
          escalationLevel := 0 |} |}.

(** A store that holds that workflow and no recommendation. *)
Definition trackedWorld : World :=
  Route.set_workflows {[ "workflow-rec-1" := sampleWorkflow ]} Scenario.emptyWorld.

(** One aircraft flown at 80% utilization, with no demand or seasonal
    data given. *)
Definition busyAircraft : OpenAIService.MaintenanceRecommendationInput :=
  {| OpenAIService.aircraftData :=
       {| OpenAIService.ad_tailNumber := "N123AB";
          OpenAIService.ad_aircraftType := "Gulfstream G550";
          OpenAIService.ad_totalAircraftTime := 2450;
          OpenAIService.ad_totalCycles := 1850;
          OpenAIService.ad_lastInspection := None |};
     OpenAIService.utilizationData :=
       {| OpenAIService.utilizationPercentage := 80;
          OpenAIService.flightHours := 120;
          OpenAIService.avgFlightTime := 2;
          OpenAIService.maintenanceRisk := "HIGH";
          OpenAIService.trend := "INCREASING" |};
     OpenAIService.flightHistory := [];
     OpenAIService.scheduleDemandData := None;
     OpenAIService.seasonalData := None |}.

(** [{"tailNumber": "N123AB", "confidence": 0}] *)
Definition zeroConfidence : OpenAIService.Value :=
  OpenAIService.JObject
    [ ("tailNumber", OpenAIService.JString "N123AB");
      ("confidence", OpenAIService.JNumber (OpenAIService.Finite 0)) ].

(** A pending recommendation as the optimize handler stores them from the
    model's answer: the id is built from the clock and a random number,
    the maintenance type is the text the model gave. *)
Definition recommendation (id aircraftId tailNumber maintenanceType : string)
  : MaintenanceRecommendation :=
  {| rec_id := id;
     rec_aircraftId := aircraftId;
     rec_tailNumber := tailNumber;
     rec_maintenanceType := maintenanceType;
     rec_urgency := "MEDIUM";
     rec_scheduledDate := 1700604800000;
     rec_recommendedDate := 1700604800000;
     rec_estimatedCost := 15000;
     rec_estimatedDuration := 8;
     rec_estimatedDowntime := 8;
     rec_description := maintenanceType +:+ " - Routine inspection";
     rec_aiConfidence := 85 # 100;
     rec_reasoning := ["Routine inspection"];
     rec_status := PENDING;
     rec_workflowId := None;
     rec_complianceRequirements := ["FAR 91.409"];
     rec_riskFactors := ["Standard maintenance"];
     rec_affectedAssets := [tailNumber];
     rec_requiredPersonnel := ["Certified A&P Mechanic"];
     rec_timeWindow := {| earliest := 1700604800000; latest := 1701814400000;
                          optimal := 1701209600000 |};
     rec_createdAt := 1700000000000;
     rec_approvedBy := None;
     rec_approvedAt := None |}.

(** Two recommendations of one answer that were given the same id: both
    were built in the same millisecond, from the same random digits. *)
Definition firstTwin : MaintenanceRecommendation :=
  recommendation "rec-1700000000000-i" "n123ab" "N123AB" "A_CHECK".
Definition secondTwin : MaintenanceRecommendation :=
  recommendation "rec-1700000000000-i" "n456cd" "N456CD" "100_HOUR".

Definition twinWorld : World :=
  Route.set_recommendations [firstTwin; secondTwin] Scenario.emptyWorld.

(** A recommendation for which the model named the maintenance type
    ['status']. *)
Definition statusTyped : MaintenanceRecommendation :=
  recommendation "rec-1700000000000-j" "n123ab" "N123AB" "status".

(** A recommendation for which the model named the maintenance type
    ['constructor'], and a store that holds it. *)
Definition oddlyTyped : MaintenanceRecommendation :=
  recommendation "rec-1700000000000-k" "n123ab" "N123AB" "constructor".

Definition oddlyTypedWorld : World :=
  Route.set_recommendations [oddlyTyped] Scenario.emptyWorld.

(** The world after the update-workflow-status request
    [{ workflowId: '__proto__', status: 'IN_PROGRESS' }]. *)
Definition pollutedWorld : World :=
  snd (Route.updateWorkflowStatus (statusBody "__proto__" "IN_PROGRESS")
         Scenario.emptyWorld).

End Cases.

(* ===================================================================== *)
(** * Part II.  Properties                                                *)
(* ===================================================================== *)

Lemma gtb_irrefl (a : Q) : JSNum.gtb a a = false.
Proof.
  unfold JSNum.gtb. apply negb_false_iff. apply Qle_bool_iff. apply Qle_refl.
Qed.

Section SchedulerFacts.

Import Scheduler.
Context {FlightPlan WorkOrder : Type}.

Lemma mutateSchedule_id (s : list MaintenanceScheduleItem) (p : list UtilizationPattern) :
  mutateSchedule s p = s.
Proof. reflexivity. Qed.

Lemma evaluateSchedule_const (c : SchedulingConfig)
  (s1 s2 : list MaintenanceScheduleItem) (p : list UtilizationPattern)
  (f : list FlightPlan) :
  evaluateSchedule c s1 p f = evaluateSchedule c s2 p f.
Proof. reflexivity. Qed.

Lemma improve_keeps (c : SchedulingConfig) (n : nat) (p : list UtilizationPattern)
  (f : list FlightPlan) (s : list MaintenanceScheduleItem) :
  improve c n p f (s, evaluateSchedule c s p f) = (s, evaluateSchedule c s p f).
Proof.
  induction n as [|n IH]; [reflexivity|].
  cbn [improve fst snd]. rewrite mutateSchedule_id, gtb_irrefl. exact IH.
Qed.

End SchedulerFacts.

(** C5.  The iterative-improvement loop of [optimizeSchedule] returns its
    input list: [mutateSchedule] is the identity, every candidate scores the
    same constant, no candidate scores strictly higher than the current
    best, and the 100 iterations never replace the initial schedule. *)
Theorem optimizeSchedule_returns_input {FlightPlan WorkOrder : Type}
  (config : Scheduler.SchedulingConfig)
  (predictedMaintenance : list Scheduler.MaintenanceScheduleItem)
  (upcomingFlights : list FlightPlan)
  (patterns : list Scheduler.UtilizationPattern)
  (currentWorkOrders : list WorkOrder) :
  (forall s, Scheduler.mutateSchedule s patterns = s)
  /\ (forall s, Scheduler.evaluateSchedule config s patterns upcomingFlights
               = Scheduler.evaluateSchedule config predictedMaintenance patterns upcomingFlights)
  /\ (forall s, JSNum.gtb
                 (Scheduler.evaluateSchedule config (Scheduler.mutateSchedule s patterns)
                    patterns upcomingFlights)
                 (Scheduler.evaluateSchedule config s patterns upcomingFlights) = false)
  /\ Scheduler.optimizeSchedule config predictedMaintenance upcomingFlights patterns
       currentWorkOrders = predictedMaintenance.
Proof.
  repeat split.
  - intros s. apply gtb_irrefl.
  - unfold Scheduler.optimizeSchedule. cbv zeta.
    rewrite (improve_keeps (FlightPlan := FlightPlan)). reflexivity.
Qed.

(** ** Stepping through computations *)

Lemma truthy_Some (s : string) : s <> "" -> JSString.truthy (Some s) = true.
Proof.
  intros H. unfold JSString.truthy. apply negb_true_iff. now apply String.eqb_neq.
Qed.

Lemma find_none_iff (rid : string) (l : list MaintenanceRecommendation) :
  (forall r, In r l -> rec_id r <> rid) -> find (Route.has_id rid) l = None.
Proof.
  induction l as [|r l IH]; intros H; [reflexivity|].
  cbn [find]. unfold Route.has_id at 1.
  destruct (String.eqb_spec (rec_id r) rid) as [E|_].
  - exfalso. apply (H r); [now left | exact E].
  - apply IH. intros r' Hr'. apply H. now right.
Qed.

(** The element [find] returns is the first one with that id: the list
    splits around it, and the in-place update touches that element only. *)
Lemma find_split (rid : string) (l : list MaintenanceRecommendation)
  (rec : MaintenanceRecommendation) :
  find (Route.has_id rid) l = Some rec ->
  exists l1 l2,
    l = l1 ++ rec :: l2
    /\ rec_id rec = rid
    /\ (forall r, In r l1 -> rec_id r <> rid)
    /\ forall f, Route.mutate_found (Route.has_id rid) f l = l1 ++ f rec :: l2.
Proof.
  induction l as [|r l IH]; [discriminate|].
  cbn [find Route.mutate_found]. unfold Route.has_id at 1 3.
  destruct (String.eqb_spec (rec_id r) rid) as [E|N].
  - intros [= <-]. exists [], l. repeat split; [exact E | intros ? [] ].
  - intros H. destruct (IH H) as (l1 & l2 & -> & Hid & Hl1 & Hm).
    exists (r :: l1), l2. repeat split; [exact Hid | | ].
    + intros r' [<-|Hr']; [exact N | now apply Hl1].
    + intros f. cbn [app]. now rewrite Hm.
Qed.

(** ** The approval gate: unknown ids *)

(** C2 (as amended).  For every non-empty recommendation id that does not
    occur in the store, the approve handler called with that id and a
    non-empty approver answers 404 with the error "Recommendation not found"
    and leaves the whole state as it was: every recommendation unchanged, no
    workflow added. *)
Theorem approve_unknown_id_is_404 (w : World) (body : Route.Body) (rid approver : string) :
  Route.recommendationId body = Some rid -> rid <> "" ->
  Route.approvedBy body = Some approver -> approver <> "" ->
  (forall r, In r (mockRecommendations (store w)) -> rec_id r <> rid) ->
  Route.approveRecommendation body w
  = (Normal (Route.json 404 (Route.ErrorPayload "Recommendation not found")), w).
Proof.
  intros Hid Hrid Hby Happrover Hfresh.
  unfold Route.approveRecommendation.
  rewrite Hid, Hby, (truthy_Some _ Hrid), (truthy_Some _ Happrover).
  cbn [negb orb JSString.interpolate].
  unfold bind, get. rewrite (find_none_iff _ _ Hfresh). reflexivity.
Qed.

Lemma approve_unknown_id_is_404_witness :
  Route.approveRecommendation (Scenario.approval "rec-42" "ops") Scenario.seededWorld
  = (Normal (Route.json 404 (Route.ErrorPayload "Recommendation not found")),
     Scenario.seededWorld).
Proof.
  apply (approve_unknown_id_is_404 Scenario.seededWorld
           (Scenario.approval "rec-42" "ops") "rec-42" "ops").
  - reflexivity.
  - discriminate.
  - reflexivity.
  - discriminate.
  - intros r Hr. vm_compute in Hr.
    repeat (destruct Hr as [<-|Hr]; [discriminate|]). destruct Hr.
Defined.

(** The claim as first stated fails for the empty id: it occurs in no
    store, and the handler answers 400, not 404. *)
Lemma approve_empty_id_is_400 :
  Route.approveRecommendation (Scenario.approval "" "ops") Scenario.seededWorld
  = (Normal (Route.json 400
               (Route.ErrorPayload "recommendationId and approvedBy are required")),
     Scenario.seededWorld).
Proof. reflexivity. Qed.

(** ** The approval gate: rejection *)

Lemma with_status_restore (st : RecStatus) (r : MaintenanceRecommendation) :
  Route.with_status (rec_status r) (Route.with_status st r) = r.
Proof. destruct r. reflexivity. Qed.

(** C4 (as amended).  For a recommendation [rec] of the store (the first
    one that carries its id) whose id is not empty, the reject handler
    called with that id and a non-empty rejecter answers 200 and sets the
    status of [rec] to REJECTED.
    Every other field of [rec] is unchanged (putting the old status back
    gives [rec] again), the recommendations before and after it are
    unchanged, the workflow map is unchanged, no email send is invoked (the
    send log, the random draws and the transport are untouched) and the
    agentic workflow's state is unchanged. *)
Theorem reject_sets_status_only (w : World) (body : Route.Body)
  (rec : MaintenanceRecommendation) (rejecter : string) :
  Route.recommendationId body = Some (rec_id rec) -> rec_id rec <> "" ->
  Route.rejectedBy body = Some rejecter -> rejecter <> "" ->
  find (Route.has_id (rec_id rec)) (mockRecommendations (store w)) = Some rec ->
  exists l1 l2 timestamp w',
    Route.rejectRecommendation body w
    = (Normal (Route.json 200
                 (Route.RejectionPayload (Route.with_status REJECTED rec)
                    (Route.rejectionReason body)
                    "Recommendation rejected successfully" timestamp)), w')
    /\ mockRecommendations (store w) = l1 ++ rec :: l2
    /\ mockRecommendations (store w') = l1 ++ Route.with_status REJECTED rec :: l2
    /\ rec_status (Route.with_status REJECTED rec) = REJECTED
    /\ Route.with_status (rec_status rec) (Route.with_status REJECTED rec) = rec
    /\ mockActiveWorkflows (store w') = mockActiveWorkflows (store w)
    /\ sendLog w' = sendLog w
    /\ draws (env w') = draws (env w)
    /\ posts (env w') = posts (env w)
    /\ agent w' = agent w.
Proof.
  intros Hid Hrid Hby Hrejecter Hfind.
  destruct (find_split _ _ _ Hfind) as (l1 & l2 & Hl & _ & _ & Hm).
  unfold Route.rejectRecommendation.
  rewrite Hid, Hby, (truthy_Some _ Hrid), (truthy_Some _ Hrejecter).
  cbn [negb orb JSString.interpolate].
  unfold bind, get, modify, new_Date, bind, Date_now, ret. rewrite Hfind.
  cbn -[Route.with_status Route.mutate_found]. rewrite Hm.
  do 4 eexists. split; [reflexivity|].
  repeat split; try assumption. apply with_status_restore.
Qed.

Lemma reject_sets_status_only_witness :
  exists rec,
    find (Route.has_id "baseline-n456cd-annual")
      (mockRecommendations (store Scenario.seededWorld)) = Some rec
    /\ rec_status rec = PENDING
    /\ exists l1 l2 timestamp w',
         Route.rejectRecommendation (Scenario.rejection "baseline-n456cd-annual" "ops")
           Scenario.seededWorld
         = (Normal (Route.json 200
                      (Route.RejectionPayload (Route.with_status REJECTED rec)
                         (Some "Deferred to next quarter")
                         "Recommendation rejected successfully" timestamp)), w')
         /\ mockRecommendations (store Scenario.seededWorld) = l1 ++ rec :: l2
         /\ mockRecommendations (store w') = l1 ++ Route.with_status REJECTED rec :: l2
         /\ rec_status (Route.with_status REJECTED rec) = REJECTED
         /\ Route.with_status (rec_status rec) (Route.with_status REJECTED rec) = rec
         /\ mockActiveWorkflows (store w') = mockActiveWorkflows (store Scenario.seededWorld)
         /\ sendLog w' = sendLog Scenario.seededWorld
         /\ draws (env w') = draws (env Scenario.seededWorld)
         /\ posts (env w') = posts (env Scenario.seededWorld)
         /\ agent w' = agent Scenario.seededWorld.
Proof.
  eexists. split; [vm_compute; reflexivity|]. split; [reflexivity|].
  apply (reject_sets_status_only Scenario.seededWorld
           (Scenario.rejection "baseline-n456cd-annual" "ops") _ "ops").
  - reflexivity.
  - discriminate.
  - reflexivity.
  - discriminate.
  - vm_compute. reflexivity.
Defined.

(** The claim as first stated fails for a recommendation of the store
    that is not the first one carrying its id: the handler answers 200,
    rejects the first, and leaves this one pending. *)
Lemma reject_misses_later_twin :
  In Cases.secondTwin (mockRecommendations (store Cases.twinWorld))
  /\ rec_status Cases.secondTwin = PENDING
  /\ exists payload w',
       Route.rejectRecommendation (Scenario.rejection (rec_id Cases.secondTwin) "ops")
         Cases.twinWorld
       = (Normal (Route.json 200 payload), w')
       /\ mockRecommendations (store w')
          = [Route.with_status REJECTED Cases.firstTwin; Cases.secondTwin]
       /\ ~ In (Route.with_status REJECTED Cases.secondTwin)
             (mockRecommendations (store w')).
Proof.
  split; [cbn; auto|]. split; [reflexivity|].
  eexists _, _. split; [vm_compute; reflexivity|]. split; [reflexivity|].
  cbn. intros [H | [H | []]]; discriminate.
Qed.

(** ** The recommendations endpoint *)

Definition isPending (r : MaintenanceRecommendation) : bool :=
  match rec_status r with PENDING => true | _ => false end.

Lemma is_status_PENDING (r : MaintenanceRecommendation) :
  Route.is_status "PENDING" r = isPending r.
Proof. unfold Route.is_status, isPending. now destruct (rec_status r). Qed.

Lemma filter_ext_bool {A} (f g : A -> bool) (l : list A) :
  (forall a, f a = g a) -> List.filter f l = List.filter g l.
Proof.
  intros H. induction l as [|a l IH]; [reflexivity|].
  cbn [List.filter]. now rewrite H, IH.
Qed.

(** The shape of every answer of the endpoint. *)
Lemma getAIRecommendations_answer (tailNumber status : option string) (w : World) :
  exists recs active timestamp w',
    Route.getAIRecommendations tailNumber status w
    = (Normal (Route.json 200
                 (Route.RecommendationsPayload recs (length recs)
                    (length (List.filter isPending recs)) active timestamp)), w')
    /\ (JSString.truthy tailNumber = false -> JSString.truthy status = false ->
        recs = if Nat.eqb (length (mockRecommendations (store w))) 0
               then mockRecommendations (store w')
               else mockRecommendations (store w))
    /\ (mockRecommendations (store w) = [] ->
        map (fun r => (rec_aircraftId r, rec_maintenanceType r, rec_status r))
          (mockRecommendations (store w'))
        = [ ("n123ab", "100_HOUR", PENDING); ("n123ab", "ANNUAL", PENDING);
            ("n456cd", "100_HOUR", PENDING); ("n456cd", "ANNUAL", PENDING);
            ("n789xy", "100_HOUR", PENDING); ("n789xy", "ANNUAL", PENDING) ]).
Proof.
  destruct w as [e pe sl [recs wfs] ag].
  unfold Route.getAIRecommendations, bind at 1, get.
  cbn [store mockRecommendations].
  destruct recs as [|r0 recs].
  - cbn -[List.filter Route.is_status JSString.truthy JSString.interpolate JSString.includes].
    do 4 eexists. split.
    + rewrite (filter_ext_bool _ _ _ is_status_PENDING). reflexivity.
    + split; [intros -> ->; reflexivity | intros _; reflexivity].
  - cbn -[List.filter Route.is_status JSString.truthy JSString.interpolate JSString.includes].
    do 4 eexists. split.
    + rewrite (filter_ext_bool _ _ _ is_status_PENDING). reflexivity.
    + split; [intros -> ->; reflexivity | discriminate].
Qed.

(** C10.  When the store is empty the GET ai-recommendations handler first
    seeds it with exactly two baseline PENDING recommendations (100_HOUR and
    ANNUAL) per mock aircraft, six in all; the unfiltered answer is never an
    empty list; and in every answer [totalCount] is the length of the
    returned list and [pendingApprovals] the number of its PENDING
    elements. *)
Theorem getAIRecommendations_seeds_and_counts :
  (forall (tailNumber status : option string) (w : World),
      mockRecommendations (store w) = [] ->
      map (fun r => (rec_aircraftId r, rec_maintenanceType r, rec_status r))
        (mockRecommendations (store (snd (Route.getAIRecommendations tailNumber status w))))
      = [ ("n123ab", "100_HOUR", PENDING); ("n123ab", "ANNUAL", PENDING);
          ("n456cd", "100_HOUR", PENDING); ("n456cd", "ANNUAL", PENDING);
          ("n789xy", "100_HOUR", PENDING); ("n789xy", "ANNUAL", PENDING) ])
  /\ (forall w : World,
        exists recs total pending active timestamp w',
          Route.getAIRecommendations None None w
          = (Normal (Route.json 200
                       (Route.RecommendationsPayload recs total pending active timestamp)),
             w')
          /\ (0 < length recs)%nat)
  /\ (forall (tailNumber status : option string) (w : World),
        exists recs total pending active timestamp w',
          Route.getAIRecommendations tailNumber status w
          = (Normal (Route.json 200
                       (Route.RecommendationsPayload recs total pending active timestamp)),
             w')
          /\ total = length recs
          /\ pending = length (List.filter isPending recs)).
Proof.
  split; [|split].
  - intros tailNumber status w Hempty.
    destruct (getAIRecommendations_answer tailNumber status w)
      as (recs & active & ts & w' & Hrun & _ & Hseed).
    rewrite Hrun. cbn [snd]. now apply Hseed.
  - intros w.
    destruct (getAIRecommendations_answer None None w)
      as (recs & active & ts & w' & Hrun & Hrecs & Hseed).
    exists recs, (length recs), (length (List.filter isPending recs)), active, ts, w'.
    split; [exact Hrun|].
    rewrite (Hrecs eq_refl eq_refl).
    destruct (mockRecommendations (store w)) as [|r l] eqn:Hstore.
    + cbn [length Nat.eqb]. specialize (Hseed eq_refl).
      apply (f_equal (@length _)) in Hseed. rewrite length_map in Hseed.
      rewrite Hseed. cbn. lia.
    + cbn. lia.
  - intros tailNumber status w.
    destruct (getAIRecommendations_answer tailNumber status w)
      as (recs & active & ts & w' & Hrun & _).
    exists recs, (length recs), (length (List.filter isPending recs)), active, ts, w'.
    repeat split. exact Hrun.
Qed.

Lemma getAIRecommendations_seeds_and_counts_witness :
  mockRecommendations (store Scenario.emptyWorld) = []
  /\ map (fun r => (rec_aircraftId r, rec_maintenanceType r, rec_status r))
       (mockRecommendations (store Scenario.seededWorld))
     = [ ("n123ab", "100_HOUR", PENDING); ("n123ab", "ANNUAL", PENDING);
         ("n456cd", "100_HOUR", PENDING); ("n456cd", "ANNUAL", PENDING);
         ("n789xy", "100_HOUR", PENDING); ("n789xy", "ANNUAL", PENDING) ].
Proof.
  split; [reflexivity|].
  apply (proj1 getAIRecommendations_seeds_and_counts None None Scenario.emptyWorld).
  reflexivity.
Defined.

(** ** Computations that return normally, within a frame

    [returns R m P]: from every world, [m] completes normally with a value
    satisfying [P], in a world related to the initial one by [R]. *)

Definition returns (R : World -> World -> Prop) {A} (m : M A) (P : A -> Prop) : Prop :=
  forall w, exists a w', m w = (Normal a, w') /\ R w w' /\ P a.

(** The relations used as frames: reflexive, transitive, and blind to the
    clock, the random source and the transport. *)
Class Frame (R : World -> World -> Prop) : Prop := {
  frame_refl : forall w, R w w;
  frame_trans : forall a b c, R a b -> R b c -> R a c;
  frame_env : forall w e, R w (with_env e w)
}.

Section Frames.

Context (R : World -> World -> Prop) `{!Frame R}.

Lemma returns_ret {A} (a : A) (P : A -> Prop) : P a -> returns R (ret a) P.
Proof. intros H w. exists a, w. repeat split; [apply frame_refl | exact H]. Qed.

Lemma returns_bind {A B} (m : M A) (k : A -> M B) (P : A -> Prop) (Q : B -> Prop) :
  returns R m P -> (forall a, P a -> returns R (k a) Q) -> returns R (bind m k) Q.
Proof.
  intros Hm Hk w. destruct (Hm w) as (a & w1 & E1 & R1 & Pa).
  destruct (Hk a Pa w1) as (b & w2 & E2 & R2 & Qb).
  exists b, w2. unfold bind. rewrite E1. repeat split; [exact E2 | | exact Qb].
  eapply frame_trans; eassumption.
Qed.

Lemma returns_seq {A B} (m : M A) (k : A -> M B) (Q : B -> Prop) :
  returns R m (fun _ => True) -> (forall a, returns R (k a) Q) -> returns R (bind m k) Q.
Proof. intros Hm Hk. apply (returns_bind m k (fun _ => True) Q Hm). intros a _. apply Hk. Qed.

Lemma returns_try_catch {A} (m : M A) (h : string -> M A) (P : A -> Prop) :
  returns R m P -> returns R (try_catch m h) P.
Proof.
  intros Hm w. destruct (Hm w) as (a & w1 & E1 & R1 & Pa).
  exists a, w1. unfold try_catch. rewrite E1. auto.
Qed.

Lemma returns_weaken {A} (m : M A) (P Q : A -> Prop) :
  returns R m P -> (forall a, P a -> Q a) -> returns R m Q.
Proof.
  intros Hm HPQ w. destruct (Hm w) as (a & w1 & E1 & R1 & Pa).
  exists a, w1. auto.
Qed.

Lemma returns_Date_now : returns R Date_now (fun _ => True).
Proof. intros w. eexists _, _. split; [reflexivity|]. split; [apply frame_env | exact I]. Qed.

Lemma returns_Math_random : returns R Math_random (fun _ => True).
Proof. intros w. eexists _, _. split; [reflexivity|]. split; [apply frame_env | exact I]. Qed.

Lemma returns_post : returns R post (fun _ => True).
Proof. intros w. eexists _, _. split; [reflexivity|]. split; [apply frame_env | exact I]. Qed.

Lemma returns_new_Date : returns R new_Date (fun _ => True).
Proof.
  unfold new_Date. apply returns_seq; [apply returns_Date_now|].
  intros t. now apply returns_ret.
Qed.

Lemma returns_get : returns R get (fun _ => True).
Proof. intros w. exists w, w. repeat split. apply frame_refl. Qed.

Lemma returns_modify (f : World -> World) :
  (forall w, R w (f w)) -> returns R (modify f) (fun _ => True).
Proof. intros Hf w. exists tt, (f w). repeat split. apply Hf. Qed.

End Frames.

(** One step of a straight-line computation. *)
Ltac step_returns :=
  lazymatch goal with
  | |- returns _ (bind _ _) _ => eapply returns_seq; [ exact _ | | intros ?]
  | |- returns _ (try_catch _ _) _ => eapply returns_try_catch
  | |- returns _ Date_now _ => apply returns_Date_now; exact _
  | |- returns _ Math_random _ => apply returns_Math_random; exact _
  | |- returns _ new_Date _ => apply returns_new_Date; exact _
  | |- returns _ (ret _) _ => apply returns_ret; [exact _ | ]
  end.

(** *** The frame of the agentic workflow: it touches neither the store,
    nor the send log, nor the process environment. *)
Definition outside_agent (w w' : World) : Prop :=
  store w' = store w /\ sendLog w' = sendLog w /\ process_env w' = process_env w.

#[local] Instance outside_agent_frame : Frame outside_agent.
Proof.
  split.
  - intros w. repeat split.
  - intros a b c (H1 & H2 & H3) (H4 & H5 & H6). repeat split; congruence.
  - intros w e. repeat split.
Qed.

(** *** The frame of the email service: it touches neither the store, nor
    the agentic workflow's state, nor the process environment. *)
Definition outside_mail (w w' : World) : Prop :=
  store w' = store w /\ agent w' = agent w /\ process_env w' = process_env w.

#[local] Instance outside_mail_frame : Frame outside_mail.
Proof.
  split.
  - intros w. repeat split.
  - intros a b c (H1 & H2 & H3) (H4 & H5 & H6). repeat split; congruence.
  - intros w e. repeat split.
Qed.

(** ** The agentic workflow *)

Section AgenticFacts.

Import Agentic.

Lemma logAuditEntry_ok action actor details dataChanges complianceRelevant :
  returns outside_agent (logAuditEntry action actor details dataChanges complianceRelevant) (fun _ => True).
Proof.
  unfold logAuditEntry. do 3 (step_returns; [step_returns|]).
  apply returns_modify. intros w. repeat split.
Qed.

Lemma createTaskAssignments_ok rid :
  returns outside_agent (createTaskAssignments rid) (fun _ => True).
Proof. unfold createTaskAssignments. do 4 (step_returns; [step_returns|]). now step_returns. Qed.

Lemma sendNotifications_ok assignments :
  returns outside_agent (sendNotifications assignments) (fun _ => True).
Proof.
  induction assignments as [|a l IH]; cbn [sendNotifications]; [now step_returns|].
  do 2 (step_returns; [step_returns|]).
  step_returns.
  - destruct (JSString.truthy (as_assigneePhone a)).
    + do 2 (step_returns; [step_returns|]). now step_returns.
    + now step_returns.
  - step_returns; [exact IH|]. now step_returns.
Qed.

Lemma createCalendarEvent_ok rid :
  returns outside_agent (createCalendarEvent rid) (fun _ => True).
Proof. unfold createCalendarEvent. do 3 (step_returns; [step_returns|]). now step_returns. Qed.

Lemma bookResources_ok rid :
  returns outside_agent (bookResources rid) (fun _ => True).
Proof. unfold bookResources. do 6 (step_returns; [step_returns|]). now step_returns. Qed.

Lemma createWorkOrder_ok rid approver :
  returns outside_agent (createWorkOrder rid approver) (fun _ => True).
Proof. unfold createWorkOrder. do 7 (step_returns; [step_returns|]). now step_returns. Qed.

Lemma createComplianceLogs_ok rid :
  returns outside_agent (createComplianceLogs rid) (fun _ => True).
Proof. unfold createComplianceLogs. do 4 (step_returns; [step_returns|]). now step_returns. Qed.

Lemma scheduleReminders_ok rid :
  returns outside_agent (scheduleReminders rid) (fun _ => True).
Proof.
  unfold scheduleReminders, setTimeout.
  step_returns; [|]; apply returns_modify; intros w; repeat split.
Qed.

(** Every step of the automated sequence returns normally, so the
    sequence does, with its counter at 5. *)
Lemma executeAutomatedSequence_completes rid approver :
  returns outside_agent (executeAutomatedSequence rid approver)
    (fun r => sq_actionsCompleted r = 5%Z).
Proof.
  unfold executeAutomatedSequence, guarded. cbv zeta.
  step_returns; [step_returns|].
  step_returns.
  { step_returns. step_returns; [apply createTaskAssignments_ok|].
    apply sendNotifications_ok. }
  step_returns.
  { step_returns. step_returns; [apply createCalendarEvent_ok|].
    step_returns; [apply bookResources_ok|]. now step_returns. }
  step_returns; [step_returns; apply createWorkOrder_ok|].
  step_returns; [step_returns; apply createComplianceLogs_ok|].
  step_returns; [step_returns; apply scheduleReminders_ok|].
  step_returns. step_returns; [step_returns|].
  step_returns; [apply logAuditEntry_ok|].
  step_returns. reflexivity.
Qed.

End AgenticFacts.

(** The approval computed step by step on an arbitrary state. *)
Lemma agentic_approval_computes (recommendationId approvedBy : string)
  (approvalNotes : option string) (w : World) :
  exists e entries reminders result,
    Agentic.approveRecommendation recommendationId approvedBy approvalNotes w
    = (Normal result,
       with_env e (with_agent {| auditTrail := auditTrail (agent w) ++ entries;
                                 timers := timers (agent w) ++ reminders |} w))
    /\ apr_success result = true
    /\ apr_message result
       = "Maintenance workflow initiated successfully. 5 automated actions completed."
    /\ map au_action entries = ["RECOMMENDATION_APPROVED"; "AUTOMATED_SEQUENCE_COMPLETED"].
Proof.
  destruct w as [e pe sl st [tr tm]].
  cbv -[JSString.ofN JSString.substr String.append app Z.add Z.mul Z.of_N].
  do 4 eexists. split.
  - rewrite <- !app_assoc. cbn [app]. reflexivity.
  - repeat split.
Qed.

(** C9.  [AgenticMaintenanceWorkflow.approveRecommendation] returns
    [success: true] for every recommendation id, approver and notes, from
    every state: the automated sequence always runs to its end with five
    actions counted, so the message reports 5 automated actions completed,
    and the only audit entries written are the approval and the completion
    (the handlers that log a failure are never entered). *)
Theorem agentic_approval_always_succeeds (recommendationId approvedBy : string)
  (approvalNotes : option string) (w : World) :
  exists result entries w',
    Agentic.approveRecommendation recommendationId approvedBy approvalNotes w
    = (Normal result, w')
    /\ apr_success result = true
    /\ apr_message result
       = "Maintenance workflow initiated successfully. 5 automated actions completed."
    /\ auditTrail (agent w') = auditTrail (agent w) ++ entries
    /\ map au_action entries = ["RECOMMENDATION_APPROVED"; "AUTOMATED_SEQUENCE_COMPLETED"]
    /\ store w' = store w
    /\ forall w0, exists sequence w1,
         Agentic.executeAutomatedSequence recommendationId approvedBy w0
         = (Normal sequence, w1)
         /\ Agentic.sq_actionsCompleted sequence = 5%Z.
Proof.
  destruct (agentic_approval_computes recommendationId approvedBy approvalNotes w)
    as (e & entries & reminders & result & Hrun & Hok & Hmsg & Hentries).
  exists result, entries. eexists. split; [exact Hrun|].
  repeat split; try assumption.
  intros w0.
  destruct (executeAutomatedSequence_completes recommendationId approvedBy w0)
    as (sequence & w1 & Hseq & _ & Hcount).
  exists sequence, w1. split; [exact Hseq | exact Hcount].
Qed.

(** ** The notification dispatcher *)

(** The frame of a single transport exchange: only the environment moves. *)
Definition only_env (w w' : World) : Prop :=
  store w' = store w /\ agent w' = agent w /\ process_env w' = process_env w
  /\ sendLog w' = sendLog w.

#[local] Instance only_env_frame : Frame only_env.
Proof.
  split.
  - intros w. repeat split.
  - intros a b c (H1 & H2 & H3 & H4) (H5 & H6 & H7 & H8). repeat split; congruence.
  - intros w e. repeat split.
Qed.

(** [completes R m]: from every world [m] completes, normally or by a
    throw, in a world related to the initial one by [R]. *)
Definition completes (R : World -> World -> Prop) {A} (m : M A) : Prop :=
  forall w, exists c w', m w = (c, w') /\ R w w'.

Section Completions.

Context (R : World -> World -> Prop) `{!Frame R}.

Lemma completes_returns {A} (m : M A) (P : A -> Prop) : returns R m P -> completes R m.
Proof. intros H w. destruct (H w) as (a & w' & E & HR & _). now exists (Normal a), w'. Qed.

Lemma completes_throw {A} (message : string) : completes R (@throw A message).
Proof. intros w. exists (Throw message), w. split; [reflexivity | apply frame_refl]. Qed.

Lemma completes_bind {A B} (m : M A) (k : A -> M B) :
  completes R m -> (forall a, completes R (k a)) -> completes R (bind m k).
Proof.
  intros Hm Hk w. destruct (Hm w) as ([a|e] & w1 & E1 & R1); unfold bind; rewrite E1.
  - destruct (Hk a w1) as (c & w2 & E2 & R2). exists c, w2.
    split; [exact E2 | eapply frame_trans; eassumption].
  - now exists (Throw e), w1.
Qed.

(** A [try] whose handler returns normally returns normally. *)
Lemma returns_caught {A} (m : M A) (h : string -> M A) :
  completes R m -> (forall e, returns R (h e) (fun _ => True)) ->
  returns R (try_catch m h) (fun _ => True).
Proof.
  intros Hm Hh w. destruct (Hm w) as ([a|e] & w1 & E1 & R1); unfold try_catch; rewrite E1.
  - now exists a, w1.
  - destruct (Hh e w1) as (a & w2 & E2 & R2 & _). exists a, w2.
    repeat split; [exact E2 | eapply frame_trans; eassumption].
Qed.

End Completions.

Section EmailFacts.

Import EmailService.

Lemma deliver_completes : completes only_env deliver.
Proof.
  unfold deliver. apply completes_bind; [exact _ | |].
  - apply (completes_returns _ _ (fun _ => True)). apply returns_post. exact _.
  - intros [serverId|message].
    + apply (completes_returns _ _ (fun _ => True)). now apply returns_ret; [exact _|].
    + apply completes_throw. exact _.
Qed.

(** Every branch of [sendEmail] catches what its transport throws. *)
Lemma sendVia_returns this recipient content emailData messageId :
  returns only_env (sendVia this recipient content emailData messageId) (fun _ => True).
Proof.
  assert (Hpost : forall ok : option string -> SendResult,
             returns only_env
               (try_catch (bind deliver (fun serverId => ret (ok serverId)))
                  (fun message => ret {| success := false; messageId := None;
                                         error := Some message |}))
               (fun _ => True)).
  { intros ok. apply returns_caught; [exact _ | |].
    - apply completes_bind; [exact _ | apply deliver_completes |].
      intros a. apply (completes_returns _ _ (fun _ => True)). now apply returns_ret; [exact _|].
    - intros e. now apply returns_ret; [exact _|]. }
  unfold sendVia, sendSimulatedEmail, sendMailtrapAPIEmail, sendMailtrapTestingEmail.
  destruct (provider (smtpConfig this));
    repeat match goal with
      | |- returns _ (if ?b then _ else _) _ => destruct b
      | |- returns _ (match transporter ?t with _ => _ end) _ => destruct (transporter t)
      end;
    try apply Hpost; try (now apply returns_ret; [exact _|]).
  apply returns_caught; [exact _ | |].
  - apply completes_bind; [exact _ | |].
    + apply (completes_returns _ _ (fun _ => True)). apply returns_Math_random. exact _.
    + intros delay. apply completes_bind; [exact _ | |].
      * apply (completes_returns _ _ (fun _ => True)). apply returns_Math_random. exact _.
      * intros r. destruct (JSNum.ltb (value r) (5 # 100)).
        -- apply completes_throw. exact _.
        -- apply (completes_returns _ _ (fun _ => True)). now apply returns_ret; [exact _|].
  - intros e. now apply returns_ret; [exact _|].
Qed.

(** One [sendEmail] returns normally and adds exactly its own entry to the
    send log. *)
Lemma sendEmail_logs this recipient content emailData (w : World) :
  exists result w',
    sendEmail this recipient content emailData w = (Normal result, w')
    /\ sendLog w' = sendLog w ++ [{| att_recipient := recipient; att_result := result |}]
    /\ outside_mail w w'.
Proof.
  unfold sendEmail, bind at 1 2, Date_now, Math_random. cbn [fst snd].
  set (messageId := (_ +:+ _)).
  match goal with |- context [bind _ _ ?w1] => set (w1' := w1) end.
  destruct (sendVia_returns this recipient content emailData messageId w1')
    as (result & w2 & E & (Hs & Ha & Hp & Hl) & _).
  unfold bind, modify, ret. rewrite E.
  eexists _, _. split; [reflexivity|]. subst w1'.
  split; [cbn; now rewrite Hl | unfold outside_mail; cbn; now rewrite Hs, Ha, Hp].
Qed.

End EmailFacts.

Definition succeeded (a : Attempt) : bool := success (att_result a).

(** The payload's equipment is an array, as its interface says. *)
Definition arrayEquipment (emailData : MaintenanceEmailData) : bool :=
  match res_equipment (ed_resources emailData) with
  | Tools _ => true
  | _ => false
  end.

Lemma filter_partition_length {A} (f : A -> bool) (l : list A) :
  (length (List.filter f l) + length (List.filter (fun a => negb (f a)) l) = length l)%nat.
Proof.
  induction l as [|a l IH]; [reflexivity|].
  cbn [List.filter]. destruct (f a); cbn [negb length]; lia.
Qed.

(** When the equipment is not an array the rendering throws for every
    recipient: the loop records one failure each and sends nothing. *)
Lemma notifyEach_unrendered (this : EmailService.MaintenanceEmailService)
  (emailData : MaintenanceEmailData) (recipients : list EmailRecipient) :
  arrayEquipment emailData = false ->
  forall (emailResults : list SendResult) (failures : list string) (w : World),
  exists errs,
    EmailService.notifyEach this emailData recipients emailResults failures w
    = (Normal (emailResults, failures ++ errs), w)
    /\ length errs = length recipients.
Proof.
  intros Hdata.
  induction recipients as [|recipient rest IH]; intros emailResults failures w.
  - exists []. cbn. rewrite app_nil_r. split; reflexivity.
  - cbn [EmailService.notifyEach].
    unfold bind at 1, try_catch, bind at 1, EmailService.generateEmailContent.
    unfold arrayEquipment in Hdata.
    destruct (res_equipment (ed_resources emailData)) as [tools|name|text];
      [discriminate | |];
      unfold throw, ret; cbn [fst snd];
      (destruct (IH emailResults
                   (failures ++ ["Exception sending to " +:+ rcp_name recipient +:+ ": "
                                   +:+ "resources.equipment.map is not a function"]) w)
         as (errs & E & Hlen);
       exists (("Exception sending to " +:+ rcp_name recipient +:+ ": "
                  +:+ "resources.equipment.map is not a function") :: errs);
       rewrite E, <- app_assoc; split; [reflexivity | cbn [length]; now rewrite Hlen]).
Qed.

Lemma notifyEach_counts (this : EmailService.MaintenanceEmailService)
  (emailData : MaintenanceEmailData) (recipients : list EmailRecipient) :
  forall (emailResults : list SendResult) (failures : list string) (w : World),
  exists oks errs log w',
    EmailService.notifyEach this emailData recipients emailResults failures w
    = (Normal (emailResults ++ oks, failures ++ errs), w')
    /\ sendLog w' = sendLog w ++ log
    /\ map att_recipient log = (if arrayEquipment emailData then recipients else [])
    /\ oks = map att_result (List.filter succeeded log)
    /\ (length oks + length errs = length recipients)%nat
    /\ outside_mail w w'.
Proof.
  destruct (arrayEquipment emailData) eqn:Hdata.
  2:{ intros emailResults failures w.
      destruct (notifyEach_unrendered this emailData recipients Hdata emailResults failures w)
        as (errs & E & Hlen).
      exists [], errs, [], w. rewrite E, !app_nil_r.
      repeat split; try reflexivity. exact Hlen. }
  unfold arrayEquipment in Hdata.
  destruct (res_equipment (ed_resources emailData)) as [tools|name|text] eqn:Hequipment;
    try discriminate. clear Hdata.
  induction recipients as [|recipient rest IH]; intros emailResults failures w.
  - exists [], [], [], w. cbn. rewrite !app_nil_r. repeat split.
  - cbn [EmailService.notifyEach].
    unfold bind at 1, try_catch, bind at 1, EmailService.generateEmailContent.
    rewrite Hequipment. unfold ret at 1.
    unfold bind at 1.
    destruct (sendEmail_logs this recipient
                {| EmailService.subject :=
                     "🔧 SCHEDULED MAINTENANCE: "
                       +:+ ai_tailNumber (ed_aircraftInfo emailData)
                       +:+ " - " +:+ md_type (ed_maintenanceDetails emailData) |}
                emailData w) as (result & w1 & E & Hlog & Hframe).
    rewrite E.
    destruct (success result) eqn:Hok; unfold ret; cbn [fst snd].
    + destruct (IH (emailResults ++ [result]) failures w1)
        as (oks & errs & log & w' & E' & Hlog' & Hmap & Hoks & Herrs & Hframe').
      exists (result :: oks), errs,
        ({| att_recipient := recipient; att_result := result |} :: log), w'.
      rewrite E', <- app_assoc. split; [reflexivity|].
      split; [rewrite Hlog', Hlog, <- app_assoc; reflexivity|].
      split; [cbn [map att_recipient]; now rewrite Hmap|].
      cbn [List.filter]. replace (succeeded {| att_recipient := recipient; att_result := result |})
        with true by (symmetry; exact Hok).
      cbn [negb map att_result].
      split; [now rewrite Hoks|]. split; [cbn [length]; now rewrite <- Herrs|].
      eapply frame_trans; eassumption.
    + destruct (IH emailResults
                  (failures ++ ["Failed to send to " +:+ rcp_name recipient +:+ ": "
                                  +:+ JSString.interpolate (error result)]) w1)
        as (oks & errs & log & w' & E' & Hlog' & Hmap & Hoks & Herrs & Hframe').
      exists oks, (("Failed to send to " +:+ rcp_name recipient +:+ ": "
                      +:+ JSString.interpolate (error result)) :: errs),
        ({| att_recipient := recipient; att_result := result |} :: log), w'.
      rewrite E', <- app_assoc. split; [reflexivity|].
      split; [rewrite Hlog', Hlog, <- app_assoc; reflexivity|].
      split; [cbn [map att_recipient]; now rewrite Hmap|].
      cbn [List.filter].
      replace (succeeded {| att_recipient := recipient; att_result := result |})
        with false by (symmetry; exact Hok).
      cbn [negb length].
      split; [exact Hoks|]. split; [rewrite <- Herrs; lia|].
      eapply frame_trans; eassumption.
Qed.

(** C3.  For every service configuration, every email payload and every
    list of recipients, [sendMaintenanceNotificationEmails] returns a
    summary.  Exactly one send is made per recipient, in order (when the
    payload's equipment is not an array, as its interface says it is, the
    rendering throws for every recipient and no send is made); in both
    cases [sentEmails] is the number of the sends that returned success,
    the failures and the successes add up to the number of recipients, and
    [success] is true exactly when [failures] is empty. *)
Theorem sendMaintenanceNotificationEmails_summary
  (this : EmailService.MaintenanceEmailService) (emailData : MaintenanceEmailData)
  (recipients : list EmailRecipient) (w : World) :
  exists summary log w',
    EmailService.sendMaintenanceNotificationEmails this emailData recipients w
    = (Normal summary, w')
    /\ sendLog w' = sendLog w ++ log
    /\ map att_recipient log = (if arrayEquipment emailData then recipients else [])
    /\ sentEmails summary = length (List.filter succeeded log)
    /\ (length (failures summary) + sentEmails summary = length recipients)%nat
    /\ (sum_success summary = true <-> failures summary = []).
Proof.
  destruct (notifyEach_counts this emailData recipients [] [] w)
    as (oks & errs & log & w' & E & Hlog & Hmap & Hoks & Herrs & _).
  unfold EmailService.sendMaintenanceNotificationEmails, bind, ret. rewrite E.
  cbn [fst snd app].
  eexists _, log, w'. split; [reflexivity|].
  cbn [sentEmails failures sum_success].
  repeat split; try assumption.
  - rewrite Hoks. apply length_map.
  - rewrite Nat.add_comm. exact Herrs.
  - destruct errs; [reflexivity | discriminate].
  - intros ->. reflexivity.
Qed.

(** ** Message ids *)

Definition is_digit (a : ascii) : bool :=
  Nat.leb 48 (nat_of_ascii a) && Nat.leb (nat_of_ascii a) 57.

Fixpoint all_digits (s : string) : bool :=
  match s with
  | EmptyString => true
  | String a s' => is_digit a && all_digits s'
  end.

Lemma string_of_uint_digits (d : Decimal.uint) :
  all_digits (NilEmpty.string_of_uint d) = true.
Proof. induction d; cbn; auto. Qed.

Lemma N_to_uint_nonnil (n : N) : N.to_uint n <> Decimal.Nil.
Proof.
  destruct n as [|p]; [discriminate|]. apply DecimalPos.Unsigned.to_uint_nonnil.
Qed.

Lemma ofN_digits (n : N) : all_digits (JSString.ofN n) = true.
Proof.
  unfold JSString.ofN, NilZero.string_of_uint.
  destruct (N.to_uint n) eqn:E; try reflexivity;
    rewrite <- E; apply string_of_uint_digits.
Qed.

Lemma ofN_inj (a b : N) : JSString.ofN a = JSString.ofN b -> a = b.
Proof.
  unfold JSString.ofN. intros H.
  apply (f_equal NilZero.uint_of_string) in H.
  rewrite !NilZero.usu in H by apply N_to_uint_nonnil.
  injection H as H. now apply DecimalN.Unsigned.to_uint_inj.
Qed.

(** A run of digits followed by a dash splits in one way only. *)
Lemma digits_dash_split (d1 d2 s1 s2 : string) :
  all_digits d1 = true -> all_digits d2 = true ->
  d1 +:+ String "-" s1 = d2 +:+ String "-" s2 -> d1 = d2 /\ s1 = s2.
Proof.
  revert d2. induction d1 as [|a d1 IH]; intros [|b d2]; cbn; intros H1 H2 E.
  - injection E as ->. now split.
  - injection E as <- _. discriminate H2.
  - injection E as -> _. discriminate H1.
  - injection E as -> E.
    apply andb_true_iff in H1 as [_ H1]. apply andb_true_iff in H2 as [_ H2].
    destruct (IH d2 H1 H2 E) as [-> ->]. now split.
Qed.

Definition messageIdOf (now : N) (r : Draw) : string :=
  "msg-" +:+ JSString.ofN now +:+ "-" +:+ JSString.substr 2 9 (base36 r).

Lemma messageIdOf_eq_iff (now1 now2 : N) (r1 r2 : Draw) :
  messageIdOf now1 r1 = messageIdOf now2 r2
  <-> now1 = now2
      /\ JSString.substr 2 9 (base36 r1) = JSString.substr 2 9 (base36 r2).
Proof.
  unfold messageIdOf. split.
  - cbn [String.append]. intros E. injection E as E.
    apply digits_dash_split in E as [E1 E2]; try apply ofN_digits.
    split; [now apply ofN_inj | exact E2].
  - intros [-> ->]. reflexivity.
Qed.

(** In simulation mode, a send that succeeds returns the id drawn at its
    start: the clock reading and the first nine base-36 digits of the draw. *)
Lemma simulated_send_id this recipient content emailData (w w' : World) result :
  provider (EmailService.smtpConfig this) = simulation ->
  EmailService.sendEmail this recipient content emailData w = (Normal result, w') ->
  success result = true ->
  messageId result
  = Some (messageIdOf (clock (env w) (ticks (env w))) (random (env w) (draws (env w)))).
Proof.
  intros Hsim Hrun Hok.
  unfold EmailService.sendEmail, EmailService.sendVia in Hrun. rewrite Hsim in Hrun.
  unfold EmailService.sendSimulatedEmail, try_catch, bind, Date_now, Math_random,
    modify, ret, throw in Hrun.
  cbn in Hrun.
  destruct (JSNum.ltb _ _) in Hrun; injection Hrun as <- _; [discriminate Hok | reflexivity].
Qed.

(** C8 (as amended).  In simulation mode, two successful sends (to the same
    recipient or not) return the same message id exactly when they read
    the same clock value and drew random numbers with the same first nine
    base-36 digits; whenever either differs, the two ids are different. *)
Theorem simulated_message_ids this recipient1 recipient2 content1 content2
  emailData1 emailData2 (w1 w1' w2 w2' : World) (result1 result2 : SendResult) :
  provider (EmailService.smtpConfig this) = simulation ->
  EmailService.sendEmail this recipient1 content1 emailData1 w1 = (Normal result1, w1') ->
  EmailService.sendEmail this recipient2 content2 emailData2 w2 = (Normal result2, w2') ->
  success result1 = true -> success result2 = true ->
  (messageId result1 = messageId result2
   <-> clock (env w1) (ticks (env w1)) = clock (env w2) (ticks (env w2))
       /\ JSString.substr 2 9 (base36 (random (env w1) (draws (env w1))))
          = JSString.substr 2 9 (base36 (random (env w2) (draws (env w2))))).
Proof.
  intros Hsim Hrun1 Hrun2 Hok1 Hok2.
  rewrite (simulated_send_id _ _ _ _ _ _ _ Hsim Hrun1 Hok1).
  rewrite (simulated_send_id _ _ _ _ _ _ _ Hsim Hrun2 Hok2).
  split.
  - intros E. apply messageIdOf_eq_iff. congruence.
  - intros H. f_equal. now apply messageIdOf_eq_iff.
Qed.

(** Two successive sends to the same recipient on a host whose clock
    advances: both succeed and the ids differ. *)
Lemma simulated_message_ids_witness :
  exists result1 w1 result2 w2,
    EmailService.sendEmail Scenario.simulated Scenario.mechanic Scenario.subjectLine
      Scenario.notice Scenario.emptyWorld = (Normal result1, w1)
    /\ EmailService.sendEmail Scenario.simulated Scenario.mechanic Scenario.subjectLine
         Scenario.notice w1 = (Normal result2, w2)
    /\ messageId result1 = Some "msg-1700000000000-i"
    /\ messageId result2 = Some "msg-1700000000001-i"
    /\ (messageId result1 = messageId result2
        <-> clock (env Scenario.emptyWorld) (ticks (env Scenario.emptyWorld))
            = clock (env w1) (ticks (env w1))
            /\ JSString.substr 2 9
                 (base36 (random (env Scenario.emptyWorld) (draws (env Scenario.emptyWorld))))
               = JSString.substr 2 9 (base36 (random (env w1) (draws (env w1))))).
Proof.
  eexists _, _, _, _.
  split; [vm_compute; reflexivity|]. split; [vm_compute; reflexivity|].
  split; [reflexivity|]. split; [reflexivity|].
  eapply (simulated_message_ids Scenario.simulated Scenario.mechanic Scenario.mechanic
            Scenario.subjectLine Scenario.subjectLine Scenario.notice Scenario.notice).
  - reflexivity.
  - vm_compute. reflexivity.
  - vm_compute. reflexivity.
  - reflexivity.
  - reflexivity.
Defined.

(** The claim as first stated fails when the clock stands still between two
    sends and the draws print alike: both sends to the same recipient
    succeed and return the same id. *)
Lemma simulated_message_ids_can_coincide :
  exists result1 w1 result2 w2,
    EmailService.sendEmail Scenario.simulated Scenario.mechanic Scenario.subjectLine
      Scenario.notice Scenario.frozenWorld = (Normal result1, w1)
    /\ EmailService.sendEmail Scenario.simulated Scenario.mechanic Scenario.subjectLine
         Scenario.notice w1 = (Normal result2, w2)
    /\ success result1 = true
    /\ success result2 = true
    /\ messageId result1 = Some "msg-1700000000000-i"
    /\ messageId result2 = Some "msg-1700000000000-i".
Proof.
  eexists _, _, _, _.
  split; [vm_compute; reflexivity|]. split; [vm_compute; reflexivity|].
  repeat split.
Qed.


(** ** The workflow materializer *)

(** The fields of an [ActiveWorkflow] that are computed from the
    arguments alone. *)
Definition copied_part (wf : ActiveWorkflow) :=
  (wf_id wf, wf_recommendationId wf, wf_aircraftId wf, wf_tailNumber wf,
   wf_maintenanceType wf, wf_status wf,
   currentTask (wf_progress wf), nextMilestone (wf_progress wf),
   wf_assignments wf,
   res_hangar (wf_resources wf)).

(** The fields of an [ActiveWorkflow] that [Math.random()] and [Date.now()]
    do not enter: the former and the equipment. *)
Definition fixed_part (wf : ActiveWorkflow) :=
  (copied_part wf, res_equipment (wf_resources wf)).

(** The equipment of a maintenance type is looked up in a plain object.
    Two worlds give the same answer unless the type is the name ['status']
    and [Object.prototype] has been given different [status] properties
    in them. *)
Definition same_lookup (maintenanceType : string) (w1 w2 : World) : Prop :=
  maintenanceType <> "status" \/ inheritedStatus w1 = inheritedStatus w2.

Lemma inherited_same_lookup (maintenanceType : string) (w1 w2 : World) :
  same_lookup maintenanceType w1 w2 ->
  Route.inherited w1 maintenanceType = Route.inherited w2 maintenanceType.
Proof.
  intros [Hne | Heq]; unfold Route.inherited.
  - destruct (JSString.includes Route.inheritedNames maintenanceType); [reflexivity|].
    destruct (String.eqb_spec maintenanceType "status"); [contradiction | reflexivity].
  - now rewrite Heq.
Qed.

(** Unfolds the plumbing of a computation and nothing of the arithmetic. *)
Ltac run_monad :=
  cbv [bind ret get modify throw try_catch Date_now Math_random new_Date post
       with_env with_store with_agent with_sendLog
       env store agent sendLog process_env
       clock ticks random draws transport posts localMonth fst snd].

Lemma includes_In (l : list string) (s : string) :
  JSString.includes l s = true <-> In s l.
Proof.
  unfold JSString.includes. rewrite existsb_exists. split.
  - intros (x & Hx & E). apply String.eqb_eq in E. now subst.
  - intros H. exists s. split; [exact H | apply String.eqb_refl].
Qed.

(** What a plain object inherits under a name: a built-in exactly for the
    twelve names, nothing for any other name while [Object.prototype] has
    no [status]. *)
Lemma inherited_builtin (w : World) (key : string) :
  In key Route.inheritedNames -> Route.inherited w key = Route.InheritedBuiltIn key.
Proof.
  intros H. unfold Route.inherited. now rewrite (proj2 (includes_In _ _) H).
Qed.

Lemma inherited_nothing (w : World) (key : string) :
  ~ In key Route.inheritedNames -> inheritedStatus w = None ->
  Route.inherited w key = Route.Undefined.
Proof.
  intros Hown Hproto. unfold Route.inherited. rewrite Hproto.
  destruct (JSString.includes Route.inheritedNames key) eqn:E.
  - exfalso. apply Hown. now apply includes_In.
  - now destruct (String.eqb key "status").
Qed.

(** What a plain object inherits depends on [builtins] alone. *)
Lemma inherited_builtins (w w' : World) (key : string) :
  builtins w' = builtins w -> Route.inherited w' key = Route.inherited w key.
Proof. intros H. unfold Route.inherited, inheritedStatus. now rewrite H. Qed.

Lemma new_Date_builtins (w w' : World) (t : Z) :
  new_Date w = (Normal t, w') -> builtins w' = builtins w.
Proof.
  unfold new_Date, bind, Date_now, ret. intros E. injection E as _ <-. reflexivity.
Qed.

(** For a maintenance type that is not a name plain objects inherit, the
    equipment of the workflow is an array. *)
Lemma createWorkflow_equipment (rec : MaintenanceRecommendation) (index : nat)
  (w w' : World) (wf : ActiveWorkflow) :
  Route.createWorkflowFromRecommendation rec index w = (Normal wf, w') ->
  Route.inherited w (rec_maintenanceType rec) = Route.Undefined ->
  exists tools, res_equipment (wf_resources wf) = Tools tools.
Proof.
  destruct w as [e pe sl st ag bi].
  unfold Route.createWorkflowFromRecommendation, Route.getRequiredEquipment. run_monad.
  intros E H. injection E as <- _. unfold res_equipment, wf_resources.
  match type of H with
  | Route.inherited ?w0 ?k = _ =>
      match goal with
      | |- context [Route.inherited ?w1 k] =>
          rewrite (inherited_builtins w0 w1 k eq_refl), H
      end
  end.
  destruct (Route.equipmentMap (rec_maintenanceType rec)); eexists; reflexivity.
Qed.

(** The materializer returns normally, moves nothing but the environment,
    and copies the recommendation's id into the workflow's id and link. *)
Lemma createWorkflow_returns (rec : MaintenanceRecommendation) (index : nat) (w : World) :
  exists wf w',
    Route.createWorkflowFromRecommendation rec index w = (Normal wf, w')
    /\ only_env w w'
    /\ wf_id wf = "workflow-" +:+ rec_id rec
    /\ wf_recommendationId wf = rec_id rec.
Proof.
  destruct w as [e pe sl st ag bi].
  unfold Route.createWorkflowFromRecommendation, Route.getRequiredEquipment. run_monad.
  eexists _, _. split; [reflexivity|]. repeat split.
Qed.

(** C7 (as amended).  [createWorkflowFromRecommendation] always returns a
    workflow.  Two invocations with the same recommendation and index agree
    on the id, the copied fields, the status, the current task, the next
    milestone, the assignments and the hangar.  They agree on the
    equipment too, which is looked up in a plain object, unless the
    maintenance type is the name ['status'] and [Object.prototype] carries
    different [status] properties at the two invocations.  With that
    proviso they produce identical records when they read the same clock
    values and random draws.  The result depends on the recommendation
    only through its id, aircraftId, tailNumber and maintenanceType. *)
Theorem createWorkflow_determinism (rec : MaintenanceRecommendation) (index : nat)
  (w1 w2 : World) :
  exists wf1 w1' wf2 w2',
    Route.createWorkflowFromRecommendation rec index w1 = (Normal wf1, w1')
    /\ Route.createWorkflowFromRecommendation rec index w2 = (Normal wf2, w2')
    /\ copied_part wf1 = copied_part wf2
    /\ (same_lookup (rec_maintenanceType rec) w1 w2 -> fixed_part wf1 = fixed_part wf2)
    /\ (env w1 = env w2 -> same_lookup (rec_maintenanceType rec) w1 w2 -> wf1 = wf2)
    /\ forall rec' : MaintenanceRecommendation,
         rec_id rec' = rec_id rec -> rec_aircraftId rec' = rec_aircraftId rec ->
         rec_tailNumber rec' = rec_tailNumber rec ->
         rec_maintenanceType rec' = rec_maintenanceType rec ->
         fst (Route.createWorkflowFromRecommendation rec' index w1) = Normal wf1.
Proof.
  pose proof (inherited_same_lookup (rec_maintenanceType rec) w1 w2) as Hlookup.
  destruct w1 as [e1 pe1 sl1 st1 ag1 bi1], w2 as [e2 pe2 sl2 st2 ag2 bi2].
  unfold Route.createWorkflowFromRecommendation, Route.getRequiredEquipment. run_monad.
  unfold Route.inherited, inheritedStatus in *. cbn [builtins] in *.
  eexists _, _, _, _. split; [reflexivity|]. split; [reflexivity|].
  split; [reflexivity|]. split; [|split].
  - intros Hsame. unfold fixed_part. cbn [res_equipment wf_resources].
    now rewrite (Hlookup Hsame).
  - intros -> Hsame. now rewrite (Hlookup Hsame).
  - intros rec' -> -> -> ->. reflexivity.
Qed.

Lemma createWorkflow_determinism_witness :
  exists wf1 w1' wf2 w2',
    Route.createWorkflowFromRecommendation Scenario.strayRecommendation 3
      Scenario.emptyWorld = (Normal wf1, w1')
    /\ Route.createWorkflowFromRecommendation Scenario.strayRecommendation 3
         Scenario.strayWorld = (Normal wf2, w2')
    /\ fixed_part wf1 = fixed_part wf2
    /\ wf1 = wf2
    /\ wf_status wf1 = "INSPECTION"
    /\ inspector (wf_assignments wf1) = Some "David Chen"
    /\ res_hangar (wf_resources wf1) = "Hangar A - Bay 4"
    /\ res_equipment (wf_resources wf1)
       = Tools ["Basic Tool Kit"; "Multimeter"; "Torque Wrench"].
Proof.
  destruct (createWorkflow_determinism Scenario.strayRecommendation 3
              Scenario.emptyWorld Scenario.strayWorld)
    as (wf1 & w1' & wf2 & w2' & E1 & E2 & _ & Hfixed & Hsame & _).
  assert (Hlookup : same_lookup (rec_maintenanceType Scenario.strayRecommendation)
                      Scenario.emptyWorld Scenario.strayWorld)
    by (left; discriminate).
  exists wf1, w1', wf2, w2'.
  split; [exact E1|]. split; [exact E2|]. split; [exact (Hfixed Hlookup)|].
  split; [apply Hsame; [reflexivity | exact Hlookup]|].
  vm_compute in E1. injection E1 as <- _. repeat split.
Defined.

(** The claim as first stated fails: two successive invocations with the
    same recommendation and index, in one run of a host whose random draws
    vary, differ in their progress counts and escalation levels.  The
    resource lists can differ too: for the maintenance type ['status'] the
    equipment is the default list before, and a string after, a request
    has given [Object.prototype] a [status]. *)
Lemma createWorkflow_varies :
  (exists wf1 w1 wf2 w2,
      Route.createWorkflowFromRecommendation Scenario.strayRecommendation 0
        Scenario.variedWorld = (Normal wf1, w1)
      /\ Route.createWorkflowFromRecommendation Scenario.strayRecommendation 0 w1
         = (Normal wf2, w2)
      /\ tasksCompleted (wf_progress wf1) = 2%Z
      /\ tasksCompleted (wf_progress wf2) = 8%Z
      /\ totalTasks (wf_progress wf1) = 5%Z
      /\ totalTasks (wf_progress wf2) = 15%Z
      /\ escalationLevel (wf_notifications wf1) = 2%Z
      /\ escalationLevel (wf_notifications wf2) = 1%Z)
  /\ (exists wf1 w1 wf2 w2,
        Route.createWorkflowFromRecommendation Cases.statusTyped 0 Scenario.emptyWorld
        = (Normal wf1, w1)
        /\ Route.createWorkflowFromRecommendation Cases.statusTyped 0 Cases.pollutedWorld
           = (Normal wf2, w2)
        /\ res_equipment (wf_resources wf1) = Tools ["Standard Tool Kit"]
        /\ res_equipment (wf_resources wf2) = Text "IN_PROGRESS").
Proof.
  split.
  - eexists _, _, _, _.
    split; [vm_compute; reflexivity|]. split; [vm_compute; reflexivity|].
    repeat split.
  - eexists _, _, _, _.
    split; [vm_compute; reflexivity|]. split; [vm_compute; reflexivity|].
    split; reflexivity.
Qed.

(** ** The approval gate: approval *)

Lemma bind_normal {A B} (m : M A) (k : A -> M B) (w w1 : World) (a : A) :
  m w = (Normal a, w1) -> bind m k w = k a w1.
Proof. intros E. unfold bind. now rewrite E. Qed.

Lemma sendMaintenanceNotificationEmails_returns this emailData recipients :
  returns outside_mail
    (EmailService.sendMaintenanceNotificationEmails this emailData recipients)
    (fun _ => True).
Proof.
  intros w.
  destruct (notifyEach_counts this emailData recipients [] [] w)
    as (oks & errs & log & w' & E & _ & _ & _ & _ & Hframe).
  unfold EmailService.sendMaintenanceNotificationEmails.
  rewrite (bind_normal _ _ _ _ _ E). eexists _, _. split; [reflexivity|]. now split.
Qed.

Lemma getEmailConfig_returns :
  returns outside_mail EmailConfig.getEmailConfig (fun _ => True).
Proof.
  intros w. unfold EmailConfig.getEmailConfig.
  rewrite (bind_normal get _ w w w eq_refl).
  repeat match goal with
    | |- context [if ?b then _ else _] => destruct b
    | |- context [match getenv ?x ?w with _ => _ end] => destruct (getenv x w)
    end;
    (eexists _, w; split; [reflexivity|]; split; [apply frame_refl | exact I]).
Qed.

(** One step through the notification block of the approve handler. *)
Ltac step_frame :=
  cbv beta zeta;
  lazymatch goal with
  | |- returns _ (bind _ _) _ => eapply returns_seq; [ exact _ | | intros ?]
  | |- returns _ (try_catch _ _) _ => eapply returns_try_catch
  | |- returns _ new_Date _ => apply returns_new_Date; exact _
  | |- returns _ EmailConfig.getEmailConfig _ => apply getEmailConfig_returns
  | |- returns _ (EmailService.sendMaintenanceNotificationEmails _ _ _) _ =>
      apply sendMaintenanceNotificationEmails_returns
  | |- returns _ (ret _) _ => apply returns_ret; [exact _ | ]
  end.

(** C1 (as amended).  For a recommendation [rec] of the store (the one its
    id designates there) whose id is non-empty and whose aircraftId is the
    id of one of the mock aircraft, the approve handler called with that id
    and a non-empty approver answers 200; it sets the status of [rec] to
    APPROVED and its approvedBy and approvedAt fields, leaving the
    recommendations before and after it unchanged; and it stores, under the
    key 'workflow-<id>', a workflow whose id is that key and whose
    recommendationId is the id of [rec].  The map is otherwise unchanged,
    and has exactly one more entry when the key was not yet present. *)
Theorem approve_known_recommendation (w : World) (body : Route.Body)
  (rec : MaintenanceRecommendation) (approver : string) :
  Route.recommendationId body = Some (rec_id rec) -> rec_id rec <> "" ->
  Route.approvedBy body = Some approver -> approver <> "" ->
  find (Route.has_id (rec_id rec)) (mockRecommendations (store w)) = Some rec ->
  In (rec_aircraftId rec) (map Route.ac_id Route.mockAircraft) ->
  exists response w' l1 l2 approvedAt rec' wf,
    Route.approveRecommendation body w = (Normal response, w')
    /\ Route.status response = 200
    /\ rec' = Route.with_approval approver approvedAt (Route.with_status APPROVED rec)
    /\ rec_status rec' = APPROVED
    /\ rec_approvedBy rec' = Some approver
    /\ rec_approvedAt rec' = Some approvedAt
    /\ mockRecommendations (store w) = l1 ++ rec :: l2
    /\ mockRecommendations (store w') = l1 ++ rec' :: l2
    /\ mockActiveWorkflows (store w')
       = <["workflow-" +:+ rec_id rec := wf]> (mockActiveWorkflows (store w))
    /\ wf_id wf = "workflow-" +:+ rec_id rec
    /\ wf_recommendationId wf = rec_id rec
    /\ (mockActiveWorkflows (store w) !! ("workflow-" +:+ rec_id rec) = None ->
        size (mockActiveWorkflows (store w')) = S (size (mockActiveWorkflows (store w)))).
Proof.
  intros Hid Hrid Hby Happrover Hfind Hfleet.
  destruct (find_split _ _ _ Hfind) as (l1 & l2 & Hl & _ & _ & Hm).
  assert (Hac : exists aircraft,
             find (fun a => String.eqb (Route.ac_id a) (rec_aircraftId rec))
               Route.mockAircraft = Some aircraft).
  { cbn in Hfleet. destruct Hfleet as [<-|[<-|[<-|[]]]]; eexists; reflexivity. }
  destruct Hac as [aircraft Hac].
  unfold Route.approveRecommendation.
  rewrite Hid, Hby, (truthy_Some _ Hrid), (truthy_Some _ Happrover).
  cbn [negb orb JSString.interpolate].
  rewrite (bind_normal get _ w w w eq_refl). rewrite Hfind, Hac.
  destruct (returns_new_Date only_env w) as (approvedAt & w1 & E1 & F1 & _).
  rewrite (bind_normal _ _ _ _ _ E1).
  rewrite (bind_normal (modify _) _ w1 _ tt eq_refl).
  rewrite (bind_normal get _ _ _ _ eq_refl).
  match goal with |- context [bind (Route.createWorkflowFromRecommendation ?r ?i) _ ?w2] =>
    destruct (createWorkflow_returns r i w2) as (wf & w3 & E3 & F3 & Hwfid & Hwfrec) end.
  rewrite (bind_normal _ _ _ _ _ E3).
  rewrite (bind_normal (modify _) _ w3 _ tt eq_refl).
  match goal with |- context [bind (Agentic.approveRecommendation ?a ?b ?c) _ ?w4] =>
    destruct (agentic_approval_computes a b c w4)
      as (e5 & entries & reminders & result & E5 & Hok & Hmsg & _);
    match type of E5 with
    | _ = (_, ?w5') =>
        assert (F5 : store w5' = store w4) by reflexivity;
        set (w5 := w5') in *; clearbody w5
    end
  end.
  rewrite (bind_normal _ _ _ _ _ E5).
  match goal with |- context [try_catch ?m ?h ?w5'] =>
    assert (Hblock : returns outside_mail (try_catch m h)
                       (fun response => Route.status response = 200)) end.
  { step_frame. step_frame; [step_frame|].
    step_frame; [step_frame|]. step_frame; [step_frame|].
    step_frame; [step_frame|]. step_frame. reflexivity. }
  destruct (Hblock w5) as (response & w6 & E6 & (F6 & _) & Hstatus).
  exists response, w6, l1, l2, approvedAt,
    (Route.with_approval approver approvedAt (Route.with_status APPROVED rec)), wf.
  split; [exact E6|]. split; [exact Hstatus|].
  do 4 (split; [reflexivity|]). split; [exact Hl|].
  rewrite F6, F5. destruct F3 as (F3 & _). destruct F1 as (F1 & _).
  cbn [store Route.set_workflows with_store mockRecommendations mockActiveWorkflows].
  rewrite F3.
  cbn [store Route.set_recommendations with_store mockRecommendations mockActiveWorkflows].
  rewrite F1, Hm.
  split; [reflexivity|]. split; [reflexivity|]. split; [exact Hwfid|].
  split; [exact Hwfrec|].
  intros Hfresh. now apply map_size_insert_None.
Qed.

Lemma approve_known_recommendation_witness :
  exists rec,
    find (Route.has_id "baseline-n123ab-100hour")
      (mockRecommendations (store Scenario.seededWorld)) = Some rec
    /\ rec_status rec = PENDING
    /\ mockActiveWorkflows (store Scenario.seededWorld)
         !! "workflow-baseline-n123ab-100hour" = None
    /\ exists response w' l1 l2 approvedAt rec' wf,
         Route.approveRecommendation (Scenario.approval "baseline-n123ab-100hour" "ops")
           Scenario.seededWorld = (Normal response, w')
         /\ Route.status response = 200
         /\ rec' = Route.with_approval "ops" approvedAt (Route.with_status APPROVED rec)
         /\ rec_status rec' = APPROVED
         /\ rec_approvedBy rec' = Some "ops"
         /\ rec_approvedAt rec' = Some approvedAt
         /\ mockRecommendations (store Scenario.seededWorld) = l1 ++ rec :: l2
         /\ mockRecommendations (store w') = l1 ++ rec' :: l2
         /\ mockActiveWorkflows (store w')
            = <["workflow-" +:+ rec_id rec := wf]>
                (mockActiveWorkflows (store Scenario.seededWorld))
         /\ wf_id wf = "workflow-" +:+ rec_id rec
         /\ wf_recommendationId wf = rec_id rec
         /\ (mockActiveWorkflows (store Scenario.seededWorld)
               !! ("workflow-" +:+ rec_id rec) = None ->
             size (mockActiveWorkflows (store w'))
             = S (size (mockActiveWorkflows (store Scenario.seededWorld)))).
Proof.
  eexists. split; [vm_compute; reflexivity|]. split; [reflexivity|].
  split; [reflexivity|].
  apply (approve_known_recommendation Scenario.seededWorld
           (Scenario.approval "baseline-n123ab-100hour" "ops") _ "ops").
  - reflexivity.
  - discriminate.
  - reflexivity.
  - discriminate.
  - vm_compute. reflexivity.
  - cbn. left. reflexivity.
Defined.

(** The claim as first stated fails for a PENDING recommendation whose
    aircraftId is not the id of a mock aircraft (the fallback 'unknown' that
    the optimize handler assigns): the handler answers 404 "Aircraft not
    found", the recommendation stays PENDING and no workflow is stored. *)
Lemma approve_unknown_aircraft_is_404 :
  mockRecommendations (store Scenario.strayWorld) = [Scenario.strayRecommendation]
  /\ rec_status Scenario.strayRecommendation = PENDING
  /\ Route.approveRecommendation
       (Scenario.approval (rec_id Scenario.strayRecommendation) "ops") Scenario.strayWorld
     = (Normal (Route.json 404 (Route.ErrorPayload "Aircraft not found")),
        Scenario.strayWorld).
Proof. repeat split. Qed.

(** ** Confidence scores *)

Lemma Qle_bool_false (a b : Q) : Qle_bool a b = false -> Qle_bool b a = true.
Proof.
  intros H. apply Qle_bool_iff. apply Qlt_le_weak. apply Qnot_le_lt.
  intros Hle. apply Qle_bool_iff in Hle. congruence.
Qed.

(** [Math.max(lo, Math.min(hi, x))] lies between [lo] and [hi]. *)
Lemma clamp_between (lo hi x : Q) :
  (lo <= hi)%Q ->
  (lo <= JSNum.Math_max lo (JSNum.Math_min hi x)
   /\ JSNum.Math_max lo (JSNum.Math_min hi x) <= hi)%Q.
Proof.
  intros Hlohi. unfold JSNum.Math_max, JSNum.Math_min.
  destruct (Qle_bool hi x) eqn:Hx.
  - apply Qle_bool_iff in Hlohi. rewrite Hlohi. apply Qle_bool_iff in Hlohi.
    split; [exact Hlohi | apply Qle_refl].
  - destruct (Qle_bool lo x) eqn:Hl.
    + split; [now apply Qle_bool_iff | apply Qle_bool_iff; now apply Qle_bool_false].
    + split; [apply Qle_refl | exact Hlohi].
Qed.

Lemma confidenceOf_between scheduleDemand maintenanceWindow seasonalData input noise :
  (52 <= OpenAIService.confidenceOf scheduleDemand maintenanceWindow seasonalData input noise
   /\ OpenAIService.confidenceOf scheduleDemand maintenanceWindow seasonalData input noise
      <= 94)%Q.
Proof. unfold OpenAIService.confidenceOf. cbv zeta. apply clamp_between. discriminate. Qed.

Definition in_50_95 (q : Q) : Prop := (50 <= q /\ q <= 95)%Q.

Lemma confidenceOf_in_50_95 scheduleDemand maintenanceWindow seasonalData input noise :
  in_50_95 (OpenAIService.confidenceOf scheduleDemand maintenanceWindow seasonalData
              input noise).
Proof.
  destruct (confidenceOf_between scheduleDemand maintenanceWindow seasonalData input noise)
    as [Hlo Hhi].
  split; [eapply Qle_trans; [|exact Hlo] | eapply Qle_trans; [exact Hhi|]]; discriminate.
Qed.

(** The clamp of the untyped path, on any number that is not [NaN]. *)
Lemma clamp_number (n : OpenAIService.JSNumber) :
  n <> OpenAIService.NaN ->
  OpenAIService.within 50 95
    (OpenAIService.Math_max (OpenAIService.Finite 50)
       (OpenAIService.Math_min (OpenAIService.Finite 95) n)) = true.
Proof.
  intros Hn. destruct n as [|q| |]; [congruence | | reflexivity | reflexivity].
  unfold OpenAIService.Math_min. cbn [OpenAIService.num_leb].
  destruct (Qle_bool 95 q) eqn:Hq; [reflexivity|].
  unfold OpenAIService.Math_max. cbn [OpenAIService.num_leb].
  destruct (Qle_bool 50 q) eqn:Hl; [|reflexivity].
  unfold OpenAIService.within. cbn [OpenAIService.num_leb].
  now rewrite Hl, (Qle_bool_false _ _ Hq).
Qed.

(** *** Computations under an invariant of the state

    [total I m P]: from every world that satisfies [I], [m] returns
    normally a value satisfying [P] and re-establishes [I].  [safe I m P]
    allows [m] to throw instead, still re-establishing [I]. *)

Definition total (Inv : World -> Prop) {A} (m : M A) (P : A -> Prop) : Prop :=
  forall w, Inv w -> exists a w', m w = (Normal a, w') /\ Inv w' /\ P a.

Definition safe (Inv : World -> Prop) {A} (m : M A) (P : A -> Prop) : Prop :=
  forall w, Inv w ->
    exists c w', m w = (c, w') /\ Inv w'
                 /\ match c with Normal a => P a | Throw _ => True end.

Section Invariants.

Variable Inv : World -> Prop.

Lemma total_safe {A} (m : M A) (P : A -> Prop) : total Inv m P -> safe Inv m P.
Proof.
  intros H w Hw. destruct (H w Hw) as (a & w' & E & Hw' & Pa). now exists (Normal a), w'.
Qed.

Lemma total_ret {A} (a : A) (P : A -> Prop) : P a -> total Inv (ret a) P.
Proof. intros Pa w Hw. now exists a, w. Qed.

Lemma safe_throw {A} (message : string) (P : A -> Prop) : safe Inv (throw message) P.
Proof. intros w Hw. now exists (Throw message), w. Qed.

Lemma safe_await {A} (c : Completion A) (P : A -> Prop) :
  (forall a, c = Normal a -> P a) -> safe Inv (await c) P.
Proof.
  intros H w Hw. exists c, w. repeat split; [exact Hw|]. destruct c; [now apply H | exact I].
Qed.

Lemma total_bind {A B} (m : M A) (k : A -> M B) (P : A -> Prop) (Q : B -> Prop) :
  total Inv m P -> (forall a, P a -> total Inv (k a) Q) -> total Inv (bind m k) Q.
Proof.
  intros Hm Hk w Hw. destruct (Hm w Hw) as (a & w1 & E1 & Hw1 & Pa).
  destruct (Hk a Pa w1 Hw1) as (b & w2 & E2 & Hw2 & Qb).
  exists b, w2. unfold bind. rewrite E1. auto.
Qed.

Lemma safe_bind {A B} (m : M A) (k : A -> M B) (P : A -> Prop) (Q : B -> Prop) :
  safe Inv m P -> (forall a, P a -> safe Inv (k a) Q) -> safe Inv (bind m k) Q.
Proof.
  intros Hm Hk w Hw. destruct (Hm w Hw) as ([a|e] & w1 & E1 & Hw1 & Pa);
    unfold bind; rewrite E1.
  - apply (Hk a Pa w1 Hw1).
  - now exists (Throw e), w1.
Qed.

(** [try { m } catch { h }] returns normally when the handler does. *)
Lemma total_try_catch {A} (m : M A) (h : string -> M A) (P : A -> Prop) :
  safe Inv m P -> (forall e, total Inv (h e) P) -> total Inv (try_catch m h) P.
Proof.
  intros Hm Hh w Hw. destruct (Hm w Hw) as ([a|e] & w1 & E1 & Hw1 & Pa);
    unfold try_catch; rewrite E1.
  - now exists a, w1.
  - apply (Hh e w1 Hw1).
Qed.

Lemma total_weaken {A} (m : M A) (P Q : A -> Prop) :
  total Inv m P -> (forall a, P a -> Q a) -> total Inv m Q.
Proof.
  intros Hm HPQ w Hw. destruct (Hm w Hw) as (a & w' & E & Hw' & Pa). exists a, w'. auto.
Qed.

End Invariants.

(** The contract of [Math.random()]: every value lies in [0, 1). *)
Definition unit_draws (w : World) : Prop :=
  forall n, (0 <= value (random (env w) n) /\ value (random (env w) n) < 1)%Q.

Lemma total_Date_now : total unit_draws Date_now (fun _ => True).
Proof. intros w Hw. eexists _, _. split; [reflexivity|]. split; [exact Hw | exact I]. Qed.

Lemma total_new_Date : total unit_draws new_Date (fun _ => True).
Proof.
  unfold new_Date. eapply total_bind; [apply total_Date_now|].
  intros t _. now apply total_ret.
Qed.

Lemma total_Math_random :
  total unit_draws Math_random (fun r => (0 <= value r /\ value r < 1)%Q).
Proof. intros w Hw. eexists _, _. split; [reflexivity|]. split; [exact Hw | apply Hw]. Qed.

Lemma total_get : total unit_draws get (fun _ => True).
Proof. intros w Hw. now exists w, w. Qed.

Lemma safe_Date_now : safe unit_draws Date_now (fun _ => True).
Proof. apply total_safe, total_Date_now. Qed.

(** *** The demo generator *)

(** [Math.floor(Math.random() * maintenanceTypes.length)] is an index of
    the array. *)
Lemma floor_index (x : Q) :
  (0 <= x /\ x < 1)%Q ->
  exists type,
    OpenAIService.at_index OpenAIService.maintenanceTypes
      (JSNum.Math_floor (x * inject_Z (Z.of_nat (length OpenAIService.maintenanceTypes))))
    = Some type.
Proof.
  intros [Hlo Hhi]. unfold JSNum.Math_floor.
  change (inject_Z (Z.of_nat (length OpenAIService.maintenanceTypes))) with 7%Q.
  assert (H0 : (0 <= Qfloor (x * 7))%Z).
  { change 0%Z with (Qfloor 0). apply Qfloor_resp_le.
    apply Qmult_le_0_compat; [exact Hlo | discriminate]. }
  assert (H7 : (Qfloor (x * 7) < 7)%Z).
  { rewrite Zlt_Qlt. eapply Qle_lt_trans; [apply Qfloor_le|].
    change (inject_Z 7) with (1 * 7)%Q. apply Qmult_lt_compat_r; [reflexivity | exact Hhi]. }
  unfold OpenAIService.at_index.
  destruct (Z.ltb_spec (Qfloor (x * 7)) 0) as [Hneg|_]; [lia|].
  destruct (nth_error OpenAIService.maintenanceTypes (Z.to_nat (Qfloor (x * 7)))) as [type|] eqn:E;
    [now exists type|].
  apply nth_error_None in E. cbn [length OpenAIService.maintenanceTypes] in E. lia.
Qed.

Definition demo_range (l : list OpenAIService.AIMaintenanceRecommendation) : Prop :=
  Forall (fun r => in_50_95 (OpenAIService.ar_confidence r)) l.

Lemma recommend_total (n : nat) :
  forall i input scheduleDemand seasonalData currentSeason isPeak maintenanceWindow,
    total unit_draws
      (OpenAIService.recommend n i input scheduleDemand seasonalData currentSeason isPeak
         maintenanceWindow)
      demo_range.
Proof.
  induction n as [|n IH]; intros i input scheduleDemand seasonalData currentSeason isPeak
                                 maintenanceWindow; cbn [OpenAIService.recommend].
  - apply total_ret. constructor.
  - cbv zeta. eapply total_bind; [apply total_Math_random|]. intros pick Hpick.
    eapply total_bind; [apply total_Math_random|]. intros noise _.
    eapply total_bind; [apply total_Date_now|]. intros now _.
    destruct (floor_index (value pick) Hpick) as [type ->].
    eapply total_bind; [apply IH|]. intros rest Hrest.
    apply total_ret. constructor; [|exact Hrest].
    cbn [OpenAIService.ar_confidence]. apply confidenceOf_in_50_95.
Qed.

Lemma forInput_total currentSeason isPeak maintenanceWindow input :
  total unit_draws (OpenAIService.forInput currentSeason isPeak maintenanceWindow input)
    demo_range.
Proof.
  unfold OpenAIService.forInput. cbv zeta.
  eapply total_bind with (P := fun _ => True).
  - destruct (OpenAIService.scheduleDemandData input).
    + now apply total_ret.
    + eapply total_bind; [apply total_Math_random|]. intros r _. now apply total_ret.
  - intros scheduleDemand _. apply recommend_total.
Qed.

Lemma flatMapM_total {A B} (f : A -> M (list B)) (P : B -> Prop) (l : list A) :
  (forall a, total unit_draws (f a) (Forall P)) ->
  total unit_draws (flatMapM f l) (Forall P).
Proof.
  intros Hf. induction l as [|a l IH]; cbn [flatMapM].
  - apply total_ret. constructor.
  - eapply total_bind; [apply Hf|]. intros bs Hbs.
    eapply total_bind; [apply IH|]. intros rest Hrest.
    apply total_ret. apply Forall_app. now split.
Qed.

Lemma Forall_firstn_of {A} (P : A -> Prop) (n : nat) (l : list A) :
  Forall P l -> Forall P (firstn n l).
Proof.
  intros H. revert n. induction H as [|a l Ha Hl IH]; intros [|n]; cbn [firstn];
    constructor; auto.
Qed.

(** The demo generator returns, and every confidence it returns lies in
    [50, 95]. *)
Lemma generateEnhancedDemoRecommendations_total inputs :
  total unit_draws (OpenAIService.generateEnhancedDemoRecommendations inputs) demo_range.
Proof.
  unfold OpenAIService.generateEnhancedDemoRecommendations.
  eapply total_bind; [apply total_new_Date|]. intros currentDate _.
  eapply total_bind; [apply total_get|]. intros w0 _. cbv zeta.
  eapply total_bind; [apply flatMapM_total; intros input; apply forInput_total|].
  intros recommendations Hall. apply total_ret. now apply Forall_firstn_of.
Qed.

(** *** The model's answer *)

(** What [v.k] evaluates to when it does not throw. *)
Definition read (v : OpenAIService.Value) (k : string) : OpenAIService.Value :=
  match v with
  | OpenAIService.JObject fields =>
      match OpenAIService.own k fields with
      | Some x => x
      | None => OpenAIService.JUndefined
      end
  | _ => OpenAIService.JUndefined
  end.

(** A confidence the clamp handles: a number, or a value that is absent,
    [null], a boolean or the empty string. *)
Definition plain (v : OpenAIService.Value) : bool :=
  match v with
  | OpenAIService.JUndefined | OpenAIService.JNull
  | OpenAIService.JBool _ | OpenAIService.JNumber _ => true
  | OpenAIService.JString s => String.eqb s ""
  | OpenAIService.JArray _ | OpenAIService.JObject _ => false
  end.

(** An answer whose recommendations all carry such a confidence. *)
Definition plainAnswer (aiResult : OpenAIService.Value) : bool :=
  match read aiResult "recommendations" with
  | OpenAIService.JArray elements =>
      forallb (fun rec => plain (read rec "confidence")) elements
  | _ => true
  end.

Definition model_range (l : list OpenAIService.ProcessedRecommendation) : Prop :=
  Forall (fun r => OpenAIService.within 50 95 (OpenAIService.pr_confidence r) = true) l.

Section ModelFacts.

Variable StringToNumber : string -> OpenAIService.JSNumber.
Variable ArrayToString : list OpenAIService.Value -> Completion string.

Lemma safe_prop (v : OpenAIService.Value) (k : string) :
  safe unit_draws (OpenAIService.prop v k) (fun a => a = read v k).
Proof.
  destruct v; cbn [OpenAIService.prop read];
    solve [apply safe_throw | apply total_safe, total_ret; reflexivity].
Qed.

(** [ToNumber (c || d)] is a number when [c] is plain. *)
Lemma safe_ToNumber_or_else (c : OpenAIService.Value) (d : Q) :
  safe unit_draws
    (OpenAIService.ToNumber StringToNumber ArrayToString
       (OpenAIService.or_else c (OpenAIService.JNumber (OpenAIService.Finite d))))
    (fun n => plain c = true -> n <> OpenAIService.NaN).
Proof.
  unfold OpenAIService.or_else.
  destruct c as [| |b|n|s|elements|fields]; cbn [OpenAIService.truthy].
  - apply total_safe, total_ret. discriminate.
  - apply total_safe, total_ret. discriminate.
  - destruct b; apply total_safe, total_ret; discriminate.
  - destruct n as [|q| |]; [| destruct (negb (Qeq_bool q 0)) | |];
      apply total_safe, total_ret; discriminate.
  - destruct (String.eqb_spec s "") as [->|Hs]; cbn [negb].
    + apply total_safe, total_ret. discriminate.
    + cbn [OpenAIService.ToNumber]. apply total_safe, total_ret. cbn [plain].
      intros E. apply String.eqb_eq in E. contradiction.
  - cbn [OpenAIService.ToNumber]. destruct (ArrayToString elements).
    + apply total_safe, total_ret. discriminate.
    + apply safe_throw.
  - cbn [OpenAIService.ToNumber]. destruct (OpenAIService.own "toString" fields).
    + apply safe_throw.
    + apply total_safe, total_ret. discriminate.
Qed.

Lemma safe_ToPropertyKey (v : OpenAIService.Value) :
  safe unit_draws (OpenAIService.ToPropertyKey ArrayToString v) (fun _ => True).
Proof.
  destruct v as [| |b|n|s|elements|fields]; cbn [OpenAIService.ToPropertyKey];
    try (apply total_safe, total_ret; exact I).
  - destruct (ArrayToString elements); [apply total_safe, total_ret; exact I | apply safe_throw].
  - destruct (OpenAIService.own "toString" fields);
      [apply safe_throw | apply total_safe, total_ret; exact I].
Qed.

Lemma safe_compliance (rec complianceRequirements : OpenAIService.Value) :
  safe unit_draws
    (match complianceRequirements with
     | OpenAIService.JArray _ => ret tt
     | _ => bind (OpenAIService.prop rec "maintenanceType")
              (fun key => OpenAIService.ToPropertyKey ArrayToString key)
     end)
    (fun _ => True).
Proof.
  destruct complianceRequirements; try (apply total_safe, total_ret; exact I);
    (eapply safe_bind; [apply safe_prop | intros key _; apply safe_ToPropertyKey]).
Qed.

Ltac step_safe :=
  lazymatch goal with
  | |- safe _ (bind (match _ with OpenAIService.JArray _ => _ | _ => _ end) _) _ =>
      eapply safe_bind; [apply safe_compliance | intros ? _]
  | |- safe _ (bind (OpenAIService.prop _ _) _) _ =>
      eapply safe_bind; [apply safe_prop | intros ? ->]
  | |- safe _ (bind (OpenAIService.ToNumber _ _ _) _) _ =>
      eapply safe_bind; [apply safe_ToNumber_or_else | intros ? ?]
  | |- safe _ (bind Date_now _) _ =>
      eapply safe_bind; [apply safe_Date_now | intros ? _]
  end.

(** One element of the answer: when its confidence is plain, the
    confidence built from it lies in [50, 95]. *)
Lemma processOne_safe (rec : OpenAIService.Value) :
  safe unit_draws (OpenAIService.processOne StringToNumber ArrayToString rec)
    (fun r => plain (read rec "confidence") = true ->
              OpenAIService.within 50 95 (OpenAIService.pr_confidence r) = true).
Proof.
  unfold OpenAIService.processOne. repeat step_safe.
  apply total_safe, total_ret. cbn [OpenAIService.pr_confidence].
  intros Hplain. apply clamp_number. auto.
Qed.

Lemma mapM_safe {A B} (f : A -> M B) (P : A -> B -> Prop) (l : list A) :
  (forall a, safe unit_draws (f a) (P a)) ->
  safe unit_draws (OpenAIService.mapM f l) (Forall2 P l).
Proof.
  intros Hf. induction l as [|a l IH]; cbn [OpenAIService.mapM].
  - apply total_safe, total_ret. constructor.
  - eapply safe_bind; [apply Hf|]. intros b Hb.
    eapply safe_bind; [apply IH|]. intros bs Hbs.
    apply total_safe, total_ret. now constructor.
Qed.

(** The answer as a whole: when it is plain, every confidence built from
    it lies in [50, 95]. *)
Lemma processAIRecommendations_safe (aiResult : OpenAIService.Value) :
  safe unit_draws
    (OpenAIService.processAIRecommendations StringToNumber ArrayToString aiResult)
    (fun l => plainAnswer aiResult = true -> model_range l).
Proof.
  unfold OpenAIService.processAIRecommendations, plainAnswer.
  eapply safe_bind; [apply safe_prop|]. intros recommendations ->.
  destruct (read aiResult "recommendations") as [| | | | |elements|]; try apply safe_throw.
  intros w Hw. destruct (mapM_safe _ _ elements processOne_safe w Hw)
    as ([l|e] & w' & E & Hw' & Hl); [|now exists (Throw e), w'].
  exists (Normal l), w'. split; [exact E|]. split; [exact Hw'|].
  intros Hall. rewrite forallb_forall in Hall. unfold model_range.
  clear E. induction Hl as [|rec r elements l Hr Hl IH]; constructor.
  - apply Hr, Hall. now left.
  - apply IH. intros x Hx. apply Hall. now right.
Qed.

(** *** The service *)

Definition in_range (g : OpenAIService.Generated) : Prop :=
  Forall (fun c => OpenAIService.within 50 95 c = true) (OpenAIService.confidences g).

Lemma demo_in_range l : demo_range l -> in_range (OpenAIService.FromDemo l).
Proof.
  unfold demo_range, in_range. cbn [OpenAIService.confidences]. intros H.
  induction H as [|r l [Hlo Hhi] Hl IH]; cbn [map]; constructor; [|exact IH].
  unfold OpenAIService.within. cbn [OpenAIService.num_leb].
  apply andb_true_intro. split; now apply Qle_bool_iff.
Qed.

Lemma model_in_range l : model_range l -> in_range (OpenAIService.FromModel l).
Proof.
  unfold model_range, in_range. cbn [OpenAIService.confidences]. intros H.
  induction H; cbn [map]; constructor; auto.
Qed.

Lemma demo_fallback_total inputs :
  total unit_draws
    (bind (OpenAIService.generateEnhancedDemoRecommendations inputs)
       (fun l => ret (OpenAIService.FromDemo l)))
    in_range.
Proof.
  eapply total_bind; [apply generateEnhancedDemoRecommendations_total|].
  intros l Hl. apply total_ret. now apply demo_in_range.
Qed.

Lemma generateMaintenanceRecommendations_total answer inputs :
  (forall aiResult, answer = Normal aiResult -> plainAnswer aiResult = true) ->
  total unit_draws
    (OpenAIService.generateMaintenanceRecommendations StringToNumber ArrayToString answer
       inputs)
    in_range.
Proof.
  intros Hanswer. unfold OpenAIService.generateMaintenanceRecommendations.
  eapply total_bind; [apply total_get|]. intros w0 _.
  destruct (getenv "OPENAI_API_KEY" w0) as [key|]; [|apply demo_fallback_total].
  destruct (String.eqb key "demo-mode"); [apply demo_fallback_total|].
  apply total_try_catch; [|intros message; apply demo_fallback_total].
  eapply safe_bind; [apply total_safe, total_new_Date|]. intros promptDate _.
  eapply safe_bind; [apply safe_await; intros aiResult E; exact (Hanswer aiResult E)|].
  intros aiResult Hplain.
  eapply safe_bind; [apply processAIRecommendations_safe|]. intros l Hl.
  apply total_safe, total_ret. apply model_in_range. auto.
Qed.

End ModelFacts.

(** An object where the confidence is read is not clamped, whatever the
    conversions: [Math.min(95, {})] is [NaN], and so is [Math.max(50, NaN)]. *)
Lemma object_confidence StringToNumber ArrayToString (fields : list (string * OpenAIService.Value))
  (w : World) :
  OpenAIService.own "toString" fields = None ->
  exists r w',
    OpenAIService.processOne StringToNumber ArrayToString
      (OpenAIService.JObject [("confidence", OpenAIService.JObject fields)]) w
    = (Normal r, w')
    /\ OpenAIService.pr_confidence r = OpenAIService.NaN.
Proof.
  intros Hown. unfold OpenAIService.processOne.
  cbv [bind ret OpenAIService.prop OpenAIService.own fold_left fst snd String.eqb Ascii.eqb
       Bool.eqb OpenAIService.or_else OpenAIService.truthy].
  cbn [OpenAIService.ToNumber]. rewrite Hown.
  cbv [bind ret Date_now OpenAIService.ToNumber]. eexists _, _. split; reflexivity.
Qed.

(** Where the confidences do stay in range.  With a random source that
    draws from [0, 1): the demo generator
    [generateEnhancedDemoRecommendations] returns, for every input, and
    each confidence it returns lies in [50, 95]; each confidence that
    [processAIRecommendations] returns lies in [50, 95] when the
    confidences of the model's answer are plain (a number, or absent,
    [null], a boolean or the empty string); and for such answers the
    service [generateMaintenanceRecommendations] returns, with every
    confidence in [50, 95]. *)
Theorem confidences_in_range StringToNumber ArrayToString
  (inputs : list OpenAIService.MaintenanceRecommendationInput) (w : World) :
  unit_draws w ->
  (exists l w',
      OpenAIService.generateEnhancedDemoRecommendations inputs w = (Normal l, w')
      /\ Forall (fun r => (50 <= OpenAIService.ar_confidence r
                           /\ OpenAIService.ar_confidence r <= 95)%Q) l)
  /\ (forall aiResult l w',
        plainAnswer aiResult = true ->
        OpenAIService.processAIRecommendations StringToNumber ArrayToString aiResult w
        = (Normal l, w') ->
        Forall (fun r => OpenAIService.within 50 95 (OpenAIService.pr_confidence r) = true) l)
  /\ (forall answer,
        (forall aiResult, answer = Normal aiResult -> plainAnswer aiResult = true) ->
        exists g w',
          OpenAIService.generateMaintenanceRecommendations StringToNumber ArrayToString
            answer inputs w = (Normal g, w')
          /\ Forall (fun c => OpenAIService.within 50 95 c = true)
               (OpenAIService.confidences g)).
Proof.
  intros Hw. split; [|split].
  - destruct (generateEnhancedDemoRecommendations_total inputs w Hw)
      as (l & w' & E & _ & Hl).
    exists l, w'. split; [exact E | exact Hl].
  - intros aiResult l w' Hplain E.
    destruct (processAIRecommendations_safe StringToNumber ArrayToString aiResult w Hw)
      as (c & w'' & E' & _ & Hc).
    rewrite E in E'. injection E' as <- _. now apply Hc.
  - intros answer Hanswer.
    destruct (generateMaintenanceRecommendations_total StringToNumber ArrayToString answer
                inputs Hanswer w Hw) as (g & w' & E & _ & Hg).
    exists g, w'. split; [exact E | exact Hg].
Qed.

Lemma confidences_in_range_witness :
  unit_draws Scenario.keyedWorld
  /\ plainAnswer Scenario.cappedAnswer = true
  /\ (exists l w',
        OpenAIService.processAIRecommendations Scenario.noNumericString Scenario.emptyJoin
          Scenario.cappedAnswer Scenario.keyedWorld = (Normal l, w')
        /\ map OpenAIService.pr_confidence l = [OpenAIService.Finite 95]
        /\ Forall (fun r => OpenAIService.within 50 95 (OpenAIService.pr_confidence r) = true)
             l)
  /\ exists g w',
       OpenAIService.generateMaintenanceRecommendations Scenario.noNumericString
         Scenario.emptyJoin (Normal Scenario.cappedAnswer) [] Scenario.keyedWorld
       = (Normal g, w')
       /\ Forall (fun c => OpenAIService.within 50 95 c = true) (OpenAIService.confidences g).
Proof.
  assert (Hw : unit_draws Scenario.keyedWorld).
  { intros n. split; [discriminate | reflexivity]. }
  destruct (confidences_in_range Scenario.noNumericString Scenario.emptyJoin []
              Scenario.keyedWorld Hw) as (_ & Hmodel & Hservice).
  split; [exact Hw|]. split; [reflexivity|]. split.
  - eexists _, _. split; [vm_compute; reflexivity|]. split; [reflexivity|].
    eapply (Hmodel Scenario.cappedAnswer); [reflexivity | vm_compute; reflexivity].
  - apply (Hservice (Normal Scenario.cappedAnswer)).
    intros aiResult E. injection E as <-. reflexivity.
Defined.

(** C6.  The clamp [Math.max(50, Math.min(95, rec.confidence || 75))]
    misses the confidences that are truthy and not numbers.  For the
    answer [{"recommendations": [{"tailNumber": "N123AB", "confidence":
    {}}]}], on a host with an API key, [processAIRecommendations] returns
    the confidence [NaN], which lies in no range, and the service
    [generateMaintenanceRecommendations] returns it. *)
Lemma object_confidence_is_NaN :
  (exists l w',
      OpenAIService.processAIRecommendations Scenario.noNumericString Scenario.emptyJoin
        Scenario.oddAnswer Scenario.keyedWorld = (Normal l, w')
      /\ map OpenAIService.pr_confidence l = [OpenAIService.NaN]
      /\ map (fun r => OpenAIService.within 50 95 (OpenAIService.pr_confidence r)) l = [false])
  /\ exists g w',
       OpenAIService.generateMaintenanceRecommendations Scenario.noNumericString
         Scenario.emptyJoin (Normal Scenario.oddAnswer) [] Scenario.keyedWorld
       = (Normal g, w')
       /\ OpenAIService.confidences g = [OpenAIService.NaN].
Proof.
  split.
  - eexists _, _. split; [vm_compute; reflexivity|]. split; reflexivity.
  - eexists _, _. split; [vm_compute; reflexivity|]. reflexivity.
Qed.

(* ====================================================================== *)
(** * Part III. Further properties of the surrounding code *)
(* ====================================================================== *)

Lemma getenv_Some (name value : string) (w : World) :
  getenv name w = Some value -> value <> "".
Proof.
  unfold getenv. destruct (process_env w !! name) as [v|]; [|discriminate].
  destruct (String.eqb_spec v ""); [discriminate|]. now intros [= <-].
Qed.

Definition credentialed (c : SMTPConfig) : Prop :=
  from c <> ""
  /\ match provider c with
     | simulation => True
     | _ => exists user pass,
              auth c = Some {| auth_user := user; auth_pass := pass |}
              /\ user <> "" /\ pass <> ""
     end.

Lemma getEmailConfig_credentialed (w : World) :
  exists c, EmailConfig.getEmailConfig w = (Normal c, w) /\ credentialed c.
Proof.
  unfold EmailConfig.getEmailConfig, bind, get. cbv zeta.
  assert (Hfrom : match getenv "EMAIL_FROM" w with
                  | Some f => f
                  | None => "noreply@ganderaviation.com"
                  end <> "").
  { destruct (getenv "EMAIL_FROM" w) eqn:E; [now apply getenv_Some in E | discriminate]. }
  set (sender := match getenv "EMAIL_FROM" w with
                 | Some f => f
                 | None => "noreply@ganderaviation.com"
                 end) in *.
  set (p := match getenv "EMAIL_PROVIDER" w with Some p => p | None => "simulation" end).
  clearbody sender p.
  destruct (String.eqb p "mailtrap").
  { destruct (getenv "MAILTRAP_INBOX_ID" w) eqn:E1;
      [destruct (getenv "MAILTRAP_API_TOKEN" w) eqn:E2|];
      try (eexists; split; [reflexivity|]; split; [exact Hfrom|]; cbn;
           apply getenv_Some in E2; eexists _, _; split; [reflexivity|]; split;
           [discriminate | exact E2]);
      (destruct (getenv "MAILTRAP_USER" w) eqn:E3;
       [destruct (getenv "MAILTRAP_PASS" w) eqn:E4|];
       eexists; (split; [reflexivity|]); (split; [exact Hfrom|]); cbn; try exact I;
       apply getenv_Some in E3, E4; eexists _, _; split; [reflexivity|]; now split). }
  destruct (String.eqb p "gmail").
  { destruct (getenv "GMAIL_USER" w) eqn:E3;
      [destruct (getenv "GMAIL_APP_PASSWORD" w) eqn:E4|];
      eexists; (split; [reflexivity|]); (split; [exact Hfrom|]); cbn; try exact I.
    apply getenv_Some in E3, E4. eexists _, _; split; [reflexivity|]; now split. }
  destruct (String.eqb p "sendgrid").
  { destruct (getenv "SENDGRID_API_KEY" w) eqn:E4;
      eexists; (split; [reflexivity|]); (split; [exact Hfrom|]); cbn; try exact I.
    apply getenv_Some in E4. eexists _, _; split; [reflexivity|]; now split. }
  eexists; (split; [reflexivity|]); (split; [exact Hfrom|]); exact I.
Qed.

(** Whatever the process environment holds, the configuration read from
    it passes validation: [getEmailConfig] names a provider other than
    simulation only together with non-empty credentials, so the branch of
    [validateEmailConfig] that reports missing credentials is never
    taken; the sender address is never empty.  Neither function changes
    the state. *)
Theorem validateEmailConfig_always_true (w : World) :
  EmailConfig.validateEmailConfig w = (Normal true, w)
  /\ exists c, EmailConfig.getEmailConfig w = (Normal c, w)
               /\ from c <> ""
               /\ (provider c <> simulation ->
                   exists user pass,
                     auth c = Some {| auth_user := user; auth_pass := pass |}
                     /\ user <> "" /\ pass <> "").
Proof.
  destruct (getEmailConfig_credentialed w) as (c & E & Hfrom & Hcred).
  split.
  - unfold EmailConfig.validateEmailConfig, bind. rewrite E.
    destruct (provider c); try reflexivity;
      destruct Hcred as (user & pass & -> & Hu & Hp); cbn;
      apply String.eqb_neq in Hu, Hp; now rewrite Hu, Hp.
  - exists c. split; [exact E|]. split; [exact Hfrom|].
    intros Hp. destruct (provider c); try exact Hcred. contradiction.
Qed.

(** ** Single sends *)

(** A result as [sendEmail] builds them: a success carries a non-empty
    message id and no error, a failure an error and no message id. *)
Definition well_formed (r : SendResult) : Prop :=
  if success r
  then (exists id, messageId r = Some id /\ id <> "") /\ error r = None
  else messageId r = None /\ exists message, error r = Some message.

Lemma or_else_nonempty (serverId : option string) (messageId : string) :
  messageId <> "" -> EmailService.or_else serverId messageId <> "".
Proof.
  intros H. unfold EmailService.or_else, JSString.truthy, JSString.interpolate.
  destruct serverId as [s|]; [|exact H].
  destruct (String.eqb_spec s ""); cbn [negb]; assumption.
Qed.

Lemma local_id_nonempty (now : N) (r : Draw) :
  "msg-" +:+ JSString.ofN now +:+ "-" +:+ JSString.substr 2 9 (base36 r) <> "".
Proof. discriminate. Qed.

Ltac run_send :=
  cbv [EmailService.sendEmail EmailService.sendVia EmailService.sendSimulatedEmail
       EmailService.sendMailtrapAPIEmail EmailService.sendMailtrapTestingEmail
       EmailService.deliver bind ret throw try_catch modify Date_now Math_random post
       with_env with_sendLog env store agent sendLog process_env
       clock ticks random draws transport posts localMonth fst snd].

(** Every [sendEmail], whatever the provider and the transport's answer,
    returns a well-formed result. *)
Theorem sendEmail_result_well_formed (this : EmailService.MaintenanceEmailService)
  (recipient : EmailRecipient) (content : EmailService.EmailContent)
  (emailData : MaintenanceEmailData) (w : World) :
  exists result w',
    EmailService.sendEmail this recipient content emailData w = (Normal result, w')
    /\ well_formed result.
Proof.
  destruct w as [[ck tk rd dr tr ps lm] pe sl st ag]. run_send.
  destruct (provider (EmailService.smtpConfig this));
    repeat match goal with
      | |- context [if ?b then _ else _] => destruct b
      | |- context [match EmailService.transporter ?t with _ => _ end] =>
          destruct (EmailService.transporter t)
      | |- context [match tr ?n with _ => _ end] => destruct (tr n)
      end;
    eexists _, _; (split; [reflexivity|]); unfold well_formed; cbn [success messageId error];
    try (split; [|reflexivity]; eexists; split; [reflexivity|]);
    try (apply or_else_nonempty); try apply local_id_nonempty;
    try (split; [reflexivity | eexists; reflexivity]).
Qed.

(** A service built by the constructor for a provider other than
    simulation hands each message to the transport exactly once, whatever
    the credentials: the send succeeds exactly when the transport accepts
    the message, and reports the transport's own error otherwise.  The
    answer 'No email transporter configured' is never given. *)
Theorem constructed_service_posts_once (baseUrl : string) (c : SMTPConfig)
  (recipient : EmailRecipient) (content : EmailService.EmailContent)
  (emailData : MaintenanceEmailData) (w : World) :
  provider c <> simulation ->
  exists result w',
    EmailService.sendEmail (EmailService.new baseUrl (Some c)) recipient content emailData w
    = (Normal result, w')
    /\ posts (env w') = S (posts (env w))
    /\ draws (env w') = S (draws (env w))
    /\ match transport (env w) (posts (env w)) with
       | Delivered serverId => success result = true
       | Refused message => success result = false /\ error result = Some message
       end.
Proof.
  intros Hp. destruct w as [[ck tk rd dr tr ps lm] pe sl st ag]. run_send.
  unfold EmailService.new. cbn [EmailService.smtpConfig EmailService.transporter].
  unfold EmailService.initializeTransporter, EmailService.getTransportConfig.
  destruct (provider c); try contradiction;
    repeat match goal with
      | |- context [if ?b then _ else _] => destruct b
      end;
    destruct (tr ps); eexists _, _; (split; [reflexivity|]); cbn; auto.
Qed.

(** In simulation mode the transport is never contacted: a send draws
    three random numbers (the id, the delay, the failure draw), and fails,
    with 'SMTP connection timeout', exactly when the third is below 0.05. *)
Theorem simulated_send_outcome (this : EmailService.MaintenanceEmailService)
  (recipient : EmailRecipient) (content : EmailService.EmailContent)
  (emailData : MaintenanceEmailData) (w : World) :
  provider (EmailService.smtpConfig this) = simulation ->
  exists result w',
    EmailService.sendEmail this recipient content emailData w = (Normal result, w')
    /\ posts (env w') = posts (env w)
    /\ draws (env w') = S (S (S (draws (env w))))
    /\ success result
       = negb (JSNum.ltb (value (random (env w) (S (S (draws (env w)))))) (5 # 100))
    /\ (success result = false -> error result = Some "SMTP connection timeout").
Proof.
  intros Hp. destruct w as [[ck tk rd dr tr ps lm] pe sl st ag]. run_send. rewrite Hp.
  cbn [draws env]. destruct (JSNum.ltb (value (rd (S (S dr)))) (5 # 100));
    eexists _, _; (split; [reflexivity|]); cbn; auto.
  repeat split. discriminate.
Qed.

Lemma constructed_service_posts_once_witness :
  provider Cases.gmailWithoutCredentials <> simulation
  /\ exists result w',
       EmailService.sendEmail
         (EmailService.new "http://localhost:3000" (Some Cases.gmailWithoutCredentials))
         Scenario.mechanic Scenario.subjectLine Scenario.notice Scenario.emptyWorld
       = (Normal result, w')
       /\ posts (env w') = S (posts (env Scenario.emptyWorld))
       /\ draws (env w') = S (draws (env Scenario.emptyWorld))
       /\ match transport (env Scenario.emptyWorld) (posts (env Scenario.emptyWorld)) with
          | Delivered serverId => success result = true
          | Refused message => success result = false /\ error result = Some message
          end.
Proof.
  split; [discriminate|].
  apply (constructed_service_posts_once "http://localhost:3000"
           Cases.gmailWithoutCredentials). discriminate.
Defined.

Lemma simulated_send_outcome_witness :
  provider (EmailService.smtpConfig Scenario.simulated) = simulation
  /\ exists result w',
       EmailService.sendEmail Scenario.simulated Scenario.mechanic Scenario.subjectLine
         Scenario.notice Scenario.emptyWorld = (Normal result, w')
       /\ posts (env w') = posts (env Scenario.emptyWorld)
       /\ draws (env w') = S (S (S (draws (env Scenario.emptyWorld))))
       /\ success result
          = negb (JSNum.ltb (value (random (env Scenario.emptyWorld)
                                      (S (S (draws (env Scenario.emptyWorld))))))
                    (5 # 100))
       /\ (success result = false -> error result = Some "SMTP connection timeout").
Proof.
  split; [reflexivity|].
  apply (simulated_send_outcome Scenario.simulated). reflexivity.
Defined.

(** ** Who is notified *)

(** Whatever the maintenance type, nobody is listed twice among the
    default recipients; the mechanic, the supervisor, the parts manager and
    the pilot are always among them, and the inspector exactly for a
    C-check, an annual or a 100-hour inspection. *)
Theorem getDefaultRecipients_roles (maintenanceType : string) :
  let recipients := EmailService.getDefaultRecipients maintenanceType in
  List.NoDup (map rcp_email recipients)
  /\ (forall role, In role ["MECHANIC"; "SUPERVISOR"; "PARTS_MANAGER"; "PILOT"] ->
        In role (map rcp_role recipients))
  /\ (In "INSPECTOR" (map rcp_role recipients)
      <-> In maintenanceType ["C_CHECK"; "ANNUAL"; "100_HOUR"])
  /\ (4 <= length recipients <= 5)%nat.
Proof.
  unfold EmailService.getDefaultRecipients. cbv zeta.
  assert (Hincl : JSString.includes ["C_CHECK"; "ANNUAL"; "100_HOUR"] maintenanceType = true
                  <-> In maintenanceType ["C_CHECK"; "ANNUAL"; "100_HOUR"]).
  { unfold JSString.includes. rewrite existsb_exists. split.
    - intros (x & Hx & E). apply String.eqb_eq in E. now subst.
    - intros H. exists maintenanceType. split; [exact H | apply String.eqb_refl]. }
  destruct (JSString.includes _ maintenanceType); cbn [app map rcp_email rcp_role length].
  - split; [repeat (apply List.NoDup_cons; [cbn; intuition discriminate|]); apply List.NoDup_nil|].
    split; [cbn; intuition (subst; auto 10)|].
    split; [|lia]. split; [intros _; now apply Hincl | intros _; cbn; auto 10].
  - split; [repeat (apply List.NoDup_cons; [cbn; intuition discriminate|]); apply List.NoDup_nil|].
    split; [cbn; intuition (subst; auto 10)|].
    split; [|lia]. split.
    + cbn. intuition discriminate.
    + intros H. apply Hincl in H. discriminate.
Qed.

(** An approval that goes through, of a recommendation whose maintenance
    type is not a name that plain objects inherit (so that the equipment
    looked up for it is an array), e-mails exactly the default recipients
    of that maintenance type, once each and in order, and the answer
    reports them: [recipients] lists them, [sent] counts the sends that
    succeeded, [sent] and the failures add up to their number.  The
    fallback answer 'Email service error' is never given. *)
Theorem approval_notifies_default_recipients (w : World) (body : Route.Body)
  (rec : MaintenanceRecommendation) (approver : string) :
  Route.recommendationId body = Some (rec_id rec) -> rec_id rec <> "" ->
  Route.approvedBy body = Some approver -> approver <> "" ->
  find (Route.has_id (rec_id rec)) (mockRecommendations (store w)) = Some rec ->
  In (rec_aircraftId rec) (map Route.ac_id Route.mockAircraft) ->
  Route.inherited w (rec_maintenanceType rec) = Route.Undefined ->
  exists response w' log,
    Route.approveRecommendation body w = (Normal response, w')
    /\ sendLog w' = sendLog w ++ log
    /\ map att_recipient log = EmailService.getDefaultRecipients (rec_maintenanceType rec)
    /\ match Route.payload response with
       | Route.ApprovalPayload _ _ _ _ notifications _ _ _ =>
           Route.en_recipients notifications
           = EmailService.getDefaultRecipients (rec_maintenanceType rec)
           /\ Route.en_sent notifications = length (List.filter succeeded log)
           /\ (Route.en_sent notifications + length (Route.en_failures notifications)
               = length log)%nat
           /\ (Route.en_success notifications = true
               <-> Route.en_failures notifications = [])
       | _ => False
       end.
Proof.
  intros Hid Hrid Hby Happrover Hfind Hfleet Hplain.
  assert (Hac : exists aircraft,
             find (fun a => String.eqb (Route.ac_id a) (rec_aircraftId rec))
               Route.mockAircraft = Some aircraft).
  { cbn in Hfleet. destruct Hfleet as [<-|[<-|[<-|[]]]]; eexists; reflexivity. }
  destruct Hac as [aircraft Hac].
  unfold Route.approveRecommendation.
  rewrite Hid, Hby, (truthy_Some _ Hrid), (truthy_Some _ Happrover).
  cbn [negb orb JSString.interpolate].
  rewrite (bind_normal get _ w w w eq_refl). rewrite Hfind, Hac.
  destruct (returns_new_Date only_env w) as (approvedAt & w1 & E1 & (_ & _ & _ & L1) & _).
  pose proof (new_Date_builtins _ _ _ E1) as B1.
  rewrite (bind_normal _ _ _ _ _ E1).
  rewrite (bind_normal (modify _) _ w1 _ tt eq_refl).
  rewrite (bind_normal get _ _ _ _ eq_refl).
  match goal with |- context [bind (Route.createWorkflowFromRecommendation ?r ?i) _ ?w2] =>
    destruct (createWorkflow_returns r i w2) as (wf & w3 & E3 & (_ & _ & _ & L3) & _);
    destruct (createWorkflow_equipment r i w2 w3 wf E3) as (tools & Htools);
      [rewrite <- Hplain; apply inherited_builtins; exact B1|]
  end.
  rewrite (bind_normal _ _ _ _ _ E3).
  rewrite (bind_normal (modify _) _ w3 _ tt eq_refl).
  match goal with |- context [bind (Agentic.approveRecommendation ?a ?b ?c) _ ?w4] =>
    destruct (agentic_approval_computes a b c w4)
      as (e5 & entries & reminders & result & E5 & _) end.
  rewrite (bind_normal _ _ _ _ _ E5).
  match goal with |- context [try_catch _ _ ?w5'] => set (w5 := w5') end.
  assert (L5 : sendLog w5 = sendLog w).
  { subst w5. cbn [sendLog with_env with_agent Route.set_workflows with_store].
    rewrite L3. cbn [sendLog Route.set_recommendations with_store]. exact L1. }
  clearbody w5.
  unfold try_catch.
  destruct (getEmailConfig_credentialed w5) as (c & Ec & _).
  rewrite (bind_normal _ _ _ _ _ Ec). cbv zeta.
  destruct (returns_new_Date only_env w5) as (approvedAtIso & w6 & E6 & (_ & _ & _ & L6) & _).
  rewrite (bind_normal _ _ _ _ _ E6).
  unfold EmailService.sendMaintenanceNotificationEmails.
  match goal with
  | |- context [EmailService.notifyEach ?this ?data ?recipients [] []] =>
      destruct (notifyEach_counts this data recipients [] [] w6)
        as (oks & errs & log & w7 & E7 & L7 & Hmap & Hoks & Herrs & _)
  end.
  rewrite (bind_normal _ _ _ _ _ (bind_normal _ _ _ _ _ E7)).
  cbn [fst snd app].
  unfold ret at 1. unfold bind at 1. cbn [fst snd].
  destruct (returns_new_Date only_env w7) as (timestamp & w8 & E8 & (_ & _ & _ & L8) & _).
  rewrite E8.
  unfold arrayEquipment in Hmap. cbn [ed_resources res_equipment] in Hmap.
  rewrite Htools in Hmap.
  cbn [Route.with_approval Route.with_status rec_maintenanceType] in Hmap |- *.
  eexists _, w8, log. split; [reflexivity|].
  split; [now rewrite L8, L7, L6, L5|].
  split; [exact Hmap|].
  cbn [Route.payload Route.json Route.en_recipients Route.en_sent Route.en_failures
       Route.en_success sentEmails failures sum_success].
  split; [reflexivity|].
  split; [rewrite Hoks; apply length_map|].
  split.
  - rewrite <- (length_map att_recipient log), Hmap. exact Herrs.
  - destruct errs; cbn; split; congruence.
Qed.

Lemma approval_notifies_default_recipients_witness :
  exists rec,
    find (Route.has_id "baseline-n123ab-100hour")
      (mockRecommendations (store Scenario.seededWorld)) = Some rec
    /\ rec_maintenanceType rec = "100_HOUR"
    /\ exists response w' log,
         Route.approveRecommendation (Scenario.approval "baseline-n123ab-100hour" "ops")
           Scenario.seededWorld = (Normal response, w')
         /\ sendLog w' = sendLog Scenario.seededWorld ++ log
         /\ map att_recipient log
            = EmailService.getDefaultRecipients (rec_maintenanceType rec)
         /\ match Route.payload response with
            | Route.ApprovalPayload _ _ _ _ notifications _ _ _ =>
                Route.en_recipients notifications
                = EmailService.getDefaultRecipients (rec_maintenanceType rec)
                /\ Route.en_sent notifications = length (List.filter succeeded log)
                /\ (Route.en_sent notifications + length (Route.en_failures notifications)
                    = length log)%nat
                /\ (Route.en_success notifications = true
                    <-> Route.en_failures notifications = [])
            | _ => False
            end.
Proof.
  eexists. split; [vm_compute; reflexivity|]. split; [reflexivity|].
  apply (approval_notifies_default_recipients Scenario.seededWorld
           (Scenario.approval "baseline-n123ab-100hour" "ops") _ "ops").
  - reflexivity.
  - discriminate.
  - reflexivity.
  - discriminate.
  - vm_compute. reflexivity.
  - cbn. left. reflexivity.
  - reflexivity.
Defined.

(** For a maintenance type that is a name plain objects inherit, the
    equipment of the workflow is the built-in found under that name. *)
Lemma createWorkflow_builtin (rec : MaintenanceRecommendation) (index : nat)
  (w w' : World) (wf : ActiveWorkflow) :
  Route.createWorkflowFromRecommendation rec index w = (Normal wf, w') ->
  In (rec_maintenanceType rec) Route.inheritedNames ->
  res_equipment (wf_resources wf) = BuiltIn (rec_maintenanceType rec).
Proof.
  destruct w as [e pe sl st ag bi].
  unfold Route.createWorkflowFromRecommendation, Route.getRequiredEquipment. run_monad.
  intros E H. injection E as <- _. unfold res_equipment, wf_resources.
  rewrite (inherited_builtin _ _ H).
  cbn in H. decompose [or] H; try contradiction;
    match goal with E : _ = rec_maintenanceType rec |- _ => rewrite <- E end; reflexivity.
Qed.

(** An approval of a recommendation whose maintenance type is a name that
    plain objects inherit ('constructor', 'toString', ...) goes through,
    with status 200, but e-mails nobody: the equipment looked up for the
    workflow is a built-in, not an array, the rendering of the message
    throws for each of the default recipients, and the answer reports no
    send and one failure for each of them. *)
Theorem approval_of_inherited_type_notifies_nobody (w : World) (body : Route.Body)
  (rec : MaintenanceRecommendation) (approver : string) :
  Route.recommendationId body = Some (rec_id rec) -> rec_id rec <> "" ->
  Route.approvedBy body = Some approver -> approver <> "" ->
  find (Route.has_id (rec_id rec)) (mockRecommendations (store w)) = Some rec ->
  In (rec_aircraftId rec) (map Route.ac_id Route.mockAircraft) ->
  In (rec_maintenanceType rec) Route.inheritedNames ->
  exists response w',
    Route.approveRecommendation body w = (Normal response, w')
    /\ Route.status response = 200
    /\ sendLog w' = sendLog w
    /\ match Route.payload response with
       | Route.ApprovalPayload _ _ _ activeWorkflow notifications _ _ _ =>
           res_equipment (wf_resources activeWorkflow) = BuiltIn (rec_maintenanceType rec)
           /\ Route.en_sent notifications = 0
           /\ length (Route.en_failures notifications)
              = length (EmailService.getDefaultRecipients (rec_maintenanceType rec))
           /\ Route.en_success notifications = false
       | _ => False
       end.
Proof.
  intros Hid Hrid Hby Happrover Hfind Hfleet Hname.
  assert (Hac : exists aircraft,
             find (fun a => String.eqb (Route.ac_id a) (rec_aircraftId rec))
               Route.mockAircraft = Some aircraft).
  { cbn in Hfleet. destruct Hfleet as [<-|[<-|[<-|[]]]]; eexists; reflexivity. }
  destruct Hac as [aircraft Hac].
  unfold Route.approveRecommendation.
  rewrite Hid, Hby, (truthy_Some _ Hrid), (truthy_Some _ Happrover).
  cbn [negb orb JSString.interpolate].
  rewrite (bind_normal get _ w w w eq_refl). rewrite Hfind, Hac.
  destruct (returns_new_Date only_env w) as (approvedAt & w1 & E1 & (_ & _ & _ & L1) & _).
  rewrite (bind_normal _ _ _ _ _ E1).
  rewrite (bind_normal (modify _) _ w1 _ tt eq_refl).
  rewrite (bind_normal get _ _ _ _ eq_refl).
  match goal with |- context [bind (Route.createWorkflowFromRecommendation ?r ?i) _ ?w2] =>
    destruct (createWorkflow_returns r i w2) as (wf & w3 & E3 & (_ & _ & _ & L3) & _);
    pose proof (createWorkflow_builtin r i w2 w3 wf E3 Hname) as Hequipment
  end.
  rewrite (bind_normal _ _ _ _ _ E3).
  rewrite (bind_normal (modify _) _ w3 _ tt eq_refl).
  match goal with |- context [bind (Agentic.approveRecommendation ?a ?b ?c) _ ?w4] =>
    destruct (agentic_approval_computes a b c w4)
      as (e5 & entries & reminders & result & E5 & _) end.
  rewrite (bind_normal _ _ _ _ _ E5).
  match goal with |- context [try_catch _ _ ?w5'] => set (w5 := w5') end.
  assert (L5 : sendLog w5 = sendLog w).
  { subst w5. cbn [sendLog with_env with_agent Route.set_workflows with_store].
    rewrite L3. cbn [sendLog Route.set_recommendations with_store]. exact L1. }
  clearbody w5.
  unfold try_catch.
  destruct (getEmailConfig_credentialed w5) as (c & Ec & _).
  rewrite (bind_normal _ _ _ _ _ Ec). cbv zeta.
  destruct (returns_new_Date only_env w5) as (approvedAtIso & w6 & E6 & (_ & _ & _ & L6) & _).
  rewrite (bind_normal _ _ _ _ _ E6).
  unfold EmailService.sendMaintenanceNotificationEmails.
  match goal with
  | |- context [EmailService.notifyEach ?this ?data ?recipients [] []] =>
      destruct (notifyEach_unrendered this data recipients) with
        (emailResults := @nil SendResult) (failures := @nil string) (w := w6)
        as (errs & E7 & Herrs);
        [unfold arrayEquipment; cbn [ed_resources res_equipment]; now rewrite Hequipment|]
  end.
  rewrite (bind_normal _ _ _ _ _ (bind_normal _ _ _ _ _ E7)).
  cbn [fst snd app].
  unfold ret at 1. unfold bind at 1. cbn [fst snd].
  destruct (returns_new_Date only_env w6) as (timestamp & w8 & E8 & (_ & _ & _ & L8) & _).
  rewrite E8.
  cbn [Route.with_approval Route.with_status rec_maintenanceType] in Herrs, Hequipment |- *.
  eexists _, w8. split; [reflexivity|].
  split; [reflexivity|].
  split; [now rewrite L8, L6, L5|].
  cbn [Route.payload Route.json Route.en_recipients Route.en_sent Route.en_failures
       Route.en_success sentEmails failures sum_success length].
  split; [exact Hequipment|]. split; [reflexivity|]. split; [exact Herrs|].
  destruct errs; [|reflexivity].
  exfalso. revert Herrs. cbn [length].
  unfold EmailService.getDefaultRecipients.
  destruct (JSString.includes _ _); discriminate.
Qed.

Lemma approval_of_inherited_type_notifies_nobody_witness :
  exists response w',
    Route.approveRecommendation (Scenario.approval "rec-1700000000000-k" "ops")
      Cases.oddlyTypedWorld = (Normal response, w')
    /\ Route.status response = 200
    /\ sendLog w' = sendLog Cases.oddlyTypedWorld
    /\ match Route.payload response with
       | Route.ApprovalPayload _ _ _ activeWorkflow notifications _ _ _ =>
           res_equipment (wf_resources activeWorkflow) = BuiltIn "constructor"
           /\ Route.en_sent notifications = 0
           /\ length (Route.en_failures notifications) = 4
           /\ Route.en_success notifications = false
       | _ => False
       end.
Proof.
  apply (approval_of_inherited_type_notifies_nobody Cases.oddlyTypedWorld
           (Scenario.approval "rec-1700000000000-k" "ops") Cases.oddlyTyped "ops").
  - reflexivity.
  - discriminate.
  - reflexivity.
  - discriminate.
  - reflexivity.
  - cbn. left. reflexivity.
  - cbn. left. reflexivity.
Defined.

(** ** The active workflows *)

Definition active (r : MaintenanceRecommendation) : bool :=
  JSString.includes ["APPROVED"; "SCHEDULED"; "IN_PROGRESS"] (RecStatus_name (rec_status r)).

Definition key (r : MaintenanceRecommendation) : string := "workflow-" +:+ rec_id r.

(** What [materialize] leaves alone. *)
Definition outside_workflows (w w' : World) : Prop :=
  mockRecommendations (store w') = mockRecommendations (store w)
  /\ agent w' = agent w /\ sendLog w' = sendLog w /\ process_env w' = process_env w.

Lemma materialize_spec (recs : list MaintenanceRecommendation) :
  forall (index : nat) (w : World),
  exists workflows w',
    Route.materialize recs index w = (Normal workflows, w')
    /\ Forall2 (fun rec wf => mockActiveWorkflows (store w') !! key rec = Some wf)
         recs workflows
    /\ (forall k wf, mockActiveWorkflows (store w) !! k = Some wf ->
                     mockActiveWorkflows (store w') !! k = Some wf)
    /\ (forall k, mockActiveWorkflows (store w) !! k = None ->
                  mockActiveWorkflows (store w') !! k <> None -> In k (map key recs))
    /\ outside_workflows w w'.
Proof.
  induction recs as [|rec rest IH]; intros index w.
  - exists [], w. cbn. repeat split; auto.
  - cbn [Route.materialize]. cbv zeta.
    rewrite (bind_normal get _ w w w eq_refl).
    fold (key rec).
    destruct (mockActiveWorkflows (store w) !! key rec) as [wf|] eqn:Hk.
    + rewrite (bind_normal (ret wf) _ w w wf eq_refl).
      destruct (IH (S index) w) as (wfs & w' & E & Hall & Hkept & Hnew & Hout).
      rewrite (bind_normal _ _ _ _ _ E). exists (wf :: wfs), w'.
      split; [reflexivity|]. split; [constructor; [now apply Hkept | exact Hall]|].
      split; [exact Hkept|]. split; [|exact Hout].
      intros k H1 H2. right. now apply Hnew.
    + destruct (createWorkflow_returns rec index w)
        as (wf & w1 & E1 & (S1 & A1 & P1 & L1) & _).
      unfold bind at 1. rewrite (bind_normal _ _ _ _ _ E1).
      rewrite (bind_normal (modify _) _ w1 _ tt eq_refl).
      unfold ret at 1.
      match goal with |- context [bind (Route.materialize rest (S index)) _ ?w2'] =>
        set (w2 := w2') end.
      destruct (IH (S index) w2) as (wfs & w' & E & Hall & Hkept & Hnew & Hout).
      rewrite (bind_normal _ _ _ _ _ E). exists (wf :: wfs), w'.
      assert (Hm2 : mockActiveWorkflows (store w2)
                    = <[key rec := wf]> (mockActiveWorkflows (store w))).
      { subst w2. cbn. now rewrite S1. }
      split; [reflexivity|]. split; [|split; [|split]].
      * constructor; [|exact Hall]. apply Hkept. rewrite Hm2. apply lookup_insert_eq.
      * intros k wf0 H0. apply Hkept. rewrite Hm2.
        destruct (decide (key rec = k)) as [<-|N]; [congruence|].
        now rewrite lookup_insert_ne.
      * intros k H1 H2. destruct (decide (key rec = k)) as [<-|N]; [now left|].
        right. apply Hnew; [|exact H2]. rewrite Hm2. now rewrite lookup_insert_ne.
      * destruct Hout as (R & A & L & P). subst w2. cbn in R, A, L, P.
        unfold outside_workflows. rewrite R, A, L, P, S1, A1, L1, P1. repeat split.
Qed.

(** Once every recommendation of the list has its workflow stored,
    [materialize] returns the stored workflows and changes nothing. *)
Lemma materialize_stable (recs : list MaintenanceRecommendation)
  (workflows : list ActiveWorkflow) (w : World) :
  Forall2 (fun rec wf => mockActiveWorkflows (store w) !! key rec = Some wf) recs workflows ->
  forall index, Route.materialize recs index w = (Normal workflows, w).
Proof.
  induction 1 as [|rec wf recs workflows Hk _ IH]; intros index; [reflexivity|].
  cbn [Route.materialize]. cbv zeta.
  rewrite (bind_normal get _ w w w eq_refl). fold (key rec). rewrite Hk.
  rewrite (bind_normal (ret wf) _ w w wf eq_refl).
  now rewrite (bind_normal _ _ _ _ _ (IH (S index))).
Qed.

Lemma Forall2_In_r {A B} (P : A -> B -> Prop) (l : list A) (l' : list B) (b : B) :
  Forall2 P l l' -> In b l' -> exists a, In a l /\ P a b.
Proof.
  induction 1 as [|a0 b0 l l' H0 _ IH]; intros Hin; [destruct Hin|].
  destruct Hin as [->|Hin]; [exists a0; split; [now left | exact H0]|].
  destruct (IH Hin) as (a & Ha & Hp). exists a. split; [now right | exact Hp].
Qed.

Lemma Forall2_In_l {A B} (P : A -> B -> Prop) (l : list A) (l' : list B) (a : A) :
  Forall2 P l l' -> In a l -> exists b, In b l' /\ P a b.
Proof.
  induction 1 as [|a0 b0 l l' H0 _ IH]; intros Hin; [destruct Hin|].
  destruct Hin as [->|Hin]; [exists b0; split; [now left | exact H0]|].
  destruct (IH Hin) as (b & Hb & Hp). exists b. split; [now right | exact Hp].
Qed.

Lemma In_filter_iff {A} (f : A -> bool) (l : list A) (a : A) :
  In a (List.filter f l) <-> In a l /\ f a = true.
Proof. apply filter_In. Qed.

(** The answer of [GET ?action=active-workflows]: [totalActive] is the
    number of recommendations whose status is APPROVED, SCHEDULED or
    IN_PROGRESS; after the call each of them has a workflow stored under
    its key; the workflows stored before are kept as they were; no key is
    added for any other recommendation; every workflow returned is the
    one stored for such a recommendation and passes the filters given. *)
Theorem getActiveWorkflows_materializes (status aircraftId : option string) (w : World) :
  exists workflows total byStatus milestones timestamp w',
    Route.getActiveWorkflows status aircraftId w
    = (Normal {| Route.wr_status := 200;
                 Route.wr_payload :=
                   Route.ActiveWorkflowsPayload workflows total byStatus milestones
                     timestamp |}, w')
    /\ total = length (List.filter active (mockRecommendations (store w)))
    /\ (forall rec, In rec (mockRecommendations (store w)) -> active rec = true ->
          exists wf, mockActiveWorkflows (store w') !! ("workflow-" +:+ rec_id rec) = Some wf)
    /\ (forall k wf, mockActiveWorkflows (store w) !! k = Some wf ->
                     mockActiveWorkflows (store w') !! k = Some wf)
    /\ (forall k, mockActiveWorkflows (store w) !! k = None ->
                  mockActiveWorkflows (store w') !! k <> None ->
          exists rec, In rec (mockRecommendations (store w)) /\ active rec = true
                      /\ k = "workflow-" +:+ rec_id rec)
    /\ (forall wf, In wf workflows ->
          (exists rec, In rec (mockRecommendations (store w)) /\ active rec = true
                       /\ mockActiveWorkflows (store w') !! ("workflow-" +:+ rec_id rec)
                          = Some wf)
          /\ (JSString.truthy status = true -> Some (wf_status wf) = status)
          /\ (JSString.truthy aircraftId = true -> Some (wf_aircraftId wf) = aircraftId))
    /\ mockRecommendations (store w') = mockRecommendations (store w)
    /\ agent w' = agent w
    /\ sendLog w' = sendLog w.
Proof.
  unfold Route.getActiveWorkflows.
  rewrite (bind_normal get _ w w w eq_refl). cbv zeta. fold active.
  destruct (materialize_spec (List.filter active (mockRecommendations (store w))) 0 w)
    as (wfs & w1 & E & Hall & Hkept & Hnew & (R & A & L & P)).
  rewrite (bind_normal _ _ _ _ _ E).
  destruct (returns_new_Date only_env w1) as (ts & w2 & E2 & (S2 & A2 & P2 & L2) & _).
  rewrite (bind_normal _ _ _ _ _ E2). unfold ret.
  eexists _, _, _, _, _, _. split; [reflexivity|]. rewrite S2, A2, L2.
  split; [symmetry; eapply Forall2_length; exact Hall|].
  split; [|split; [exact Hkept|split; [|split; [|now repeat split]]]].
  - intros rec Hin Hact.
    assert (Hin' : In rec (List.filter active (mockRecommendations (store w))))
      by (apply In_filter_iff; now split).
    destruct (Forall2_In_l _ _ _ _ Hall Hin') as (wf & _ & Hk). now exists wf.
  - intros k H1 H2. specialize (Hnew k H1 H2). apply in_map_iff in Hnew.
    destruct Hnew as (rec & <- & Hin). apply In_filter_iff in Hin.
    exists rec. now repeat split.
  - intros wf Hin.
    assert (Hsub : In wf wfs
                   /\ (JSString.truthy status = true -> Some (wf_status wf) = status)
                   /\ (JSString.truthy aircraftId = true
                       -> Some (wf_aircraftId wf) = aircraftId)).
    { destruct status as [st|], aircraftId as [ac|]; cbn [JSString.truthy] in Hin |- *;
        repeat match type of Hin with
          | context [if ?b then _ else _] => destruct b eqn:?
          end;
        repeat (apply In_filter_iff in Hin; destruct Hin as [Hin ?]);
        repeat split; try discriminate; try assumption; intros _;
        unfold Route.has_status, JSString.interpolate in *;
        f_equal; now apply String.eqb_eq. }
    destruct Hsub as (Hwf & Hst & Hac). split; [|now split].
    destruct (Forall2_In_r _ _ _ _ Hall Hwf) as (rec & Hrec & Hk).
    apply In_filter_iff in Hrec. exists rec. now repeat split.
Qed.

(** A second [GET ?action=active-workflows] with the same filters answers
    with the same workflows, count, histogram and milestones as the first
    (only the timestamp is new): the workflows, once stored, are reused,
    so the store is left as it is and no random number is drawn. *)
Theorem getActiveWorkflows_stable (status aircraftId : option string) (w : World) :
  exists workflows total byStatus milestones t1 w1 t2 w2,
    Route.getActiveWorkflows status aircraftId w
    = (Normal {| Route.wr_status := 200;
                 Route.wr_payload :=
                   Route.ActiveWorkflowsPayload workflows total byStatus milestones t1 |},
       w1)
    /\ Route.getActiveWorkflows status aircraftId w1
       = (Normal {| Route.wr_status := 200;
                    Route.wr_payload :=
                      Route.ActiveWorkflowsPayload workflows total byStatus milestones t2 |},
          w2)
    /\ store w2 = store w1
    /\ draws (env w2) = draws (env w1).
Proof.
  unfold Route.getActiveWorkflows.
  rewrite (bind_normal get _ w w w eq_refl). cbv zeta. fold active.
  destruct (materialize_spec (List.filter active (mockRecommendations (store w))) 0 w)
    as (wfs & w0 & E & Hall & _ & _ & (R & _)).
  rewrite (bind_normal _ _ _ _ _ E).
  cbv [bind new_Date Date_now ret fst snd].
  eexists _, _, _, _, _, _, _, _. split; [reflexivity|].
  cbv [get]. cbn [store with_env]. rewrite R.
  match goal with |- context [Route.materialize _ 0 ?w1'] => set (w1 := w1') end.
  rewrite (materialize_stable _ wfs w1 Hall 0).
  subst w1. cbn [store with_env env draws]. split; [reflexivity|]. split; reflexivity.
Qed.

(** ** Workflow status updates *)

(** The error answers of [update-workflow-status], while
    [Object.prototype] has no [status] property: 400 when the workflow id
    or the status is missing or empty; 404 when the id is neither a key of
    the workflow map nor a name inherited from [Object.prototype].  In
    both cases nothing changes. *)
Theorem updateWorkflowStatus_errors (body : Route.StatusBody) (w : World) :
  inheritedStatus w = None ->
  (JSString.truthy (Route.sb_workflowId body) = false
   \/ JSString.truthy (Route.sb_status body) = false ->
   Route.updateWorkflowStatus body w
   = (Normal {| Route.wr_status := 400;
                Route.wr_payload :=
                  Route.WorkflowError "workflowId and status are required" |}, w))
  /\ (forall workflowId status,
        Route.sb_workflowId body = Some workflowId -> workflowId <> "" ->
        Route.sb_status body = Some status -> status <> "" ->
        mockActiveWorkflows (store w) !! workflowId = None ->
        ~ In workflowId Route.inheritedNames ->
        Route.updateWorkflowStatus body w
        = (Normal {| Route.wr_status := 404;
                     Route.wr_payload := Route.WorkflowError "Workflow not found" |}, w)).
Proof.
  intros Hproto. split.
  - intros H. unfold Route.updateWorkflowStatus.
    rewrite (bind_normal get _ w w w eq_refl).
    assert (Hst : JSString.truthy (Route.statusOf body w) = JSString.truthy (Route.sb_status body)).
    { unfold Route.statusOf. rewrite Hproto. now destruct (Route.sb_status body). }
    rewrite Hst.
    destruct H as [-> | ->]; cbn [negb orb]; [reflexivity|].
    now destruct (JSString.truthy (Route.sb_workflowId body)).
  - intros workflowId status Hid Hne Hst Hsne Hnone Hown.
    unfold Route.updateWorkflowStatus.
    rewrite (bind_normal get _ w w w eq_refl).
    unfold Route.statusOf.
    rewrite Hid, Hst, (truthy_Some _ Hne), (truthy_Some _ Hsne).
    cbn [negb orb JSString.interpolate].
    now rewrite Hnone, (inherited_nothing w workflowId Hown Hproto).
Qed.

Lemma updateWorkflowStatus_errors_witness :
  inheritedStatus Scenario.emptyWorld = None
  /\ mockActiveWorkflows (store Scenario.emptyWorld) !! "workflow-42" = None
  /\ ~ In "workflow-42" Route.inheritedNames
  /\ Route.updateWorkflowStatus (Cases.statusBody "workflow-42" "DELAYED") Scenario.emptyWorld
     = (Normal {| Route.wr_status := 404;
                  Route.wr_payload := Route.WorkflowError "Workflow not found" |},
        Scenario.emptyWorld).
Proof.
  assert (Hown : ~ In "workflow-42" Route.inheritedNames).
  { cbn. intuition discriminate. }
  split; [reflexivity|]. split; [reflexivity|]. split; [exact Hown|].
  apply (proj2 (updateWorkflowStatus_errors (Cases.statusBody "workflow-42" "DELAYED")
                  Scenario.emptyWorld eq_refl) "workflow-42" "DELAYED");
    try reflexivity; try discriminate. exact Hown.
Defined.

(** A workflow id that is a name inherited from [Object.prototype]
    ('constructor', 'toString', '__proto__', ...) is not answered 404: the
    lookup in the plain object finds a built-in, and the handler throws.
    The recommendations and the workflow map are left as they were. *)
Theorem updateWorkflowStatus_inherited_name (body : Route.StatusBody) (workflowId status : string)
  (w : World) :
  Route.sb_workflowId body = Some workflowId ->
  Route.sb_status body = Some status -> status <> "" ->
  In workflowId Route.inheritedNames ->
  mockActiveWorkflows (store w) !! workflowId = None ->
  exists message w',
    Route.updateWorkflowStatus body w = (Throw message, w') /\ store w' = store w.
Proof.
  intros Hid Hst Hsne Hin Hnone.
  assert (Hne : workflowId <> "").
  { intros ->. cbn in Hin. intuition discriminate. }
  unfold Route.updateWorkflowStatus.
  rewrite (bind_normal get _ w w w eq_refl).
  unfold Route.statusOf.
  rewrite Hid, Hst, (truthy_Some _ Hne), (truthy_Some _ Hsne).
  cbn [negb orb JSString.interpolate].
  rewrite Hnone, (inherited_builtin w workflowId Hin).
  cbv [bind modify new_Date Date_now ret throw fst snd].
  eexists _, _. split; reflexivity.
Qed.

Lemma updateWorkflowStatus_inherited_name_witness :
  In "constructor" Route.inheritedNames
  /\ exists message w',
       Route.updateWorkflowStatus (Cases.statusBody "constructor" "DELAYED") Scenario.emptyWorld
       = (Throw message, w')
       /\ store w' = store Scenario.emptyWorld.
Proof.
  split; [cbn; auto|].
  apply (updateWorkflowStatus_inherited_name (Cases.statusBody "constructor" "DELAYED")
           "constructor" "DELAYED"); try reflexivity; try discriminate.
  cbn. auto.
Defined.

(** The assignment that precedes the throw is kept by the built-in it
    lands on.  A request whose workflow id is ['__proto__'] therefore
    gives [Object.prototype] a [status], which every request body then
    inherits: from then on a body without a status passes the validation
    (it is answered 404 for an unknown id, not 400), and the workflow id
    ['status'] finds that string and makes the handler throw. *)
Theorem updateWorkflowStatus_pollutes_prototype (status : string) (w : World) :
  status <> "" ->
  mockActiveWorkflows (store w) !! "__proto__" = None ->
  exists message w1,
    Route.updateWorkflowStatus
      {| Route.sb_workflowId := Some "__proto__"; Route.sb_status := Some status;
         Route.sb_updatedBy := None; Route.sb_notes := None |} w
    = (Throw message, w1)
    /\ inheritedStatus w1 = Some status
    /\ store w1 = store w
    /\ (forall workflowId,
          workflowId <> "" -> workflowId <> "status" ->
          ~ In workflowId Route.inheritedNames ->
          mockActiveWorkflows (store w) !! workflowId = None ->
          Route.updateWorkflowStatus
            {| Route.sb_workflowId := Some workflowId; Route.sb_status := None;
               Route.sb_updatedBy := None; Route.sb_notes := None |} w1
          = (Normal {| Route.wr_status := 404;
                       Route.wr_payload := Route.WorkflowError "Workflow not found" |}, w1))
    /\ (mockActiveWorkflows (store w) !! "status" = None ->
        exists message' w2,
          Route.updateWorkflowStatus
            {| Route.sb_workflowId := Some "status"; Route.sb_status := None;
               Route.sb_updatedBy := None; Route.sb_notes := None |} w1
          = (Throw message', w2)
          /\ store w2 = store w1).
Proof.
  intros Hsne Hnone.
  assert (Hin : In "__proto__" Route.inheritedNames) by (cbn; auto 12).
  unfold Route.updateWorkflowStatus at 1.
  rewrite (bind_normal get _ w w w eq_refl).
  unfold Route.statusOf at 1. cbn [Route.sb_workflowId Route.sb_status].
  rewrite (truthy_Some _ Hsne). cbn [JSString.truthy String.eqb negb orb JSString.interpolate].
  rewrite Hnone, (inherited_builtin w "__proto__" Hin).
  cbv [bind modify new_Date Date_now ret throw fst snd].
  eexists _, _. split; [reflexivity|].
  set (w1 := with_env _ _).
  assert (Hproto : inheritedStatus w1 = Some status).
  { subst w1. unfold inheritedStatus. cbn [builtins with_env with_builtins].
    apply lookup_insert_eq. }
  assert (Hstore : store w1 = store w) by reflexivity.
  split; [exact Hproto|]. split; [exact Hstore|]. split.
  - intros workflowId Hne Hstatus Hown Hmissing.
    unfold Route.updateWorkflowStatus.
    rewrite (bind_normal get _ w1 w1 w1 eq_refl).
    unfold Route.statusOf. cbn [Route.sb_workflowId Route.sb_status].
    rewrite Hproto, (truthy_Some _ Hne), (truthy_Some _ Hsne).
    cbn [negb orb JSString.interpolate]. rewrite Hstore, Hmissing.
    unfold Route.inherited.
    destruct (JSString.includes Route.inheritedNames workflowId) eqn:E.
    + exfalso. apply Hown. now apply includes_In.
    + destruct (String.eqb_spec workflowId "status"); [contradiction | reflexivity].
  - intros Hmissing.
    unfold Route.updateWorkflowStatus.
    rewrite (bind_normal get _ w1 w1 w1 eq_refl).
    unfold Route.statusOf. cbn [Route.sb_workflowId Route.sb_status].
    rewrite Hproto, (truthy_Some _ Hsne).
    cbn [JSString.truthy String.eqb Ascii.eqb Bool.eqb negb orb JSString.interpolate].
    rewrite Hstore, Hmissing.
    unfold Route.inherited. cbn [JSString.includes Route.inheritedNames existsb String.eqb
                                  Ascii.eqb Bool.eqb orb].
    rewrite Hproto.
    destruct (String.eqb_spec status ""); [contradiction|].
    eexists _, _. split; reflexivity.
Qed.

Lemma updateWorkflowStatus_pollutes_prototype_witness :
  exists message w1,
    Route.updateWorkflowStatus (Cases.statusBody "__proto__" "IN_PROGRESS") Scenario.emptyWorld
    = (Throw message, w1)
    /\ inheritedStatus w1 = Some "IN_PROGRESS"
    /\ Route.updateWorkflowStatus
         {| Route.sb_workflowId := Some "workflow-42"; Route.sb_status := None;
            Route.sb_updatedBy := None; Route.sb_notes := None |} w1
       = (Normal {| Route.wr_status := 404;
                    Route.wr_payload := Route.WorkflowError "Workflow not found" |}, w1)
    /\ Route.updateWorkflowStatus
         {| Route.sb_workflowId := Some "workflow-42"; Route.sb_status := None;
            Route.sb_updatedBy := None; Route.sb_notes := None |} Scenario.emptyWorld
       = (Normal {| Route.wr_status := 400;
                    Route.wr_payload :=
                      Route.WorkflowError "workflowId and status are required" |},
          Scenario.emptyWorld).
Proof.
  destruct (updateWorkflowStatus_pollutes_prototype "IN_PROGRESS" Scenario.emptyWorld)
    as (message & w1 & E & Hproto & _ & Hlater & _);
    [discriminate | reflexivity|].
  exists message, w1. split; [exact E|]. split; [exact Hproto|]. split.
  - apply Hlater; [discriminate | discriminate | cbn; intuition discriminate | reflexivity].
  - reflexivity.
Defined.

(** An update of a stored workflow answers 200 and replaces that workflow
    alone: the other keys of the map and the recommendations are
    untouched.  The new status is stored whatever it is; the identity of
    the workflow, its task counts, resources and timeline are kept; for
    the statuses IN_PROGRESS, AWAITING_PARTS, INSPECTION and DELAYED the
    current task and the next milestone become the texts the materializer
    writes for that status, and for any other status they are left as
    they were; an inspector, once assigned, is never removed, and
    INSPECTION assigns one. *)
Theorem updateWorkflowStatus_updates (body : Route.StatusBody) (workflowId status : string)
  (workflow : ActiveWorkflow) (w : World) :
  Route.sb_workflowId body = Some workflowId -> workflowId <> "" ->
  Route.sb_status body = Some status -> status <> "" ->
  mockActiveWorkflows (store w) !! workflowId = Some workflow ->
  exists updated message timestamp w',
    Route.updateWorkflowStatus body w
    = (Normal {| Route.wr_status := 200;
                 Route.wr_payload :=
                   Route.StatusUpdatePayload workflowId (wf_status workflow) status updated
                     message timestamp |}, w')
    /\ mockActiveWorkflows (store w')
       = <[workflowId := updated]> (mockActiveWorkflows (store w))
    /\ mockRecommendations (store w') = mockRecommendations (store w)
    /\ wf_status updated = status
    /\ (wf_id updated, wf_recommendationId updated, wf_aircraftId updated,
        wf_tailNumber updated, wf_maintenanceType updated)
       = (wf_id workflow, wf_recommendationId workflow, wf_aircraftId workflow,
          wf_tailNumber workflow, wf_maintenanceType workflow)
    /\ (tasksCompleted (wf_progress updated), totalTasks (wf_progress updated),
        wf_resources updated, wf_timeline updated)
       = (tasksCompleted (wf_progress workflow), totalTasks (wf_progress workflow),
          wf_resources workflow, wf_timeline workflow)
    /\ (if JSString.includes ["IN_PROGRESS"; "AWAITING_PARTS"; "INSPECTION"; "DELAYED"] status
        then currentTask (wf_progress updated)
             = Route.getCurrentTask status (wf_maintenanceType workflow)
             /\ nextMilestone (wf_progress updated) = Route.getNextMilestone status
        else wf_progress updated = wf_progress workflow)
    /\ (inspector (wf_assignments workflow) <> None ->
        inspector (wf_assignments updated) <> None)
    /\ (status = "INSPECTION" -> inspector (wf_assignments updated) = Some "David Chen").
Proof.
  intros Hid Hne Hst Hsne Hsome.
  unfold Route.updateWorkflowStatus.
  rewrite (bind_normal get _ w w w eq_refl).
  unfold Route.statusOf.
  rewrite Hid, Hst, (truthy_Some _ Hne), (truthy_Some _ Hsne).
  cbn [negb orb JSString.interpolate].
  rewrite Hsome. cbv zeta.
  cbv [bind new_Date Date_now ret modify fst snd].
  eexists _, _, _, _. split; [reflexivity|].
  cbn [store with_env Route.set_workflows with_store mockActiveWorkflows mockRecommendations].
  split; [reflexivity|]. split; [reflexivity|].
  unfold Route.with_update.
  cbn [wf_status wf_id wf_recommendationId wf_aircraftId wf_tailNumber wf_maintenanceType
       wf_progress wf_resources wf_timeline wf_assignments].
  split; [reflexivity|]. split; [reflexivity|].
  unfold JSString.includes. cbn [existsb].
  rewrite !(String.eqb_sym status).
  split; [|split; [|split]].
  - destruct (String.eqb_spec "IN_PROGRESS" status) as [<-|]; [reflexivity|].
    destruct (String.eqb_spec "AWAITING_PARTS" status) as [<-|]; [reflexivity|].
    destruct (String.eqb_spec "INSPECTION" status) as [<-|]; [reflexivity|].
    destruct (String.eqb_spec "DELAYED" status) as [<-|]; reflexivity.
  - destruct (String.eqb_spec "IN_PROGRESS" status) as [<-|]; [cbn; auto|].
    destruct (String.eqb_spec "AWAITING_PARTS" status) as [<-|]; [cbn; auto|].
    destruct (String.eqb_spec "INSPECTION" status) as [<-|]; [cbn; auto|].
    destruct (String.eqb_spec "DELAYED" status) as [<-|]; cbn; auto.
  - destruct (String.eqb_spec "INSPECTION" status); cbn; [discriminate | auto].
  - intros ->. reflexivity.
Qed.

Lemma updateWorkflowStatus_updates_witness :
  mockActiveWorkflows (store Cases.trackedWorld) !! "workflow-rec-1"
  = Some Cases.sampleWorkflow
  /\ exists updated message timestamp w',
       Route.updateWorkflowStatus (Cases.statusBody "workflow-rec-1" "INSPECTION")
         Cases.trackedWorld
       = (Normal {| Route.wr_status := 200;
                    Route.wr_payload :=
                      Route.StatusUpdatePayload "workflow-rec-1" "INITIATED" "INSPECTION"
                        updated message timestamp |}, w')
       /\ currentTask (wf_progress updated) = "Final quality inspection and documentation"
       /\ inspector (wf_assignments updated) = Some "David Chen"
       /\ tasksCompleted (wf_progress updated) = 2%Z.
Proof.
  assert (Hk : mockActiveWorkflows (store Cases.trackedWorld) !! "workflow-rec-1"
               = Some Cases.sampleWorkflow) by (vm_compute; reflexivity).
  split; [exact Hk|].
  destruct (updateWorkflowStatus_updates (Cases.statusBody "workflow-rec-1" "INSPECTION")
              "workflow-rec-1" "INSPECTION" Cases.sampleWorkflow Cases.trackedWorld)
    as (updated & message & timestamp & w' & E & _ & _ & _ & _ & Hkept & Htext & _ & Hinsp);
    try reflexivity; try discriminate; try exact Hk.
  exists updated, message, timestamp, w'. split; [exact E|].
  split; [exact (proj1 Htext)|]. split; [now apply Hinsp|].
  now injection Hkept.
Defined.

(** ** The audit trail *)

Lemma skipn_suffix {A} (n : nat) (l : list A) : exists older, l = older ++ skipn n l.
Proof. exists (firstn n l). symmetry. apply firstn_skipn. Qed.

(** The answer of [GET ?action=audit-trail]: at most 50 entries, the latest
    ones of the trail selected (the whole trail, or its compliance-relevant
    entries when [complianceOnly] is 'true'), in order; [totalEntries]
    counts the selected trail, so with [complianceOnly] it equals
    [complianceEntries] and every entry returned is compliance-relevant.
    The trail itself is not changed. *)
Theorem getAuditTrail_window (complianceOnly : option string) (w : World) :
  let selected :=
    if match complianceOnly with Some v => String.eqb v "true" | None => false end
    then List.filter au_complianceRelevant (auditTrail (agent w))
    else auditTrail (agent w) in
  exists trail total compliance timestamp w',
    Route.getAuditTrail complianceOnly w
    = (Normal {| Route.wr_status := 200;
                 Route.wr_payload :=
                   Route.AuditTrailPayload trail total compliance timestamp |}, w')
    /\ length trail = Nat.min 50 (length selected)
    /\ (exists older, selected = older ++ trail)
    /\ total = length selected
    /\ compliance = length (List.filter au_complianceRelevant (auditTrail (agent w)))
    /\ (compliance <= length (auditTrail (agent w)))%nat
    /\ (complianceOnly = Some "true" ->
        total = compliance /\ Forall (fun e => au_complianceRelevant e = true) trail)
    /\ agent w' = agent w
    /\ store w' = store w.
Proof.
  intros selected. unfold Route.getAuditTrail, Agentic.getAuditTrail.
  cbv [bind get ret new_Date Date_now fst snd]. fold selected.
  eexists _, _, _, _, _. split; [reflexivity|].
  cbn [agent store with_env].
  split; [unfold Route.slice_last; rewrite length_skipn; lia|].
  split; [apply skipn_suffix|]. split; [reflexivity|].
  assert (Hidem : forall l : list AuditTrailEntry,
             List.filter au_complianceRelevant (List.filter au_complianceRelevant l)
             = List.filter au_complianceRelevant l).
  { induction l as [|e l IH]; [reflexivity|]. cbn [List.filter].
    destruct (au_complianceRelevant e) eqn:E; [|exact IH].
    cbn [List.filter]. now rewrite E, IH. }
  assert (Hc : List.filter au_complianceRelevant selected
               = List.filter au_complianceRelevant (auditTrail (agent w))).
  { subst selected. destruct (match complianceOnly with Some _ => _ | None => _ end);
      [apply Hidem | reflexivity]. }
  rewrite Hc. split; [reflexivity|].
  split; [apply List.filter_length_le|].
  split; [|split; reflexivity].
  intros ->. subst selected. cbv beta iota delta [String.eqb Ascii.eqb Bool.eqb].
  split; [reflexivity|].
  apply List.Forall_forall. intros e He. unfold Route.slice_last in He.
  assert (Hin : In e (List.filter au_complianceRelevant (auditTrail (agent w)))).
  { rewrite <- (firstn_skipn
                  (length (List.filter au_complianceRelevant (auditTrail (agent w))) - 50)).
    apply in_or_app. now right. }
  now apply filter_In in Hin.
Qed.

(** ** Reminders *)

(** When a queued reminder fires, [sendReminder] appends one entry to the
    audit trail: a REMINDER_SENT by the system that is not compliance
    relevant.  The compliance view of the trail, [getAuditTrail(true)], is
    therefore the same before and after, while the full view has grown by
    that entry; the queue of timers and the store are untouched. *)
Theorem sendReminder_outside_compliance (recommendationId message : string) (w : World) :
  exists entry w',
    Agentic.sendReminder recommendationId message w = (Normal tt, w')
    /\ auditTrail (agent w') = auditTrail (agent w) ++ [entry]
    /\ au_action entry = "REMINDER_SENT"
    /\ au_actorType entry = "SYSTEM"
    /\ au_complianceRelevant entry = false
    /\ fst (Agentic.getAuditTrail true w') = fst (Agentic.getAuditTrail true w)
    /\ fst (Agentic.getAuditTrail false w')
       = Normal (auditTrail (agent w) ++ [entry])
    /\ timers (agent w') = timers (agent w)
    /\ store w' = store w.
Proof.
  unfold Agentic.sendReminder, Agentic.logAuditEntry, Agentic.getAuditTrail.
  cbv [bind ret modify new_Date Date_now Math_random get fst snd].
  eexists _, _. split; [reflexivity|].
  cbn [agent auditTrail timers store with_env with_agent au_action au_actorType
       au_complianceRelevant].
  repeat split.
  rewrite List.filter_app. cbn [List.filter au_complianceRelevant].
  now rewrite app_nil_r.
Qed.

(** An agentic approval queues exactly two reminders for its
    recommendation, the '24-hour' one with a delay of 1000 ms and the
    '2-hour' one with a delay of 2000 ms, after the timers already queued;
    it runs none of them. *)
Theorem approval_queues_two_reminders (recommendationId approvedBy : string)
  (approvalNotes : option string) (w : World) :
  exists result w',
    Agentic.approveRecommendation recommendationId approvedBy approvalNotes w
    = (Normal result, w')
    /\ timers (agent w')
       = timers (agent w)
         ++ [ {| tm_delay := 1000; tm_recommendationId := recommendationId;
                 tm_message := "24-hour reminder: Maintenance scheduled for tomorrow" |};
              {| tm_delay := 2000; tm_recommendationId := recommendationId;
                 tm_message := "2-hour reminder: Maintenance starting soon" |} ]
    /\ Forall (fun e => au_action e <> "REMINDER_SENT")
         (skipn (length (auditTrail (agent w))) (auditTrail (agent w'))).
Proof.
  destruct w as [e pe sl st [tr tm]].
  cbv -[JSString.ofN JSString.substr String.append app Z.add Z.mul Z.of_N skipn length].
  do 2 eexists. split; [reflexivity|].
  cbv [agent timers auditTrail]. split; [now rewrite <- !app_assoc|].
  rewrite <- !app_assoc. rewrite skipn_app, skipn_all, Nat.sub_diag. cbn [app skipn].
  repeat constructor; discriminate.
Qed.

(** ** Assignments and bookings *)

(** [sendNotifications] records, on every assignment and in order, one
    EMAIL notification to the assignee's address, followed by one SMS to
    the assignee's phone exactly when a phone number is given; all are
    marked SENT.  Nothing else of the assignment changes, and nothing is
    handed to the mail transport. *)
Theorem sendNotifications_records (assignments : list TaskAssignment) (w : World) :
  exists notified w',
    Agentic.sendNotifications assignments w = (Normal notified, w')
    /\ Forall2
         (fun a a' =>
            a' = Agentic.with_notificationsSent (as_notificationsSent a') a
            /\ map (fun n => (nt_type n, nt_recipient n, nt_status n))
                 (as_notificationsSent a')
               = ("EMAIL", as_assigneeEmail a, "SENT")
                 :: (if JSString.truthy (as_assigneePhone a)
                     then [("SMS", JSString.interpolate (as_assigneePhone a), "SENT")]
                     else []))
         assignments notified
    /\ store w' = store w /\ agent w' = agent w /\ sendLog w' = sendLog w
    /\ posts (env w') = posts (env w).
Proof.
  revert w. induction assignments as [|a rest IH]; intros w.
  - exists [], w. repeat split. constructor.
  - cbn [Agentic.sendNotifications].
    cbv [bind new_Date Date_now ret fst snd].
    destruct (JSString.truthy (as_assigneePhone a)) eqn:Hphone.
    + match goal with |- context [Agentic.sendNotifications rest ?w1'] =>
        destruct (IH w1') as (notified & w' & E & Hall & S & A & L & P) end.
      cbv [bind new_Date Date_now ret fst snd] in E |- *. rewrite E.
      eexists _, _. split; [reflexivity|].
      split; [constructor; [split; [reflexivity | rewrite Hphone; reflexivity] | exact Hall]|].
      cbn [store agent sendLog env posts with_env] in S, A, L, P. now repeat split.
    + match goal with |- context [Agentic.sendNotifications rest ?w1'] =>
        destruct (IH w1') as (notified & w' & E & Hall & S & A & L & P) end.
      cbv [bind new_Date Date_now ret fst snd] in E |- *. rewrite E.
      eexists _, _. split; [reflexivity|].
      split; [constructor; [split; [reflexivity | rewrite Hphone; reflexivity] | exact Hall]|].
      cbn [store agent sendLog env posts with_env] in S, A, L, P. now repeat split.
Qed.

(** A clock that never runs backwards. *)
Definition monotone_clock (w : World) : Prop :=
  forall n m, (n <= m)%nat -> (clock (env w) n <= clock (env w) m)%N.

(** With a clock that never runs backwards, every interval the workflow
    books is well formed: the calendar event, each of the two resource
    bookings and the work order end at least eight hours after they
    start. *)
Theorem bookings_last_eight_hours (recommendationId approvedBy : string) (w : World) :
  monotone_clock w ->
  (exists event w',
      Agentic.createCalendarEvent recommendationId w = (Normal event, w')
      /\ (ce_start event + Agentic.hours 8 <= ce_end event)%Z)
  /\ (exists bookings w',
        Agentic.bookResources recommendationId w = (Normal bookings, w')
        /\ length bookings = 2%nat
        /\ Forall (fun b => (rb_bookedFrom b + Agentic.hours 8 <= rb_bookedUntil b)%Z)
             bookings)
  /\ (exists workOrder w',
        Agentic.createWorkOrder recommendationId approvedBy w = (Normal workOrder, w')
        /\ (wo_scheduledStart workOrder + Agentic.hours 8
            <= wo_estimatedCompletion workOrder)%Z).
Proof.
  intros Hclock. unfold monotone_clock in Hclock.
  destruct w as [[ck tk rd dr tr ps lm] pe sl st ag]. cbn [env clock] in Hclock.
  assert (Hle : forall n m, (n <= m)%nat ->
                  (Z.of_N (ck n) + Agentic.hours 24 + Agentic.hours 8
                   <= Z.of_N (ck m) + Agentic.hours 32)%Z).
  { intros n m Hnm. specialize (Hclock n m Hnm). unfold Agentic.hours. lia. }
  unfold Agentic.createCalendarEvent, Agentic.bookResources, Agentic.createWorkOrder.
  cbv [bind new_Date Date_now ret fst snd env with_env clock ticks random draws transport
       posts localMonth].
  split; [|split].
  - eexists _, _. split; [reflexivity|]. cbn [ce_start ce_end]. apply Hle. lia.
  - eexists _, _. split; [reflexivity|]. split; [reflexivity|].
    repeat constructor; cbn [rb_bookedFrom rb_bookedUntil]; apply Hle; lia.
  - eexists _, _. split; [reflexivity|].
    cbn [wo_scheduledStart wo_estimatedCompletion]. apply Hle. lia.
Qed.

Lemma steady_clock_monotone : monotone_clock Scenario.emptyWorld.
Proof. intros n m Hnm. cbn. lia. Qed.

Lemma bookings_last_eight_hours_witness :
  monotone_clock Scenario.emptyWorld
  /\ (exists event w',
         Agentic.createCalendarEvent "rec-1" Scenario.emptyWorld = (Normal event, w')
         /\ (ce_start event + Agentic.hours 8 <= ce_end event)%Z)
  /\ (exists bookings w',
        Agentic.bookResources "rec-1" Scenario.emptyWorld = (Normal bookings, w')
        /\ length bookings = 2%nat
        /\ Forall (fun b => (rb_bookedFrom b + Agentic.hours 8 <= rb_bookedUntil b)%Z)
             bookings)
  /\ (exists workOrder w',
        Agentic.createWorkOrder "rec-1" "ops" Scenario.emptyWorld = (Normal workOrder, w')
        /\ (wo_scheduledStart workOrder + Agentic.hours 8
            <= wo_estimatedCompletion workOrder)%Z).
Proof.
  split; [exact steady_clock_monotone|].
  apply (bookings_last_eight_hours "rec-1" "ops" Scenario.emptyWorld).
  exact steady_clock_monotone.
Defined.

(** ** What the materializer draws *)

Lemma floor_draw (x : Q) (n : Z) :
  (0 < n)%Z -> (0 <= x /\ x < 1)%Q ->
  (0 <= JSNum.Math_floor (x * inject_Z n) < n)%Z.
Proof.
  intros Hn [Hlo Hhi]. unfold JSNum.Math_floor. split.
  - change 0%Z with (Qfloor 0). apply Qfloor_resp_le.
    apply Qmult_le_0_compat; [exact Hlo|]. change 0%Q with (inject_Z 0).
    rewrite <- Zle_Qle. lia.
  - rewrite Zlt_Qlt. eapply Qle_lt_trans; [apply Qfloor_le|].
    rewrite <- (Qmult_1_l (inject_Z n)) at 2. apply Qmult_lt_compat_r; [|exact Hhi].
    change 0%Q with (inject_Z 0). rewrite <- Zlt_Qlt. exact Hn.
Qed.

Lemma trunc_le (x : Q) (b : Z) : (x <= inject_Z b)%Q -> (JSNum.trunc x <= b)%Z.
Proof.
  intros H. unfold JSNum.trunc. destruct (Qle_bool 0 x).
  - rewrite <- (Qfloor_Z b). now apply Qfloor_resp_le.
  - rewrite <- (Qceiling_Z b). now apply Qceiling_resp_le.
Qed.

Lemma trunc_ge (x : Q) (a : Z) : (inject_Z a <= x)%Q -> (a <= JSNum.trunc x)%Z.
Proof.
  intros H. unfold JSNum.trunc. destruct (Qle_bool 0 x).
  - rewrite <- (Qfloor_Z a). now apply Qfloor_resp_le.
  - rewrite <- (Qceiling_Z a). now apply Qceiling_resp_le.
Qed.

(** With [Math.random()] in [0, 1), a materialized workflow has between 2
    and 9 tasks completed and between 3 and 7 remaining, so it is never
    shown as finished; its parts are the first one, two or three of the
    four parts of the list; its escalation level is 0, 1 or 2. *)
Theorem createWorkflow_ranges (rec : MaintenanceRecommendation) (index : nat) (w : World) :
  unit_draws w ->
  exists wf w',
    Route.createWorkflowFromRecommendation rec index w = (Normal wf, w')
    /\ (2 <= tasksCompleted (wf_progress wf) <= 9)%Z
    /\ (3 <= totalTasks (wf_progress wf) - tasksCompleted (wf_progress wf) <= 7)%Z
    /\ (exists n, (1 <= n <= 3)%nat
                  /\ res_parts (wf_resources wf)
                     = firstn n ["Oil Filter"; "Spark Plugs"; "Brake Pads"; "Hydraulic Fluid"])
    /\ (0 <= escalationLevel (wf_notifications wf) <= 2)%Z.
Proof.
  intros Hdraws. destruct w as [[ck tk rd dr tr ps lm] pe sl st ag].
  unfold unit_draws in Hdraws. cbn [env random] in Hdraws.
  unfold Route.createWorkflowFromRecommendation. run_monad.
  eexists _, _. split; [reflexivity|].
  cbn [wf_progress wf_resources wf_notifications tasksCompleted totalTasks res_parts
       escalationLevel].
  pose proof (floor_draw (value (rd dr)) 8 eq_refl (Hdraws dr)) as H1.
  pose proof (floor_draw (value (rd (S dr))) 5 eq_refl (Hdraws (S dr))) as H2.
  pose proof (floor_draw (value (rd (S (S (S dr))))) 3 eq_refl (Hdraws _)) as H4.
  pose proof (floor_draw (value (rd (S (S (S (S (S (S (S dr))))))))) 3 eq_refl (Hdraws _))
    as H8.
  change (inject_Z 8) with 8%Q in H1. change (inject_Z 5) with 5%Q in H2.
  change (inject_Z 3) with 3%Q in H4, H8.
  split; [lia|]. split; [lia|]. split; [|lia].
  unfold Route.slice0.
  set (k := JSNum.Math_floor (value (rd (S (S (S dr)))) * 3)) in *.
  destruct (Z.ltb_spec (k + 1) 0); [lia|].
  exists (Z.to_nat (k + 1)). split; [lia | reflexivity].
Qed.

Lemma steady_draws : unit_draws Scenario.emptyWorld.
Proof. intros n. split; [discriminate | reflexivity]. Qed.

Lemma createWorkflow_ranges_witness :
  unit_draws Scenario.emptyWorld
  /\ exists wf w',
       Route.createWorkflowFromRecommendation Scenario.strayRecommendation 3
         Scenario.emptyWorld = (Normal wf, w')
       /\ (2 <= tasksCompleted (wf_progress wf) <= 9)%Z
       /\ (3 <= totalTasks (wf_progress wf) - tasksCompleted (wf_progress wf) <= 7)%Z
       /\ (exists n, (1 <= n <= 3)%nat
                     /\ res_parts (wf_resources wf)
                        = firstn n ["Oil Filter"; "Spark Plugs"; "Brake Pads";
                                    "Hydraulic Fluid"])
       /\ (0 <= escalationLevel (wf_notifications wf) <= 2)%Z.
Proof.
  split; [exact steady_draws|].
  apply (createWorkflow_ranges Scenario.strayRecommendation 3 Scenario.emptyWorld).
  exact steady_draws.
Defined.

(** The status of a materialized workflow is one of INITIATED,
    IN_PROGRESS, AWAITING_PARTS, INSPECTION and DELAYED, chosen by the
    index modulo 5: never COMPLETED.  The inspector is assigned exactly
    when the status is INSPECTION.  The current task and the next
    milestone are the texts of that status: the fallbacks 'Unknown task'
    and 'Continue work' are never written, and neither is the fallback
    bay or mechanic. *)
Theorem createWorkflow_status (rec : MaintenanceRecommendation) (index : nat) (w : World) :
  exists wf w',
    Route.createWorkflowFromRecommendation rec index w = (Normal wf, w')
    /\ nth_error ["INITIATED"; "IN_PROGRESS"; "AWAITING_PARTS"; "INSPECTION"; "DELAYED"]
         (index mod 5) = Some (wf_status wf)
    /\ (inspector (wf_assignments wf) = Some "David Chen" <-> wf_status wf = "INSPECTION")
    /\ (inspector (wf_assignments wf) = None <-> wf_status wf <> "INSPECTION")
    /\ currentTask (wf_progress wf) <> "Unknown task"
    /\ nextMilestone (wf_progress wf) <> "Continue work"
    /\ In (mechanic (wf_assignments wf)) ["John Smith"; "Mike Wilson"; "Sarah Rodriguez"].
Proof.
  destruct w as [[ck tk rd dr tr ps lm] pe sl st ag].
  unfold Route.createWorkflowFromRecommendation. run_monad.
  eexists _, _. split; [reflexivity|].
  cbn [wf_status wf_assignments wf_progress inspector mechanic currentTask nextMilestone
       length].
  assert (H5 : (index mod 5 < 5)%nat) by (apply Nat.mod_upper_bound; discriminate).
  assert (H3 : (index mod 3 < 3)%nat) by (apply Nat.mod_upper_bound; discriminate).
  destruct (index mod 5) as [|[|[|[|[|k]]]]]; try lia;
    destruct (index mod 3) as [|[|[|j]]]; try lia;
    cbn; (split; [reflexivity|]);
    (split; [split; congruence|]); (split; [split; congruence|]);
    (split; [|split]); try discriminate; auto.
Qed.

(** [new Date(now - r * span)] for a draw [r] of [0, 1): not after [now],
    and at most [span] before it. *)
Lemma Date_minus_draw (now span : Z) (r : Q) :
  (0 <= span)%Z -> (0 <= r /\ r < 1)%Q ->
  (now - span <= Date_of (inject_Z now - r * inject_Z span) <= now)%Z.
Proof.
  intros Hspan [Hlo Hhi]. unfold Date_of.
  assert (H0 : (0 <= inject_Z span)%Q) by (change 0%Q with (inject_Z 0); now rewrite <- Zle_Qle).
  assert (Hr : (0 <= r * inject_Z span /\ r * inject_Z span <= inject_Z span)%Q).
  { split; [now apply Qmult_le_0_compat|].
    rewrite <- (Qmult_1_l (inject_Z span)) at 2.
    apply Qmult_le_compat_r; [now apply Qlt_le_weak | exact H0]. }
  destruct Hr as [Hr0 Hr1]. split.
  - apply trunc_ge. unfold Z.sub. rewrite inject_Z_plus, inject_Z_opp.
    unfold Qminus. apply Qplus_le_r. now apply Qopp_le_compat.
  - apply trunc_le. rewrite <- (Qplus_0_r (inject_Z now)) at 2.
    unfold Qminus. apply Qplus_le_r. change 0%Q with (- 0)%Q. now apply Qopp_le_compat.
Qed.

(** [new Date(now + r * span)]: not before [now], at most [span] after. *)
Lemma Date_plus_draw (now span : Z) (r : Q) :
  (0 <= span)%Z -> (0 <= r /\ r < 1)%Q ->
  (now <= Date_of (inject_Z now + r * inject_Z span) <= now + span)%Z.
Proof.
  intros Hspan [Hlo Hhi]. unfold Date_of.
  assert (H0 : (0 <= inject_Z span)%Q) by (change 0%Q with (inject_Z 0); now rewrite <- Zle_Qle).
  assert (Hr : (0 <= r * inject_Z span /\ r * inject_Z span <= inject_Z span)%Q).
  { split; [now apply Qmult_le_0_compat|].
    rewrite <- (Qmult_1_l (inject_Z span)) at 2.
    apply Qmult_le_compat_r; [now apply Qlt_le_weak | exact H0]. }
  destruct Hr as [Hr0 Hr1]. split.
  - apply trunc_ge. rewrite <- (Qplus_0_r (inject_Z now)) at 1. now apply Qplus_le_r.
  - apply trunc_le. rewrite inject_Z_plus. now apply Qplus_le_r.
Qed.

(** With [Math.random()] in [0, 1) and a clock that never runs backwards,
    the dates of a materialized workflow are ordered: it started at most
    three days before it was created and not after its estimated
    completion, which lies at most seven days ahead; the last notification
    was sent at most six hours before, and the next reminder is due after
    it. *)
Theorem createWorkflow_timeline (rec : MaintenanceRecommendation) (index : nat) (w : World) :
  unit_draws w -> monotone_clock w ->
  exists wf w',
    Route.createWorkflowFromRecommendation rec index w = (Normal wf, w')
    /\ (started (wf_timeline wf) <= tl_estimatedCompletion (wf_timeline wf))%Z
    /\ (Z.of_N (clock (env w) (ticks (env w))) - Route.days 3
        <= started (wf_timeline wf))%Z
    /\ (tl_estimatedCompletion (wf_timeline wf)
        <= Z.of_N (clock (env w') (ticks (env w'))) + Route.days 7)%Z
    /\ (lastSent (wf_notifications wf) < nextReminder (wf_notifications wf))%Z.
Proof.
  intros Hdraws Hclock. destruct w as [[ck tk rd dr tr ps lm] pe sl st ag].
  unfold unit_draws in Hdraws. unfold monotone_clock in Hclock.
  cbn [env random clock] in Hdraws, Hclock.
  unfold Route.createWorkflowFromRecommendation. run_monad.
  eexists _, _. split; [reflexivity|].
  cbn [wf_timeline wf_notifications started tl_estimatedCompletion lastSent nextReminder].
  pose proof (Date_minus_draw (Z.of_N (ck (S tk))) (Route.days 3) _ ltac:(discriminate)
                (Hdraws (S (S (S (S dr)))))) as Hstart.
  pose proof (Date_plus_draw (Z.of_N (ck (S (S tk)))) (Route.days 7) _ ltac:(discriminate)
                (Hdraws (S (S (S (S (S dr))))))) as Hend.
  pose proof (Date_minus_draw (Z.of_N (ck (S (S (S tk))))) (Route.hours 6) _
                ltac:(discriminate) (Hdraws (S (S (S (S (S (S dr)))))))) as Hsent.
  pose proof (Hclock tk (S tk) ltac:(lia)).
  pose proof (Hclock (S tk) (S (S tk)) ltac:(lia)).
  pose proof (Hclock (S (S tk)) (S (S (S tk))) ltac:(lia)).
  pose proof (Hclock (S (S (S tk))) (S (S (S (S tk)))) ltac:(lia)).
  pose proof (Hclock (S (S tk)) (S (S (S (S (S tk))))) ltac:(lia)).
  assert (0 < Route.hours 4)%Z by reflexivity.
  assert (0 <= Route.days 3)%Z by discriminate.
  repeat split; lia.
Qed.

Lemma createWorkflow_timeline_witness :
  unit_draws Scenario.emptyWorld /\ monotone_clock Scenario.emptyWorld
  /\ exists wf w',
       Route.createWorkflowFromRecommendation Scenario.strayRecommendation 0
         Scenario.emptyWorld = (Normal wf, w')
       /\ (started (wf_timeline wf) <= tl_estimatedCompletion (wf_timeline wf))%Z
       /\ (lastSent (wf_notifications wf) < nextReminder (wf_notifications wf))%Z.
Proof.
  assert (Hd : unit_draws Scenario.emptyWorld) by (intros n; split; [discriminate | reflexivity]).
  split; [exact Hd|]. split; [exact steady_clock_monotone|].
  destruct (createWorkflow_timeline Scenario.strayRecommendation 0 Scenario.emptyWorld
              Hd steady_clock_monotone) as (wf & w' & E & H1 & _ & _ & H4).
  exists wf, w'. split; [exact E|]. split; [exact H1 | exact H4].
Defined.

(** ** Reading the recommendations *)

(** On a store that already holds recommendations, [GET
    ?action=ai-recommendations] changes nothing and draws no random
    number; it answers with exactly the stored recommendations that match
    the filters given: the tail number, when one is given, and the status,
    when one is given. *)
Theorem getAIRecommendations_filters (tailNumber status : option string) (w : World) :
  mockRecommendations (store w) <> [] ->
  exists recs total pending activeCount timestamp w',
    Route.getAIRecommendations tailNumber status w
    = (Normal (Route.json 200
                 (Route.RecommendationsPayload recs total pending activeCount timestamp)),
       w')
    /\ store w' = store w
    /\ draws (env w') = draws (env w)
    /\ (forall r, In r recs <->
          In r (mockRecommendations (store w))
          /\ (JSString.truthy tailNumber = true -> Some (rec_tailNumber r) = tailNumber)
          /\ (JSString.truthy status = true
              -> Some (RecStatus_name (rec_status r)) = status)).
Proof.
  intros Hne. destruct w as [[ck tk rd dr tr ps lm] pe sl [recs wfs] ag].
  cbn [store mockRecommendations] in Hne. destruct recs as [|r0 recs]; [contradiction|].
  unfold Route.getAIRecommendations. run_monad. cbn [mockRecommendations length Nat.eqb].
  eexists _, _, _, _, _, _. split; [reflexivity|].
  split; [reflexivity|]. split; [reflexivity|].
  intros r. unfold Route.is_status.
  destruct tailNumber as [t|], status as [s|]; cbn [JSString.truthy JSString.interpolate];
    repeat match goal with
      | |- context [negb (String.eqb ?a "")] => destruct (String.eqb a "")
      end;
    cbn [negb]; rewrite ?filter_In;
    repeat match goal with
      | |- context [String.eqb ?a ?b = true] => rewrite (String.eqb_eq a b)
      end;
    intuition (try discriminate; try congruence).
Qed.

Lemma getAIRecommendations_filters_witness :
  mockRecommendations (store Scenario.seededWorld) <> []
  /\ exists recs total pending activeCount timestamp w',
       Route.getAIRecommendations (Some "N456CD") (Some "PENDING") Scenario.seededWorld
       = (Normal (Route.json 200
                    (Route.RecommendationsPayload recs total pending activeCount timestamp)),
          w')
       /\ store w' = store Scenario.seededWorld
       /\ map rec_id recs = ["baseline-n456cd-100hour"; "baseline-n456cd-annual"].
Proof.
  assert (Hne : mockRecommendations (store Scenario.seededWorld) <> []) by discriminate.
  split; [exact Hne|].
  destruct (getAIRecommendations_filters (Some "N456CD") (Some "PENDING")
              Scenario.seededWorld Hne)
    as (recs & total & pending & activeCount & timestamp & w' & E & Hs & _).
  exists recs, total, pending, activeCount, timestamp, w'.
  split; [exact E|]. split; [exact Hs|].
  vm_compute in E. injection E as <- _. reflexivity.
Defined.

(** ** The service as a whole *)

Lemma safe_weaken {A} (Inv : World -> Prop) (m : M A) (P Q : A -> Prop) :
  safe Inv m P -> (forall a, P a -> Q a) -> safe Inv m Q.
Proof.
  intros Hm HPQ w Hw. destruct (Hm w Hw) as (c & w' & E & Hw' & Hc).
  exists c, w'. split; [exact E|]. split; [exact Hw'|].
  destruct c; [now apply HPQ | exact I].
Qed.

(** [processAIRecommendations] builds one recommendation per element of
    the answer's [recommendations] array, when it returns. *)
Lemma processAIRecommendations_length StringToNumber ArrayToString
  (aiResult : OpenAIService.Value) :
  safe unit_draws
    (OpenAIService.processAIRecommendations StringToNumber ArrayToString aiResult)
    (fun l => exists elements,
                read aiResult "recommendations" = OpenAIService.JArray elements
                /\ length l = length elements).
Proof.
  unfold OpenAIService.processAIRecommendations.
  eapply safe_bind; [apply safe_prop|]. intros recommendations ->.
  destruct (read aiResult "recommendations") as [| | | | |elements|]; try apply safe_throw.
  eapply safe_weaken.
  - apply (mapM_safe _ (fun _ _ => True)). intros rec.
    eapply safe_weaken; [apply (processOne_safe StringToNumber ArrayToString)|]. auto.
  - intros l Hl. exists elements. split; [reflexivity|].
    symmetry. eapply Forall2_length. exact Hl.
Qed.

(** With [Math.random()] in [0, 1), the service never throws, whatever
    the model's call completes with: every failure of the call, of the
    parsing or of the processing of the answer ends in the demo
    generator's list.  A list built from the model's answer is returned
    only when an API key other than 'demo-mode' is set and the call
    completed with an answer whose [recommendations] is an array, and it
    then has one recommendation per element of that array. *)
Theorem generateMaintenanceRecommendations_never_throws StringToNumber ArrayToString
  (answer : Completion OpenAIService.Value)
  (inputs : list OpenAIService.MaintenanceRecommendationInput) (w : World) :
  unit_draws w ->
  exists g w',
    OpenAIService.generateMaintenanceRecommendations StringToNumber ArrayToString answer
      inputs w = (Normal g, w')
    /\ match g with
       | OpenAIService.FromDemo l => True
       | OpenAIService.FromModel l =>
           exists key aiResult elements,
             getenv "OPENAI_API_KEY" w = Some key /\ key <> "demo-mode"
             /\ answer = Normal aiResult
             /\ read aiResult "recommendations" = OpenAIService.JArray elements
             /\ length l = length elements
       end.
Proof.
  intros Hw. unfold OpenAIService.generateMaintenanceRecommendations.
  rewrite (bind_normal get _ w w w eq_refl).
  assert (Hdemo : total unit_draws
                    (bind (OpenAIService.generateEnhancedDemoRecommendations inputs)
                       (fun l => ret (OpenAIService.FromDemo l)))
                    (fun g => match g with
                              | OpenAIService.FromDemo _ => True
                              | OpenAIService.FromModel _ => False
                              end)).
  { eapply total_bind; [apply generateEnhancedDemoRecommendations_total|].
    intros l _. now apply total_ret. }
  destruct (getenv "OPENAI_API_KEY" w) as [key|] eqn:Hkey.
  2:{ destruct (Hdemo w Hw) as ([l|l] & w' & E & _ & Hg); [|contradiction].
      now exists (OpenAIService.FromDemo l), w'. }
  destruct (String.eqb_spec key "demo-mode") as [->|Hkeyne].
  { destruct (Hdemo w Hw) as ([l|l] & w' & E & _ & Hg); [|contradiction].
    now exists (OpenAIService.FromDemo l), w'. }
  assert (Hmodel : total unit_draws
            (try_catch
               (bind new_Date (fun promptDate =>
                bind (await answer) (fun aiResult =>
                bind (OpenAIService.processAIRecommendations StringToNumber ArrayToString
                        aiResult)
                  (fun l => ret (OpenAIService.FromModel l)))))
               (fun message =>
                  bind (OpenAIService.generateEnhancedDemoRecommendations inputs)
                    (fun l => ret (OpenAIService.FromDemo l))))
            (fun g => match g with
                      | OpenAIService.FromDemo _ => True
                      | OpenAIService.FromModel l =>
                          exists aiResult elements,
                            answer = Normal aiResult
                            /\ read aiResult "recommendations"
                               = OpenAIService.JArray elements
                            /\ length l = length elements
                      end)).
  { apply total_try_catch.
    - eapply safe_bind; [apply total_safe, total_new_Date|]. intros promptDate _.
      eapply safe_bind; [apply (safe_await _ _ (fun ai => answer = Normal ai)); auto|].
      intros aiResult Hai.
      eapply safe_bind; [apply processAIRecommendations_length|].
      intros l (elements & Hread & Hlen). apply total_safe, total_ret.
      now exists aiResult, elements.
    - intros message. eapply total_weaken; [apply Hdemo|]. now intros [l|l]. }
  destruct (Hmodel w Hw) as (g & w' & E & _ & Hg). exists g, w'. split; [exact E|].
  destruct g as [l|l]; [exact I|]. destruct Hg as (aiResult & elements & Ha & Hr & Hl).
  now exists key, aiResult, elements.
Qed.

Lemma generateMaintenanceRecommendations_never_throws_witness :
  unit_draws Scenario.keyedWorld
  /\ exists l w',
       OpenAIService.generateMaintenanceRecommendations Scenario.noNumericString
         Scenario.emptyJoin (Throw "429 Too Many Requests") [] Scenario.keyedWorld
       = (Normal (OpenAIService.FromDemo l), w').
Proof.
  assert (Hw : unit_draws Scenario.keyedWorld)
    by (intros n; split; [discriminate | reflexivity]).
  split; [exact Hw|].
  destruct (generateMaintenanceRecommendations_never_throws Scenario.noNumericString
              Scenario.emptyJoin (Throw "429 Too Many Requests") [] Scenario.keyedWorld Hw)
    as ([l|l] & w' & E & Hg).
  - now exists l, w'.
  - destruct Hg as (key & aiResult & elements & _ & _ & Habs & _). discriminate Habs.
Defined.

(** ** The demo generator's output *)

(** The number of recommendations generated for one aircraft. *)
Definition recCount (input : OpenAIService.MaintenanceRecommendationInput) : nat :=
  Z.to_nat
    (Z.min 4
       (Z.max 2
          (JSNum.Math_floor
             (OpenAIService.utilizationPercentage (OpenAIService.utilizationData input)
              / 25)))).

Lemma recCount_bounds input : (2 <= recCount input <= 4)%nat.
Proof. unfold recCount. lia. Qed.

Definition tailOf (input : OpenAIService.MaintenanceRecommendationInput) : string :=
  OpenAIService.ad_tailNumber (OpenAIService.aircraftData input).

Lemma recommend_tails (n : nat) :
  forall i input scheduleDemand seasonalData currentSeason isPeak maintenanceWindow,
    total unit_draws
      (OpenAIService.recommend n i input scheduleDemand seasonalData currentSeason isPeak
         maintenanceWindow)
      (fun l => map OpenAIService.ar_tailNumber l = repeat (tailOf input) n
                /\ Forall (fun r => OpenAIService.ar_riskFactors r <> []) l).
Proof.
  induction n as [|n IH]; intros i input scheduleDemand seasonalData currentSeason isPeak
                                 maintenanceWindow; cbn [OpenAIService.recommend].
  - apply total_ret. split; [reflexivity | constructor].
  - cbv zeta. eapply total_bind; [apply total_Math_random|]. intros pick Hpick.
    eapply total_bind; [apply total_Math_random|]. intros noise _.
    eapply total_bind; [apply total_Date_now|]. intros now _.
    destruct (floor_index (value pick) Hpick) as [type ->].
    eapply total_bind; [apply IH|]. intros rest [Hrest Hrisk].
    apply total_ret. cbn [map OpenAIService.ar_tailNumber repeat]. split.
    + now rewrite Hrest.
    + constructor; [|exact Hrisk]. cbn [OpenAIService.ar_riskFactors].
      unfold OpenAIService.getEnhancedRiskFactors. cbv zeta.
      match goal with |- (if Nat.ltb 0 (length ?f) then _ else _) <> [] =>
        destruct f; cbn; discriminate end.
Qed.

Lemma forInput_tails currentSeason isPeak maintenanceWindow input :
  total unit_draws
    (OpenAIService.forInput currentSeason isPeak maintenanceWindow input)
    (fun l => map OpenAIService.ar_tailNumber l = repeat (tailOf input) (recCount input)
              /\ Forall (fun r => OpenAIService.ar_riskFactors r <> []) l).
Proof.
  unfold OpenAIService.forInput. cbv zeta.
  eapply total_bind with (P := fun _ => True).
  - destruct (OpenAIService.scheduleDemandData input).
    + now apply total_ret.
    + eapply total_bind; [apply total_Math_random|]. intros r _. now apply total_ret.
  - intros scheduleDemand _. apply recommend_tails.
Qed.

Lemma flatMapM_total_map {A B C} (f : A -> M (list B)) (g : B -> C) (h : A -> list C)
  (P : B -> Prop) (l : list A) :
  (forall a, total unit_draws (f a) (fun bs => map g bs = h a /\ Forall P bs)) ->
  total unit_draws (flatMapM f l)
    (fun bs => map g bs = flat_map h l /\ Forall P bs).
Proof.
  intros Hf. induction l as [|a l IH]; cbn [flatMapM flat_map].
  - apply total_ret. split; [reflexivity | constructor].
  - eapply total_bind; [apply Hf|]. intros bs [Hbs Pbs].
    eapply total_bind; [apply IH|]. intros rest [Hrest Prest].
    apply total_ret. split; [now rewrite map_app, Hbs, Hrest | apply Forall_app; now split].
Qed.

Lemma length_flat_map_repeat {A B} (t : A -> B) (c : A -> nat) (l : list A) :
  length (flat_map (fun a => repeat (t a) (c a)) l) = list_sum (map c l).
Proof.
  induction l as [|a l IH]; [reflexivity|].
  cbn [flat_map map list_sum fold_right]. rewrite length_app, repeat_length, IH.
  reflexivity.
Qed.

Lemma list_sum_bounds {A} (c : A -> nat) (lo hi : nat) (l : list A) :
  (forall a, lo <= c a <= hi)%nat ->
  (lo * length l <= list_sum (map c l) <= hi * length l)%nat.
Proof.
  intros H. induction l as [|a l IH]; cbn [map list_sum fold_right length]; [lia|].
  specialize (H a). rewrite !Nat.mul_succ_r. unfold list_sum in IH. lia.
Qed.

(** With [Math.random()] in [0, 1), the demo generator returns, for the
    aircraft of its input in order, between two and four recommendations
    each (the utilization percentage divided by 25 and rounded down, kept
    within 2 and 4), cut to the first 15; each carries the tail number of
    its aircraft and at least one risk factor.  No input gives an empty
    list. *)
Theorem demo_recommendations_per_aircraft
  (inputs : list OpenAIService.MaintenanceRecommendationInput) (w : World) :
  unit_draws w ->
  exists l w',
    OpenAIService.generateEnhancedDemoRecommendations inputs w = (Normal l, w')
    /\ map OpenAIService.ar_tailNumber l
       = firstn 15 (flat_map (fun input => repeat (tailOf input) (recCount input)) inputs)
    /\ length l = Nat.min 15 (list_sum (map recCount inputs))
    /\ (Nat.min 15 (2 * length inputs) <= length l <= Nat.min 15 (4 * length inputs))%nat
    /\ Forall (fun r => OpenAIService.ar_riskFactors r <> []) l.
Proof.
  intros Hw.
  assert (H : total unit_draws
                (OpenAIService.generateEnhancedDemoRecommendations inputs)
                (fun l => map OpenAIService.ar_tailNumber l
                          = firstn 15 (flat_map (fun input => repeat (tailOf input)
                                                                (recCount input)) inputs)
                          /\ Forall (fun r => OpenAIService.ar_riskFactors r <> []) l)).
  { unfold OpenAIService.generateEnhancedDemoRecommendations.
    eapply total_bind; [apply total_new_Date|]. intros currentDate _.
    eapply total_bind; [apply total_get|]. intros w0 _. cbv zeta.
    eapply total_bind.
    - apply (flatMapM_total_map _ OpenAIService.ar_tailNumber
               (fun input => repeat (tailOf input) (recCount input))).
      intros input. apply forInput_tails.
    - intros recommendations [Hmap Hall]. apply total_ret.
      split; [now rewrite <- Hmap, <- firstn_map | now apply Forall_firstn_of]. }
  destruct (H w Hw) as (l & w' & E & _ & Hmap & Hall).
  exists l, w'. split; [exact E|]. split; [exact Hmap|].
  assert (Hlen : length l = Nat.min 15 (list_sum (map recCount inputs))).
  { rewrite <- (length_map OpenAIService.ar_tailNumber), Hmap, length_firstn.
    now rewrite length_flat_map_repeat. }
  split; [exact Hlen|]. split; [|exact Hall].
  rewrite Hlen. pose proof (list_sum_bounds recCount 2 4 inputs recCount_bounds). lia.
Qed.

Lemma demo_recommendations_per_aircraft_witness :
  unit_draws Scenario.emptyWorld
  /\ exists l w',
       OpenAIService.generateEnhancedDemoRecommendations [Cases.busyAircraft]
         Scenario.emptyWorld = (Normal l, w')
       /\ map OpenAIService.ar_tailNumber l = ["N123AB"; "N123AB"; "N123AB"]
       /\ Forall (fun r => OpenAIService.ar_riskFactors r <> []) l.
Proof.
  assert (Hw : unit_draws Scenario.emptyWorld)
    by (intros n; split; [discriminate | reflexivity]).
  split; [exact Hw|].
  destruct (demo_recommendations_per_aircraft [Cases.busyAircraft] Scenario.emptyWorld Hw)
    as (l & w' & E & Hmap & _ & _ & Hrisk).
  exists l, w'. split; [exact E|]. split; [exact Hmap | exact Hrisk].
Defined.

(** ** Seasons *)

(** For every month number: a peak-season month never has an EXCELLENT or
    GOOD maintenance window, and an off-peak month never a LIMITED or POOR
    one; every summer month (5 to 7) is peak season; the window is LIMITED
    only in months 6 and 7. *)
Theorem peak_season_windows (month : Z) :
  (OpenAIService.isPeakSeason month = true ->
   OpenAIService.getMaintenanceWindowOpportunity month = "LIMITED"
   \/ OpenAIService.getMaintenanceWindowOpportunity month = "POOR")
  /\ (OpenAIService.isPeakSeason month = false ->
      OpenAIService.getMaintenanceWindowOpportunity month = "EXCELLENT"
      \/ OpenAIService.getMaintenanceWindowOpportunity month = "GOOD")
  /\ (OpenAIService.getCurrentSeason month = "SUMMER" ->
      OpenAIService.isPeakSeason month = true)
  /\ (OpenAIService.getMaintenanceWindowOpportunity month = "LIMITED" ->
      month = 6%Z \/ month = 7%Z)
  /\ (OpenAIService.getCurrentSeason month = "SUMMER" <-> (5 <= month <= 7)%Z).
Proof.
  unfold OpenAIService.getMaintenanceWindowOpportunity, OpenAIService.isPeakSeason,
    OpenAIService.getCurrentSeason. cbv zeta.
  repeat match goal with
    | |- context [Z.leb ?a ?b] => destruct (Z.leb_spec a b); try (exfalso; lia)
    | |- context [Z.eqb ?a ?b] => destruct (Z.eqb_spec a b); try (exfalso; lia)
    end;
    cbn [andb orb negb];
    repeat split; intros; try discriminate; try lia; auto.
Qed.

(** ** What a returned value satisfies *)

(** [whenever m P]: every value [m] returns normally satisfies [P]. *)
Definition whenever {A} (m : M A) (P : A -> Prop) : Prop :=
  forall w a w', m w = (Normal a, w') -> P a.

Lemma whenever_any {A} (m : M A) : whenever m (fun _ => True).
Proof. now intros w a w' _. Qed.

Lemma whenever_ret {A} (a : A) (P : A -> Prop) : P a -> whenever (ret a) P.
Proof. intros Pa w a' w' [= <- _]. exact Pa. Qed.

Lemma whenever_bind {A B} (m : M A) (k : A -> M B) (P : A -> Prop) (Q : B -> Prop) :
  whenever m P -> (forall a, P a -> whenever (k a) Q) -> whenever (bind m k) Q.
Proof.
  intros Hm Hk w b w' E. unfold bind in E.
  destruct (m w) as [[a|e] w1] eqn:E1; [|discriminate].
  exact (Hk a (Hm w a w1 E1) w1 b w' E).
Qed.

Lemma whenever_prop (v : OpenAIService.Value) (k : string) :
  whenever (OpenAIService.prop v k) (fun a => a = read v k).
Proof.
  intros w a w' E. destruct v; cbn in E; try discriminate;
    injection E as <- _; reflexivity.
Qed.

(** A numeric confidence of the model's answer is clamped to [50, 95],
    except that 0 counts as missing and becomes 75, as a missing or null
    confidence does: the result is not monotone at 0. *)
Theorem numeric_confidence_is_clamped StringToNumber ArrayToString
  (rec : OpenAIService.Value) (w w' : World) (r : OpenAIService.ProcessedRecommendation) :
  OpenAIService.processOne StringToNumber ArrayToString rec w = (Normal r, w') ->
  (forall q, read rec "confidence" = OpenAIService.JNumber (OpenAIService.Finite q) ->
     OpenAIService.pr_confidence r
     = OpenAIService.Finite
         (if Qeq_bool q 0 then 75 else JSNum.Math_max 50 (JSNum.Math_min 95 q)))
  /\ (read rec "confidence" = OpenAIService.JUndefined
      \/ read rec "confidence" = OpenAIService.JNull ->
      OpenAIService.pr_confidence r = OpenAIService.Finite 75).
Proof.
  revert w r w'.
  change (whenever (OpenAIService.processOne StringToNumber ArrayToString rec)
            (fun r =>
               (forall q, read rec "confidence"
                          = OpenAIService.JNumber (OpenAIService.Finite q) ->
                  OpenAIService.pr_confidence r
                  = OpenAIService.Finite
                      (if Qeq_bool q 0 then 75
                       else JSNum.Math_max 50 (JSNum.Math_min 95 q)))
               /\ (read rec "confidence" = OpenAIService.JUndefined
                   \/ read rec "confidence" = OpenAIService.JNull ->
                   OpenAIService.pr_confidence r = OpenAIService.Finite 75))).
  unfold OpenAIService.processOne.
  do 3 (eapply whenever_bind; [apply whenever_any | intros ? _]).
  eapply whenever_bind; [apply whenever_prop | intros confidence ->].
  eapply whenever_bind with
    (P := fun c =>
            (forall q, read rec "confidence"
                       = OpenAIService.JNumber (OpenAIService.Finite q) ->
               c = OpenAIService.Finite (if Qeq_bool q 0 then 75 else q))
            /\ (read rec "confidence" = OpenAIService.JUndefined
                \/ read rec "confidence" = OpenAIService.JNull ->
                c = OpenAIService.Finite 75)).
  - intros w c w' E. split.
    + intros q Hq. rewrite Hq in E. unfold OpenAIService.or_else in E.
      cbn [OpenAIService.truthy] in E. destruct (Qeq_bool q 0); cbn in E;
        injection E as <- _; reflexivity.
    + intros [Hq|Hq]; rewrite Hq in E; cbn in E; injection E as <- _; reflexivity.
  - intros c [Hnum Hmissing].
    do 9 (eapply whenever_bind; [apply whenever_any | intros ? _]).
    apply whenever_ret. cbn [OpenAIService.pr_confidence]. split.
    + intros q Hq. rewrite (Hnum q Hq). destruct (Qeq_bool q 0); [reflexivity|].
      unfold OpenAIService.Math_min, OpenAIService.Math_max, JSNum.Math_min, JSNum.Math_max.
      cbn [OpenAIService.num_leb].
      destruct (Qle_bool 95 q); cbn [OpenAIService.num_leb];
        [reflexivity | destruct (Qle_bool 50 q); reflexivity].
    + intros H. now rewrite (Hmissing H).
Qed.

Lemma numeric_confidence_is_clamped_witness :
  exists r w',
    OpenAIService.processOne Scenario.noNumericString Scenario.emptyJoin
      Cases.zeroConfidence Scenario.emptyWorld = (Normal r, w')
    /\ OpenAIService.pr_confidence r = OpenAIService.Finite 75.
Proof.
  destruct (OpenAIService.processOne Scenario.noNumericString Scenario.emptyJoin
              Cases.zeroConfidence Scenario.emptyWorld) as [[r|e] w'] eqn:E.
  - exists r, w'. split; [reflexivity|].
    exact (proj1 (numeric_confidence_is_clamped _ _ _ _ _ _ E) 0%Q eq_refl).
  - vm_compute in E. discriminate E.
Defined.

(** ** Priorities *)

(** The order LOW < MEDIUM < HIGH < CRITICAL. *)
Definition priorityRank (priority : string) : nat :=
  if String.eqb priority "CRITICAL" then 3
  else if String.eqb priority "HIGH" then 2
  else if String.eqb priority "MEDIUM" then 1
  else 0.

Lemma Qle_bool_lt (a b : Q) : Qle_bool a b = false -> (b < a)%Q.
Proof.
  intros H. apply Qnot_le_lt. intros Hle. apply Qle_bool_iff in Hle. congruence.
Qed.

(** Whatever the safety margin configured, [calculatePriority] never
    lowers the priority when fewer hours remain; the priority is CRITICAL
    exactly when no hours remain, and LOW exactly when more than 50 hours
    and more than the safety margin remain. *)
Theorem calculatePriority_monotone {MaintenanceInterval : Type}
  (config : Scheduler.SchedulingConfig) (interval1 interval2 : MaintenanceInterval)
  (hours1 hours2 : Q) :
  ((hours1 <= hours2)%Q ->
   (priorityRank (MaintenanceScheduler.calculatePriority config hours2 interval2)
    <= priorityRank (MaintenanceScheduler.calculatePriority config hours1 interval1))%nat)
  /\ (MaintenanceScheduler.calculatePriority config hours1 interval1 = "CRITICAL"
      <-> (hours1 <= 0)%Q)
  /\ (MaintenanceScheduler.calculatePriority config hours1 interval1 = "LOW"
      <-> (0 < hours1 /\ Scheduler.minSafetyMarginHours config < hours1 /\ 50 < hours1)%Q).
Proof.
  unfold MaintenanceScheduler.calculatePriority, JSNum.leb.
  set (margin := Scheduler.minSafetyMarginHours config).
  destruct (Qle_bool hours1 0) eqn:A1; destruct (Qle_bool hours1 margin) eqn:B1;
    destruct (Qle_bool hours1 50) eqn:C1;
    destruct (Qle_bool hours2 0) eqn:A2; destruct (Qle_bool hours2 margin) eqn:B2;
    destruct (Qle_bool hours2 50) eqn:C2;
    repeat match goal with
      | H : Qle_bool _ _ = true |- _ => apply Qle_bool_iff in H
      | H : Qle_bool _ _ = false |- _ => apply Qle_bool_lt in H
      end;
    cbn [priorityRank String.eqb Ascii.eqb Bool.eqb];
    (split; [intros Hle; try lia; exfalso; lra|]);
    (split; split; try discriminate; try reflexivity; intros H;
     try (exfalso; lra); try lra; try (repeat split; lra)).
Qed.

(** ** Low-utilization periods *)

Definition lowDay (day : Route.DailyUtilization) : bool :=
  JSNum.ltb (Route.du_flightTime day) 2.

Lemma lowDay_lt day : lowDay day = true -> (Route.du_flightTime day < 2)%Q.
Proof.
  unfold lowDay, JSNum.ltb. intros H. apply negb_true_iff in H. now apply Qle_bool_lt.
Qed.

(** The number of runs of consecutive low days that start in [dailyData],
    given whether the day before it was low. *)
Fixpoint newRuns (inRun : bool) (dailyData : list Route.DailyUtilization) : nat :=
  match dailyData with
  | [] => 0
  | day :: rest =>
      if lowDay day
      then (if inRun then 0 else 1) + newRuns true rest
      else newRuns false rest
  end.

Section LowPeriods.

Context {Date : Type}.
Variable Date_parse : string -> Date.
Variable all : list Route.DailyUtilization.

(** A period as the loop builds them: it starts and ends on low days of
    the data, and its average is below the threshold. *)
Definition wellFormedPeriod (period : @Route.LowPeriod Date) : Prop :=
  (Route.lp_averageDaily period < 2)%Q
  /\ exists first last,
       In first all /\ In last all /\ lowDay first = true /\ lowDay last = true
       /\ Route.lp_start period = Date_parse (Route.du_date first)
       /\ Route.lp_end period = Date_parse (Route.du_date last).

Lemma lowPeriodsFrom_wellFormed (dailyData : list Route.DailyUtilization) :
  forall currentPeriod periods,
    incl dailyData all ->
    (forall period, currentPeriod = Some period -> wellFormedPeriod period) ->
    Forall wellFormedPeriod periods ->
    Forall wellFormedPeriod (Route.lowPeriodsFrom Date_parse dailyData currentPeriod periods).
Proof.
  induction dailyData as [|day rest IH]; intros currentPeriod periods Hincl Hcur Hacc;
    cbn [Route.lowPeriodsFrom].
  - destruct currentPeriod as [period|]; [|exact Hacc].
    apply Forall_app. split; [exact Hacc | constructor; [now apply Hcur | constructor]].
  - assert (Hrest : incl rest all) by (intros d Hd; apply Hincl; now right).
    assert (Hday : In day all) by (apply Hincl; now left).
    fold (lowDay day). destruct (lowDay day) eqn:Hlow.
    + pose proof (lowDay_lt day Hlow) as Hlt.
      destruct currentPeriod as [period|]; apply IH; try assumption.
      * intros p [= <-]. destruct (Hcur period eq_refl) as (Havg & first & last & H).
        split; cbn [Route.lp_averageDaily Route.lp_start Route.lp_end].
        -- apply Qlt_shift_div_r; [reflexivity | lra].
        -- exists first, day. intuition.
      * intros p [= <-]. split; cbn [Route.lp_averageDaily Route.lp_start Route.lp_end];
          [exact Hlt | exists day, day; intuition].
    + destruct currentPeriod as [period|]; apply IH; try assumption; try discriminate.
      apply Forall_app. split; [exact Hacc | constructor; [now apply Hcur | constructor]].
Qed.

End LowPeriods.

Lemma lowPeriodsFrom_length {Date : Type} (Date_parse : string -> Date)
  (dailyData : list Route.DailyUtilization) :
  forall currentPeriod periods,
    length (Route.lowPeriodsFrom Date_parse dailyData currentPeriod periods)
    = (length periods + match currentPeriod with Some _ => 1 | None => 0 end
       + newRuns match currentPeriod with Some _ => true | None => false end
           dailyData)%nat.
Proof.
  induction dailyData as [|day rest IH]; intros currentPeriod periods;
    cbn [Route.lowPeriodsFrom newRuns].
  - destruct currentPeriod; [rewrite length_app; cbn; lia | lia].
  - fold (lowDay day). destruct (lowDay day); destruct currentPeriod; rewrite IH;
      rewrite ?length_app; cbn [length]; lia.
Qed.

Lemma newRuns_zero (dailyData : list Route.DailyUtilization) :
  newRuns false dailyData = 0%nat <-> Forall (fun day => lowDay day = false) dailyData.
Proof.
  induction dailyData as [|day rest IH]; cbn [newRuns].
  - split; [constructor | reflexivity].
  - destruct (lowDay day) eqn:Hlow.
    + split; [lia | intros H; inversion H; congruence].
    + rewrite IH. split; [now constructor | intros H; now inversion H].
Qed.

(** [identifyLowPeriods] returns at most three periods, the first ones
    of the data: one per run of consecutive days flown less than two
    hours.  Each starts and ends on such a day and reports an average
    below two hours.  It returns no period exactly when no day of the data
    is flown less than two hours. *)
Theorem identifyLowPeriods_runs {Date : Type} (Date_parse : string -> Date)
  (dailyData : list Route.DailyUtilization) :
  let periods := Route.identifyLowPeriods Date_parse dailyData in
  length periods = Nat.min 3 (newRuns false dailyData)
  /\ Forall (wellFormedPeriod Date_parse dailyData) periods
  /\ (periods = [] <-> Forall (fun day => lowDay day = false) dailyData).
Proof.
  unfold Route.identifyLowPeriods. cbv zeta.
  pose proof (lowPeriodsFrom_length Date_parse dailyData None []) as Hlen.
  cbn [length Nat.add] in Hlen.
  split; [now rewrite length_firstn, Hlen|].
  split.
  - apply Forall_firstn_of. apply lowPeriodsFrom_wellFormed;
      [apply incl_refl | discriminate | constructor].
  - rewrite <- newRuns_zero, <- Hlen.
    destruct (Route.lowPeriodsFrom Date_parse dailyData None []); cbn; split;
      congruence.
Qed.

(** ** Maintenance impact *)

(** The risk that [calculateMaintenanceImpact] reports is HIGH exactly
    when the utilization exceeds 85, whatever the flights: a high cycle
    rate alone raises it to MEDIUM only.  The urgency is HIGH for a
    utilization above 85 and NORMAL otherwise.  The recommended action is
    the one of the risk, and every risk above LOW comes with a factor that
    explains it. *)
Theorem calculateMaintenanceImpact_risk {AnyAircraft : Type} (aircraft : AnyAircraft)
  (utilization : Q) (recentFlights : list Route.RecentFlight) :
  let impact := Route.calculateMaintenanceImpact aircraft utilization recentFlights in
  (Route.mi_risk impact = "HIGH" <-> (85 < utilization)%Q)
  /\ (Route.mi_urgency impact = if JSNum.gtb utilization 85 then "HIGH" else "NORMAL")
  /\ In (Route.mi_risk impact) ["LOW"; "MEDIUM"; "HIGH"]
  /\ (Route.mi_risk impact <> "LOW" -> Route.mi_factors impact <> [])
  /\ Route.mi_recommendedAction impact
     = (if String.eqb (Route.mi_risk impact) "HIGH"
        then "Schedule maintenance within 7 days"
        else if String.eqb (Route.mi_risk impact) "MEDIUM"
        then "Monitor closely, schedule within 30 days"
        else "Normal maintenance schedule").
Proof.
  unfold Route.calculateMaintenanceImpact. cbv zeta.
  assert (Hspec : if JSNum.gtb utilization 85 then (85 < utilization)%Q
                  else (utilization <= 85)%Q).
  { unfold JSNum.gtb. destruct (Qle_bool utilization 85) eqn:Hu; cbn [negb];
      [now apply Qle_bool_iff | now apply Qle_bool_lt]. }
  destruct (JSNum.gtb utilization 85);
    match goal with |- context [JSNum.gtb (?c / 30) (8 # 10)] =>
      destruct (JSNum.gtb (c / 30) (8 # 10)) end;
    match goal with |- context [if JSNum.gtb ?a ?b then _ ++ _ else _] =>
      destruct (JSNum.gtb a b) end;
    cbn [Route.mi_risk Route.mi_urgency Route.mi_factors Route.mi_recommendedAction
         String.eqb Ascii.eqb Bool.eqb app];
    (split; [split; [try discriminate; intros _; assumption
                    | try reflexivity; intros H; exfalso; lra]|]);
    (split; [reflexivity|]); (split; [cbn; auto|]);
    (split; [|reflexivity]); try discriminate; intros H; now elim H.
Qed.
